(** * Virtual-sample composition: a shallow embedding of
      [create_virtual_sample.py] and the properties of its pipeline.

    Conventions of the embedding.
    - A Python [str] is a Rocq [string]; characters are the code points
      below 256, on which the regular-expression class [\d] is exactly
      ['0'..'9'].
    - A value that is [str] or [None] (the [.text] of an XML element, an
      optional command-line argument) is an [option string].
    - A Python [dict] is an insertion-ordered association list with the
      dictionary operations [dict_get], [dict_set], [dict_mem].
    - An [xml.etree] element is an [Element] tree; [find], [findall] and
      [.text] are the accessors the script uses.
    - [main] runs in a small monad that threads the trace of the
      observable effects (downloads, files written, curl calls) and stops
      at the first exception.  Console output ([print]) and the
      pretty-printing of XML to text are not part of the model: a written
      XML file is recorded as the element tree that was serialised.
    - The file system: [os.makedirs] raises [FileNotFoundError] on the
      empty path and otherwise creates the directory; opening a file for
      writing succeeds.  Failures that depend on the state of the disk
      (permissions, a full device) are outside the model. *)

From Stdlib Require Import String Ascii List Bool Arith Lia.
Import ListNotations.
Local Open Scope list_scope.
Local Open Scope string_scope.

(* ------------------------------------------------------------------ *)
(** ** Python values *)

(** [str | None]. *)
Abbreviation pytext := (option string).

(** Truth value of a [str | None]: [None] and the empty string are false. *)
Definition truthy (t : pytext) : bool :=
  match t with
  | Some EmptyString => false
  | Some _ => true
  | None => false
  end.

(** Equality of two [str | None] values. *)
Definition pytext_eq_dec (a b : pytext) : {a = b} + {a <> b}.
Proof. decide equality. apply string_dec. Defined.

Definition pytext_eqb (a b : pytext) : bool :=
  if pytext_eq_dec a b then true else false.

(** The double-quote character, as a one-character string. *)
Definition dquote : string := String (ascii_of_nat 34) EmptyString.

(** [sep.join(parts)]. *)
Fixpoint join (sep : string) (parts : list string) : string :=
  match parts with
  | [] => ""
  | [p] => p
  | p :: rest => p ++ sep ++ join sep rest
  end.

(** [str(x)] inside an f-string for a [str | None]. *)
Definition fmt (t : pytext) : string :=
  match t with
  | Some s => s
  | None => "None"
  end.

(* ------------------------------------------------------------------ *)
(** ** Dictionaries: insertion-ordered association lists *)

Section Dict.
Variables K V : Type.
Variable K_eq_dec : forall a b : K, {a = b} + {a <> b}.

Definition dict := list (K * V).

(** [d.get(k)], [None] when the key is absent. *)
Fixpoint dict_get (d : dict) (k : K) : option V :=
  match d with
  | [] => None
  | (k', v) :: d' => if K_eq_dec k k' then Some v else dict_get d' k
  end.

(** [k in d]. *)
Definition dict_mem (d : dict) (k : K) : bool :=
  match dict_get d k with
  | Some _ => true
  | None => false
  end.

(** [d[k] = v]: an existing key keeps its position, a new key goes last. *)
Fixpoint dict_set (d : dict) (k : K) (v : V) : dict :=
  match d with
  | [] => [(k, v)]
  | (k', v') :: d' =>
      if K_eq_dec k k' then (k', v) :: d' else (k', v') :: dict_set d' k v
  end.

(** Iteration order of the keys. *)
Definition dict_keys (d : dict) : list K := map fst d.

(** Keys are unique: the invariant of every dictionary built by
    [dict_set] from the empty one. *)
Definition dict_wf (d : dict) : Prop := NoDup (dict_keys d).
End Dict.

Arguments dict_get {K V} K_eq_dec d k.
Arguments dict_mem {K V} K_eq_dec d k.
Arguments dict_set {K V} K_eq_dec d k v.
Arguments dict_keys {K V} d.
Arguments dict_wf {K V} d.

(* ------------------------------------------------------------------ *)
(** ** Exceptions and results *)

(** The exceptions the script can end with. *)
Inductive exn :=
| ValueError (msg : string)        (* raise ValueError(msg) *)
| Exception_ (msg : string)        (* raise Exception(msg) *)
| AttributeError                   (* [.text], [.find], [.attrib] on None *)
| TypeError                        (* iterating over None *)
| KeyError (key : string)          (* missing dictionary key *)
| FileNotFoundError (path : string)
| RequestException                 (* requests: connection or HTTP error *)
| ParseError                       (* ET.fromstring on malformed XML *)
| SystemExit (code : nat).         (* exit(code), sys.exit(code) *)

Inductive result (A : Type) :=
| Ok (a : A)
| Raise (e : exn).
Arguments Ok {A} a.
Arguments Raise {A} e.

Definition rbind {A B} (c : result A) (k : A -> result B) : result B :=
  match c with
  | Ok a => k a
  | Raise e => Raise e
  end.

Notation "x <- c ;; k" := (rbind c (fun x => k))
  (at level 61, c at next level, right associativity).

(** A [for] loop that threads an accumulator and stops at the first
    exception. *)
Fixpoint for_each {A S} (step : S -> A -> result S) (xs : list A) (s : S) : result S :=
  match xs with
  | [] => Ok s
  | x :: xs' => s' <- step s x ;; for_each step xs' s'
  end.

(* ------------------------------------------------------------------ *)
(** ** XML elements (xml.etree.ElementTree) *)

#[warnings="-register-all"]
Inductive Element :=
| mkElement (tag : string) (attrib : dict string string) (text : pytext)
            (children : list Element).

(** The fields of an element. *)
Definition tag (e : Element) : string := let (t, _, _, _) := e in t.
Definition attrib (e : Element) : dict string string := let (_, a, _, _) := e in a.
Definition text (e : Element) : pytext := let (_, _, t, _) := e in t.
Definition children (e : Element) : list Element := let (_, _, _, c) := e in c.

(** [ET.SubElement(parent, name)] followed by [.text = t]: a childless
    element. *)
Definition leaf (name : string) (t : pytext) : Element := mkElement name [] t [].

(** [e.find(name)]: the first direct child with that tag. *)
Definition find (e : Element) (name : string) : option Element :=
  List.find (fun c => tag c =? name) (children e).

(** All proper descendants in document order. *)
Fixpoint descendants (e : Element) : list Element :=
  match e with
  | mkElement _ _ _ cs =>
      (fix go (l : list Element) : list Element :=
         match l with
         | [] => []
         | c :: l' => c :: (descendants c ++ go l')%list
         end) cs
  end.

(** [e.findall(".//name")]. *)
Definition findall_desc (e : Element) (name : string) : list Element :=
  filter (fun c => tag c =? name) (descendants e).

(** [e.find(".//name")]. *)
Definition find_desc (e : Element) (name : string) : option Element :=
  hd_error (findall_desc e name).

(** [x.text] where [x] is the result of a [find]. *)
Definition text_of (o : option Element) : result pytext :=
  match o with
  | Some e => Ok (text e)
  | None => Raise AttributeError
  end.

(** [x.find(name)] where [x] is the result of a [find]. *)
Definition find_in (o : option Element) (name : string) : result (option Element) :=
  match o with
  | Some e => Ok (find e name)
  | None => Raise AttributeError
  end.

(* ------------------------------------------------------------------ *)
(** ** Regular expressions (the fragment of [re] the script uses) *)

Module Re.

(** Patterns: literal text, [\d+], one capturing group, concatenation. *)
Inductive regex :=
| Lit (s : string)
| Digits1
| Group (r : regex)
| Seq (r1 r2 : regex).

(** [\d] on code points below 256. *)
Definition is_digit (c : ascii) : bool :=
  ((48 <=? nat_of_ascii c)%nat && (nat_of_ascii c <=? 57)%nat)%bool.

(** Remove a literal from the front of the subject. *)
Fixpoint strip_prefix (p s : string) : option string :=
  match p, s with
  | EmptyString, _ => Some s
  | String a p', String b s' => if Ascii.eqb a b then strip_prefix p' s' else None
  | String _ _, EmptyString => None
  end.

(** [\d+], greedy with backtracking: consume a digit, first try to go on
    consuming, and only if the rest of the pattern then fails hand the
    subject to the continuation here. *)
Fixpoint digits1 {A} (s : string) (k : string -> option A) : option A :=
  match s with
  | String c s' =>
      if is_digit c then
        match digits1 s' k with
        | Some m => Some m
        | None => k s'
        end
      else None
  | EmptyString => None
  end.

(** The first [n] characters of [s]. *)
Fixpoint take (n : nat) (s : string) : string :=
  match n, s with
  | S n', String c s' => String c (take n' s')
  | _, _ => EmptyString
  end.

(** Backtracking matcher anchored at the start of [s]; [g] is the text
    captured by group 1 so far, [k] the rest of the pattern. *)
Fixpoint rmatch {A} (r : regex) (s : string) (g : pytext)
         (k : pytext -> string -> option A) : option A :=
  match r with
  | Lit l =>
      match strip_prefix l s with
      | Some s' => k g s'
      | None => None
      end
  | Digits1 => digits1 s (k g)
  | Group r' =>
      rmatch r' s g
             (fun _ s' => k (Some (take (String.length s - String.length s') s)) s')
  | Seq r1 r2 => rmatch r1 s g (fun g' s' => rmatch r2 s' g' k)
  end.

(** A match object; only [group(1)] is ever read. *)
Record Match := { group1 : pytext }.

(** The match of [r] that starts at the first character of [s]. *)
Definition match_at (r : regex) (s : string) : option Match :=
  rmatch r s None (fun g _ => Some {| group1 := g |}).

(** [re.search(r, s)]: the match at the leftmost position that has one. *)
Fixpoint search (r : regex) (s : string) : option Match :=
  match match_at r s with
  | Some m => Some m
  | None =>
      match s with
      | String _ s' => search r s'
      | EmptyString => None
      end
  end.

End Re.

(* ------------------------------------------------------------------ *)
(** ** The script: constants and pure functions *)

(** The default checklist of the script. *)
Definition DEFAULT_CHECKLIST : string := "ERC000011".

(** The reserved tag of the checklist attribute. *)
Definition ENA_CHECKLIST : string := "ENA-CHECKLIST".

(** A sample's attributes: tag |-> (value, units). *)
Abbreviation attributes := (dict pytext (pytext * pytext)).

(** The dictionary operations on attribute sets. *)
Definition attr_get (d : attributes) (k : pytext) : option (pytext * pytext) :=
  dict_get pytext_eq_dec d k.
Definition attr_mem (d : attributes) (k : pytext) : bool :=
  dict_mem pytext_eq_dec d k.
Definition attr_set (d : attributes) (k : pytext) (v : pytext * pytext) : attributes :=
  dict_set pytext_eq_dec d k v.

(** Body of the loop of [parse_sample_attributes]. *)
Definition parse_attribute (acc : attributes) (attr : Element) : result attributes :=
  tag <- text_of (find attr "TAG") ;;
  value <- text_of (find attr "VALUE") ;;
  let units :=
    match find attr "UNITS" with
    | Some u => text u
    | None => None
    end in
  Ok (attr_set acc tag (value, units)).

(** The attributes of a SAMPLE element; a tag met twice keeps its first
    position and its last value. *)
Definition parse_sample_attributes (sample : Element) : result attributes :=
  match find sample "SAMPLE_ATTRIBUTES" with
  | Some sa => for_each parse_attribute (children sa) []
  | None => Raise TypeError
  end.

(** The fixed sentence of the description, up to the list of samples. *)
Definition TITLE_PREFIX : string :=
  "This sample is a virtual sample of assembled raw reads from multiple physical "
  ++ "samples of genome and is composed of physical samples ".

(** The value of a placeholder for a missing mandatory field. *)
Definition SENTINEL : string := "missing: synthetic construct".

(** The first loop of [create_virtual_sample]: one SAMPLE_ATTRIBUTE per
    common attribute, the reserved tag skipped. *)
Fixpoint common_attribute_elements (items : attributes) : list Element :=
  match items with
  | [] => []
  | (tag, (value, units)) :: rest =>
      if pytext_eq_dec tag (Some ENA_CHECKLIST) then common_attribute_elements rest
      else
        mkElement "SAMPLE_ATTRIBUTE" [] None
          ([leaf "TAG" tag; leaf "VALUE" value]
             ++ (if truthy units then [leaf "UNITS" units] else []))%list
        :: common_attribute_elements rest
  end.

(** The second loop: a placeholder for each mandatory field that is not a
    key of the common attributes. *)
Fixpoint mandatory_attribute_elements (common_attributes : attributes)
         (mandatory_fields : list pytext) : list Element :=
  match mandatory_fields with
  | [] => []
  | mandatory_field :: rest =>
      if attr_mem common_attributes mandatory_field
      then mandatory_attribute_elements common_attributes rest
      else
        mkElement "SAMPLE_ATTRIBUTE" [] None
          [leaf "TAG" mandatory_field; leaf "VALUE" (Some SENTINEL)]
        :: mandatory_attribute_elements common_attributes rest
  end.

(** The composed SAMPLE element: TITLE, SAMPLE_NAME, SAMPLE_ATTRIBUTES. *)
Definition create_virtual_sample
           (common_attributes : attributes) (sample_codes : list string)
           (common_taxon_id common_scientific_name : pytext)
           (alias : string) (center : pytext) (checklist : pytext)
           (mandatory_fields : list pytext) : Element :=
  let sample_attributes :=
    match center with
    | Some c => if truthy center then [("alias", alias); ("center_name", c)]
                else [("alias", alias)]
    | None => [("alias", alias)]
    end in
  let title :=
    leaf "TITLE" (Some (TITLE_PREFIX ++ join ", " sample_codes ++ ".")) in
  let sample_name :=
    mkElement "SAMPLE_NAME" [] None
      [leaf "TAXON_ID" common_taxon_id;
       leaf "SCIENTIFIC_NAME" common_scientific_name] in
  let checklist_attribute :=
    if truthy checklist then
      [mkElement "SAMPLE_ATTRIBUTE" [] None
         [leaf "TAG" (Some ENA_CHECKLIST); leaf "VALUE" checklist]]
    else [] in
  mkElement "SAMPLE" sample_attributes None
    [title; sample_name;
     mkElement "SAMPLE_ATTRIBUTES" [] None
       (checklist_attribute
          ++ common_attribute_elements common_attributes
          ++ mandatory_attribute_elements common_attributes mandatory_fields)%list].

(** The submission document with the single action ADD. *)
Definition create_submission_xml : Element :=
  mkElement "SUBMISSION" [] None
    [mkElement "ACTIONS" [] None
       [mkElement "ACTION" [] None [leaf "ADD" None]]].

(** The release document: the actions MODIFY and RELEASE of the sample. *)
Definition create_release_xml (sample_code : string) : Element :=
  mkElement "SUBMISSION" [] None
    [mkElement "ACTIONS" [] None
       [mkElement "ACTION" [] None [leaf "MODIFY" None];
        mkElement "ACTION" [] None
          [mkElement "RELEASE" [("target", sample_code)] None []]]].

(** The two patterns of [extract_sample_code_from_response]. *)
Definition accession_pattern (shape : string) : Re.regex :=
  Re.Seq (Re.Lit shape)
         (Re.Seq (Re.Group (Re.Seq (Re.Lit "ERS") Re.Digits1)) (Re.Lit dquote)).

(** The success shape: [<SAMPLE accession=] and an opening quote. *)
Definition SUCCESS_SHAPE : string := "<SAMPLE accession=" ++ dquote.
(** The error shape: [accession: ] and an opening quote. *)
Definition ERROR_SHAPE : string := "accession: " ++ dquote.

(** The accession of a response: the success pattern first, then the
    error pattern, else [None]. *)
Definition extract_sample_code_from_response (response : string) : pytext :=
  match Re.search (accession_pattern SUCCESS_SHAPE) response with
  | Some m => Re.group1 m
  | None =>
      match Re.search (accession_pattern ERROR_SHAPE) response with
      | Some m => Re.group1 m
      | None => None
      end
  end.

(* ------------------------------------------------------------------ *)
(** ** The outside world and the trace of effects *)

(** A [requests] response: the status code and the XML document its body
    parses to ([None] when the body is not well-formed XML). *)
Record Response := { status_code : nat; content : option Element }.

(** What the run finds outside the process. *)
Record World := {
  (** [~/.EBI/ebi.ini]: account and password, [None] when there is no file *)
  credentials : option (string * string);
  (** [os.path.exists]; false of the empty path on every system *)
  path_exists : string -> bool;
  (** the text of a file, [None] when it cannot be opened *)
  read_file : string -> option string;
  (** [requests.get(url)], [None] when the request itself fails *)
  http_get : string -> option Response;
  (** standard output of a shell command, [None] on a non-zero exit *)
  run_curl : string -> option string
}.

Inductive payload :=
| XmlDoc (doc : Element)          (* prettify_xml(doc) *)
| ResponseText (r : Response)     (* response.text *)
| Text (s : string).

(** Observable effects, in the order they happen. *)
Inductive event :=
| HttpGet (url : string)
| MakeDirs (path : string)
| WriteFile (path : string) (data : payload)
| Subprocess (command : string).

(** A computation: the effects it performed and how it ended. *)
Definition M (A : Type) : Type := list event * result A.

Definition mret {A} (a : A) : M A := ([], Ok a).

Definition mbind {A B} (c : M A) (k : A -> M B) : M B :=
  match c with
  | (t1, Ok a) => let (t2, r) := k a in ((t1 ++ t2)%list, r)
  | (t1, Raise e) => (t1, Raise e)
  end.

Definition emit (e : event) : M unit := ([e], Ok tt).
Definition throw {A} (e : exn) : M A := ([], Raise e).
Definition lift {A} (r : result A) : M A := ([], r).

Notation "x <-- c ;; k" := (mbind c (fun x => k))
  (at level 61, c at next level, right associativity).
Notation "c ;;; k" := (mbind c (fun _ => k))
  (at level 61, right associativity).

Fixpoint mfor_each {A S} (step : S -> A -> M S) (xs : list A) (s : S) : M S :=
  match xs with
  | [] => mret s
  | x :: xs' => s' <-- step s x ;; mfor_each step xs' s'
  end.

(** [path.endswith('/')]. *)
Definition ends_with_slash (s : string) : bool :=
  match rev (list_ascii_of_string s) with
  | c :: _ => Ascii.eqb c "/"%char
  | [] => false
  end.

(** [os.path.join(a, b)] on POSIX. *)
Definition path_join (a b : string) : string :=
  if prefix "/" b then b
  else if ((a =? "") || ends_with_slash a)%bool then a ++ b
  else a ++ "/" ++ b.

(* ------------------------------------------------------------------ *)
(** ** The script: functions with effects *)

(** The address of a sample document in the archive's browser API. *)
Definition sample_url (sample_code : string) : string :=
  "https://www.ebi.ac.uk/ena/browser/api/xml/" ++ sample_code
  ++ "?download=true&includeLinks=false".

(** The address of a checklist document. *)
Definition checklist_url (accession : string) : string :=
  "https://www.ebi.ac.uk/ena/browser/api/xml/" ++ accession.

Section Script.
Variable w : World.

(** The lookup of one sample: on status 200 the response is stored in the
    output directory and parsed; any other status raises. *)
Definition download_sample_xml (output_dir sample_code : string) : M Element :=
  let url := sample_url sample_code in
  emit (HttpGet url) ;;;
  match http_get w url with
  | None => throw RequestException
  | Some response =>
      if (status_code response =? 200)%nat then
        emit (WriteFile (path_join output_dir (sample_code ++ ".xml"))
                        (ResponseText response)) ;;;
        match content response with
        | Some root => mret root
        | None => throw ParseError
        end
      else throw (Exception_ ("Failed to download XML for sample code " ++ sample_code))
  end.

(** The account and password of the credentials file; the script exits
    when there is no such file. *)
Definition read_credentials : M (string * string) :=
  match credentials w with
  | Some c => mret c
  | None => throw (SystemExit 1)
  end.

(** The two submission servers. *)
Definition PRODUCTION_URL : string := "https://www.ebi.ac.uk/ena/submit/drop-box/submit/".
Definition TEST_URL : string := "https://wwwdev.ebi.ac.uk/ena/submit/drop-box/submit/".

(** The shell command of [submit_to_ebi]: the production server when
    [submit] is set, the test server otherwise. *)
Definition curl_command (account password submission : string) (samples : pytext)
           (submit : bool) : string :=
  let url := if submit then PRODUCTION_URL else TEST_URL in
  "curl -u " ++ dquote ++ account ++ ":" ++ password ++ dquote
  ++ " -F " ++ dquote ++ "SUBMISSION=@" ++ submission ++ dquote
  ++ (if truthy samples
      then " -F " ++ dquote ++ "SAMPLE=@" ++ fmt samples ++ dquote
      else "")
  ++ " " ++ url.

(** The transport: runs curl; on success stores the response in the output
    directory and returns it, on a failed command returns [None]. *)
Definition submit_to_ebi (account password submission : string) (samples : pytext)
           (submit : bool) (output_dir : string) : M pytext :=
  let command := curl_command account password submission samples submit in
  emit (Subprocess command) ;;;
  match run_curl w command with
  | Some stdout =>
      emit (WriteFile (path_join output_dir "submission_response.xml") (Text stdout)) ;;;
      mret (Some stdout)
  | None => mret None
  end.

(** What [mandatory_fields_and_units] returns:
    name, mandatory fields, fields with units, recommended fields. *)
Record ChecklistSpec := {
  name : pytext;
  mandatory_fields : list pytext;
  fields_with_units : dict pytext pytext;
  recommended_fields : list pytext
}.

(** Body of the loop over the FIELD elements; the state is
    (mandatory_fields, fields_with_units, recommended_fields). *)
Definition classify_field
           (st : list pytext * dict pytext pytext * list pytext) (field : Element)
  : result (list pytext * dict pytext pytext * list pytext) :=
  let '(mandatory, units, recommended) := st in
  field_name <- text_of (find field "NAME") ;;
  let units :=
    match find field "UNITS" with
    | Some units_element =>
        let unit_value :=
          match find units_element "UNIT" with
          | Some unit_element => text unit_element
          | None => None
          end in
        dict_set pytext_eq_dec units field_name unit_value
    | None => units
    end in
  marker <- text_of (find field "MANDATORY") ;;
  let mandatory :=
    if pytext_eqb marker (Some "mandatory") then (mandatory ++ [field_name])%list
    else mandatory in
  marker' <- text_of (find field "MANDATORY") ;;
  let recommended :=
    if pytext_eqb marker' (Some "recommended") then (recommended ++ [field_name])%list
    else recommended in
  Ok (mandatory, units, recommended).

(** The part of [mandatory_fields_and_units] after the download: reading
    the checklist document. *)
Definition read_checklist (root : Element) : result ChecklistSpec :=
  desc_name <- find_in (find_desc root "DESCRIPTOR") "NAME" ;;
  name <- text_of desc_name ;;
  st <- for_each classify_field (findall_desc root "FIELD") ([], [], []) ;;
  let '(mandatory, units, recommended) := st in
  Ok {| name := name; mandatory_fields := mandatory;
        fields_with_units := units; recommended_fields := recommended |}.

(** The checklist resolver: a failed request or an HTTP error status ends
    the script with [exit(1)]. *)
Definition mandatory_fields_and_units (checklist_accession : string) : M ChecklistSpec :=
  let url := checklist_url checklist_accession in
  emit (HttpGet url) ;;;
  match http_get w url with
  | None => throw (SystemExit 1)
  | Some response =>
      if ((400 <=? status_code response)%nat && (status_code response <? 600)%nat)%bool
      then throw (SystemExit 1)
      else
        match content response with
        | Some root => lift (read_checklist root)
        | None => throw ParseError
        end
  end.

(** The variables [main] threads through its loop over the sample codes. *)
Record loop_state := {
  all_attributes : list attributes;
  sample_aliases : list string;
  common_taxon_id : pytext;
  common_scientific_name : pytext;
  checklist_set : list string      (* a set: no duplicates, see [set_add] *)
}.

(** The variables before the loop, lines 248-252. *)
Definition initial_state : loop_state :=
  {| all_attributes := []; sample_aliases := [];
     common_taxon_id := None; common_scientific_name := None;
     checklist_set := [] |}.

(** [checklist_set.add(x)]. *)
Definition set_add (x : string) (s : list string) : list string :=
  if in_dec string_dec x s then s else (s ++ [x])%list.

(** [sample.attrib[key]] where [sample] is the result of a [find]. *)
Definition attrib_of (o : option Element) (key : string) : result string :=
  match o with
  | None => Raise AttributeError
  | Some e =>
      match dict_get string_dec (attrib e) key with
      | Some v => Ok v
      | None => Raise (KeyError key)
      end
  end.

(** The check of one taxonomy field against the value kept so far. *)
Definition check_common (what sample_code : string) (common value : pytext)
  : result pytext :=
  match common with
  | None => Ok value
  | Some _ =>
      if pytext_eq_dec common value then Ok common
      else Raise (ValueError (what ++ " mismatch for sample " ++ sample_code ++ ": "
                              ++ fmt value ++ " vs " ++ fmt common))
  end.

(** One iteration of the loop, after the download. *)
Definition process_sample (st : loop_state) (sample_code : string) (root : Element)
  : result loop_state :=
  let sample := find root "SAMPLE" in
  alias <- attrib_of sample "alias" ;;
  sample_name <- find_in sample "SAMPLE_NAME" ;;
  taxon_elem <- find_in sample_name "TAXON_ID" ;;
  taxon_id <- text_of taxon_elem ;;
  name_elem <- find_in sample_name "SCIENTIFIC_NAME" ;;
  scientific_name <- text_of name_elem ;;
  common_taxon_id' <- check_common "Taxon ID" sample_code (common_taxon_id st) taxon_id ;;
  common_scientific_name' <-
    check_common "Scientific name" sample_code (common_scientific_name st) scientific_name ;;
  attributes <-
    match sample with
    | Some s => parse_sample_attributes s
    | None => Raise AttributeError
    end ;;
  let checklist_value :=
    match attr_get attributes (Some ENA_CHECKLIST) with
    | Some (value, _) => value
    | None => None
    end in
  Ok {| all_attributes := (all_attributes st ++ [attributes])%list;
        sample_aliases := (sample_aliases st ++ [alias])%list;
        common_taxon_id := common_taxon_id';
        common_scientific_name := common_scientific_name';
        checklist_set :=
          match checklist_value with
          | Some (String _ _ as c) => set_add c (checklist_set st)
          | _ => checklist_set st
          end |}.

(** One iteration of the loop of lines 255-285. *)
Definition loop_body (output_dir : string) (st : loop_state) (sample_code : string)
  : M loop_state :=
  root <-- download_sample_xml output_dir sample_code ;;
  lift (process_sample st sample_code root).

(** Lines 287-289: the check for inconsistent checklists. *)
Definition check_checklists (checklist_set : list string) (checklist : pytext)
  : result unit :=
  if (negb (Nat.eqb (List.length checklist_set) 0)
      && Nat.ltb 1 (List.length checklist_set)
      && negb (truthy checklist))%bool
  then Raise (ValueError
                "Inconsistent checklists found in input samples and no checklist provided.")
  else Ok tt.

(** Equality of two (value, units) pairs. *)
Definition value_eqb (a b : pytext * pytext) : bool :=
  (pytext_eqb (fst a) (fst b) && pytext_eqb (snd a) (snd b))%bool.

(** Body of the loop of lines 295-297 over the tags of the first sample:
    [first[tag]] cannot fail, [tag] being a key of [first]. *)
Definition reconcile_step (all : list attributes) (first : attributes)
           (common : attributes) (tag : pytext) : attributes :=
  match attr_get first tag with
  | Some v =>
      if forallb (fun attributes =>
                    match attr_get attributes tag with
                    | Some v' => value_eqb v v'
                    | None => false
                    end) all
      then attr_set common tag v
      else common
  | None => common
  end.

(** Lines 291-297: the attributes common to all samples. *)
Definition find_common_attributes (all_attributes : list attributes) : attributes :=
  match all_attributes with
  | [] => []
  | first_attributes :: _ =>
      fold_left (reconcile_step all_attributes first_attributes)
                (dict_keys first_attributes) []
  end.

Definition DEFAULT_WARNING : string :=
  "Using default checklist due to inconsistencies or missing checklist in input samples.".

(** Lines 299-306: the final checklist and the warnings. *)
Definition select_checklist (checklist : pytext) (checklist_set : list string)
  : string * list string :=
  match checklist, checklist_set with
  | Some (String _ _ as c), _ => (c, [])
  | _, [c] => (c, [])
  | _, _ => (DEFAULT_CHECKLIST, [DEFAULT_WARNING])
  end.

(** The release branch of [main], lines 223-244. *)
Definition release_run (account password output_dir : string) (submit : bool) : M unit :=
  let response_output_path := path_join output_dir "submission_response.xml" in
  match read_file w response_output_path with
  | None => throw (FileNotFoundError response_output_path)
  | Some response =>
      match extract_sample_code_from_response response with
      | Some (String _ _ as sample_code) =>
          let release_set := create_release_xml sample_code in
          let release_output_path := path_join output_dir "release.xml" in
          emit (WriteFile release_output_path (XmlDoc release_set)) ;;;
          let virtual_sample_xml_path := path_join output_dir "virtual_sample.xml" in
          submit_to_ebi account password release_output_path
                        (Some virtual_sample_xml_path) submit output_dir ;;;
          mret tt
      | _ => throw (ValueError "No sample code found in submission response.")
      end
  end.

(** The submission branch of [main], lines 246-348.  What follows the
    transport (lines 343-348) only prints. *)
Definition submission_run (account password : string) (sample_codes : list string)
           (output_dir : string) (submit : bool) (checklist alias center : pytext)
           (force : bool) : M unit :=
  st <-- mfor_each (loop_body output_dir) sample_codes initial_state ;;
  lift (check_checklists (checklist_set st) checklist) ;;;
  let common_attributes := find_common_attributes (all_attributes st) in
  let (final_checklist, warnings) := select_checklist checklist (checklist_set st) in
  spec <-- mandatory_fields_and_units final_checklist ;;
  let virtual_sample_alias :=
    if truthy alias then fmt alias
    else "virtual_sample_" ++ join "_" sample_codes in
  let submit :=
    if (negb (Nat.eqb (List.length warnings) 0) && submit && negb force)%bool
    then false else submit in
  let virtual_sample :=
    create_virtual_sample common_attributes sample_codes
                          (common_taxon_id st) (common_scientific_name st)
                          virtual_sample_alias center (Some final_checklist)
                          (mandatory_fields spec) in
  let sample_set := mkElement "SAMPLE_SET" [] None [virtual_sample] in
  let samples_output_path := path_join output_dir "virtual_sample.xml" in
  emit (WriteFile samples_output_path (XmlDoc sample_set)) ;;;
  let submission_set := create_submission_xml in
  let submission_output_path := path_join output_dir "submission.xml" in
  emit (WriteFile submission_output_path (XmlDoc submission_set)) ;;;
  submit_to_ebi account password submission_output_path (Some samples_output_path)
                submit output_dir ;;;
  mret tt.

(** [os.makedirs(path)]: the empty path names no directory. *)
Definition makedirs (path : string) : M unit :=
  if path =? "" then throw (FileNotFoundError path) else emit (MakeDirs path).

(** [main]: the credentials, the output directory (which must be new for
    a submission), then one of the two branches. *)
Definition main (sample_codes : list string) (output_dir : string)
           (submit release : bool) (checklist alias center : pytext) (force : bool)
  : M unit :=
  cred <-- read_credentials ;;
  let (account, password) := cred in
  if (negb release && path_exists w output_dir)%bool then throw (SystemExit 1)
  else
    (if negb (path_exists w output_dir) then makedirs output_dir else mret tt) ;;;
    if release then release_run account password output_dir submit
    else submission_run account password sample_codes output_dir submit
                        checklist alias center force.

End Script.

(* ------------------------------------------------------------------ *)
(** ** Vocabulary of the statements *)

Fixpoint all_digits (s : string) : bool :=
  match s with
  | EmptyString => true
  | String c s' => (Re.is_digit c && all_digits s')%bool
  end.

(** An accession of the sample archive: [ERS] and one or more digits. *)
Definition is_accession (acc : string) : Prop :=
  exists ds, acc = "ERS" ++ ds /\ ds <> "" /\ all_digits ds = true.

(** [response] holds [acc], in the given shape and closed by a quote,
    after [pre]. *)
Definition announced_at (shape response pre acc : string) : Prop :=
  is_accession acc /\ exists post, response = pre ++ shape ++ acc ++ dquote ++ post.

Definition announces (shape response acc : string) : Prop :=
  exists pre, announced_at shape response pre acc.

(** [acc] is the accession of the leftmost announcement of that shape. *)
Definition first_announced (shape response acc : string) : Prop :=
  exists pre,
    announced_at shape response pre acc /\
    forall pre' acc', announced_at shape response pre' acc' ->
                      String.length pre <= String.length pre'.

(** A string that does not begin with a digit. *)
Definition no_leading_digit (s : string) : Prop :=
  match s with
  | String c _ => Re.is_digit c = false
  | EmptyString => True
  end.

(* ------------------------------------------------------------------ *)
(** ** Sample inputs *)

(** A receipt that reports an older accession in an error message and
    then announces the new sample. *)
Definition receipt_both : string :=
  "<RECEIPT success=true><MESSAGES><ERROR>already exists as accession: "
  ++ dquote ++ "ERS9" ++ dquote ++ "</ERROR></MESSAGES><SAMPLE accession="
  ++ dquote ++ "ERS123" ++ dquote ++ " alias=vs/></RECEIPT>".

(** A receipt with the error-shaped announcement only. *)
Definition receipt_error : string :=
  "<RECEIPT success=false><ERROR>already exists as accession: "
  ++ dquote ++ "ERS9" ++ dquote ++ "</ERROR></RECEIPT>".

(** A receipt whose identifiers have another prefix or another shape. *)
Definition receipt_other : string :=
  "<RECEIPT><SAMPLE accession=" ++ dquote ++ "SAMEA77" ++ dquote
  ++ " alias=vs/><EXT_ID accession='ERS5'/> accession: ERS6</RECEIPT>".

(** The two attribute sets of the reconciliation example:
    A agrees, B differs. *)
Definition attrs_AB_x : attributes :=
  [(Some "A", (Some "1", None)); (Some "B", (Some "x", None))].
Definition attrs_AB_y : attributes :=
  [(Some "A", (Some "1", None)); (Some "B", (Some "y", None))].

(** *** Reading a composed record back *)

(** The text of the first child called [name]; [None] when there is no
    such child. *)
Definition child_text (e : Element) (name : string) : pytext :=
  match find e name with
  | Some c => text c
  | None => None
  end.

(** A SAMPLE_ATTRIBUTE element as (tag, value, units). *)
Definition attribute_triple (e : Element) : pytext * pytext * pytext :=
  (child_text e "TAG", child_text e "VALUE", child_text e "UNITS").

(** The attributes of a SAMPLE element, in document order. *)
Definition emitted_attributes (sample : Element) : list (pytext * pytext * pytext) :=
  match find sample "SAMPLE_ATTRIBUTES" with
  | Some sa => map attribute_triple (children sa)
  | None => []
  end.

(** The unit an attribute is emitted with: a unit that is [None] or empty
    is not emitted. *)
Definition kept_units (units : pytext) : pytext :=
  if truthy units then units else None.

Definition is_reserved (tag : pytext) : bool := pytext_eqb tag (Some ENA_CHECKLIST).

(** The triple emitted for an item of the common attributes. *)
Definition ordinary_triple (item : pytext * (pytext * pytext)) : pytext * pytext * pytext :=
  (fst item, fst (snd item), kept_units (snd (snd item))).

(** The triple of a placeholder. *)
Definition placeholder_triple (field : pytext) : pytext * pytext * pytext :=
  (field, Some SENTINEL, None).

Definition has_tag (tag : pytext) (t : pytext * pytext * pytext) : bool :=
  pytext_eqb (fst (fst t)) tag.

(** *** Reading a description back *)

Definition no_comma (s : string) : bool :=
  forallb (fun c => negb (Ascii.eqb c ","%char)) (list_ascii_of_string s).

Definition cons_to_head (c : ascii) (parts : list string) : list string :=
  match parts with
  | p :: rest => String c p :: rest
  | [] => [String c ""]
  end.

(** [s.split(', ')]. *)
Fixpoint split_comma_space (s : string) : list string :=
  match s with
  | EmptyString => [""]
  | String c s' =>
      match s' with
      | String c' s'' =>
          if (Ascii.eqb c ","%char && Ascii.eqb c' " "%char)%bool
          then "" :: split_comma_space s''
          else cons_to_head c (split_comma_space s')
      | EmptyString => cons_to_head c (split_comma_space s')
      end
  end.

(** Remove the final full stop. *)
Fixpoint drop_final_dot (s : string) : option string :=
  match s with
  | EmptyString => None
  | String c EmptyString => if Ascii.eqb c "."%char then Some "" else None
  | String c s' => option_map (String c) (drop_final_dot s')
  end.

(** The sample identifiers a description lists: the text between the
    fixed sentence and the final full stop, cut at each comma-space. *)
Definition described_samples (description : string) : option (list string) :=
  match Re.strip_prefix TITLE_PREFIX description with
  | Some body => option_map split_comma_space (drop_final_dot body)
  | None => None
  end.

(** The reserved tag among the reconciled attributes and among the
    mandatory fields, with an override of the checklist. *)
Definition reserved_common : attributes :=
  [(Some ENA_CHECKLIST, (Some "ERC000011", None))].
Definition reserved_record : Element :=
  create_virtual_sample reserved_common ["ERS1"; "ERS2"] (Some "9606")
                        (Some "Homo sapiens") "vs" None (Some "ERC000050")
                        [Some ENA_CHECKLIST].

(** Reconciled attributes with a unit, and a record composed from them. *)
Definition depth_common : attributes :=
  [(Some "depth", (Some "10", Some "m"));
   (Some ENA_CHECKLIST, (Some "ERC000011", None));
   (Some "sex", (Some "female", None))].
Definition depth_record : Element :=
  create_virtual_sample depth_common ["ERS1"; "ERS2"] (Some "9606")
                        (Some "Homo sapiens") "vs" None (Some "ERC000011")
                        [Some "depth"; Some "collection date"].

(** Mandatory-field completion as it is worded for one mandatory field
    [m] of a record: a placeholder when [m] is not a reconciled tag, the
    reconciled value and unit when it is. *)
Definition completion_as_worded (common : attributes) (record : Element) (m : pytext)
  : Prop :=
  (attr_mem common m = false -> In (placeholder_triple m) (emitted_attributes record)) /\
  (forall value units, attr_get common m = Some (value, units) ->
                       In (m, value, units) (emitted_attributes record)).

(** *** Reading a checklist definition *)

(** The name, the obligation marker and the units declaration of a FIELD
    element. *)
Definition field_name (field : Element) : pytext := child_text field "NAME".
Definition obligation (field : Element) : pytext := child_text field "MANDATORY".
Definition declares_units (field : Element) : bool :=
  match find field "UNITS" with
  | Some _ => true
  | None => false
  end.

Definition has_obligation (marker : string) (field : Element) : bool :=
  pytext_eqb (obligation field) (Some marker).

(** A checklist document the resolver can read: a DESCRIPTOR with a NAME,
    and a NAME and a MANDATORY child in every FIELD. *)
Definition readable_checklist (root : Element) : Prop :=
  (exists desc n, find_desc root "DESCRIPTOR" = Some desc /\ find desc "NAME" = Some n) /\
  Forall (fun field => find field "NAME" <> None /\ find field "MANDATORY" <> None)
         (findall_desc root "FIELD").

(** A checklist document: one mandatory field with units, one optional
    field, one recommended field. *)
Definition field_doc (n marker : string) (units : list Element) : Element :=
  mkElement "FIELD" [] None
    ([leaf "NAME" (Some n); leaf "MANDATORY" (Some marker)] ++ units)%list.
Definition checklist_doc : Element :=
  mkElement "CHECKLIST_SET" [] None
    [mkElement "CHECKLIST" [] None
       [mkElement "DESCRIPTOR" [] None
          [leaf "NAME" (Some "ENA default sample checklist");
           mkElement "FIELD_GROUP" [] None
             [field_doc "collection date" "mandatory" [];
              field_doc "depth" "mandatory"
                        [mkElement "UNITS" [] None [leaf "UNIT" (Some "m")]];
              field_doc "sample comment" "optional" [];
              field_doc "sex" "recommended" []]]]].

(** A world in which every URL serves the checklist document. *)
Definition checklist_world : World :=
  {| credentials := Some ("account", "password");
     path_exists := fun _ => false;
     read_file := fun _ => None;
     http_get := fun _ => Some {| status_code := 200; content := Some checklist_doc |};
     run_curl := fun _ => Some "" |}.

(** The units mapping after the loop over [fields]. *)
Definition units_after (fields : list Element) (units : dict pytext pytext)
  : dict pytext pytext :=
  fold_left
    (fun units field =>
       match find field "UNITS" with
       | Some units_element =>
           dict_set pytext_eq_dec units (field_name field)
                    (child_text units_element "UNIT")
       | None => units
       end) fields units.

(** *** Reading a trace and a release document *)

(** An effect that transports a submission: the curl call. *)
Definition is_transport (e : event) : bool :=
  match e with
  | Subprocess _ => true
  | _ => false
  end.

(** An effect that stores a composed XML document. *)
Definition is_composed_document (e : event) : bool :=
  match e with
  | WriteFile _ (XmlDoc _) => true
  | _ => false
  end.

(** The [target] attributes of the RELEASE elements of a submission. *)
Definition release_targets (submission : Element) : list (option string) :=
  map (fun e => dict_get string_dec (attrib e) "target")
      (findall_desc submission "RELEASE").

(** A world that holds the receipt [receipt_both] in the directory [out]
    (which exists), and one that holds [receipt_other]. *)
Definition release_world (receipt : string) : World :=
  {| credentials := Some ("account", "password");
     path_exists := fun _ => true;
     read_file := fun path =>
       if path =? "out/submission_response.xml" then Some receipt else None;
     http_get := fun _ => None;
     run_curl := fun _ => Some "<RECEIPT success=true/>" |}.

(** *** Source samples *)

(** A source sample as the archive serves it: its identifier and what the
    loop of [main] reads from its document. *)
Record SourceSample := {
  source_code : string;
  source_alias : string;
  source_taxon_id : string;
  source_scientific_name : string;
  source_attributes : attributes
}.

(** The source sample a downloaded document holds: a SAMPLE with an alias,
    a SAMPLE_NAME with the texts of TAXON_ID and SCIENTIFIC_NAME, and
    SAMPLE_ATTRIBUTES that [parse_sample_attributes] reads. *)
Definition read_source_sample (sample_code : string) (root : Element)
  : option SourceSample :=
  match find root "SAMPLE" with
  | Some sample =>
      match dict_get string_dec (attrib sample) "alias",
            find sample "SAMPLE_NAME" with
      | Some alias, Some sample_name =>
          match find sample_name "TAXON_ID", find sample_name "SCIENTIFIC_NAME" with
          | Some taxon_elem, Some name_elem =>
              match text taxon_elem, text name_elem, parse_sample_attributes sample with
              | Some taxon_id, Some scientific_name, Ok attrs =>
                  Some {| source_code := sample_code;
                          source_alias := alias;
                          source_taxon_id := taxon_id;
                          source_scientific_name := scientific_name;
                          source_attributes := attrs |}
              | _, _, _ => None
              end
          | _, _ => None
          end
      | _, _ => None
      end
  | None => None
  end.

(** The archive answers the lookup of [s] with status 200 and a document
    that holds [s]. *)
Definition served (w : World) (s : SourceSample) : Prop :=
  exists response root,
    http_get w (sample_url (source_code s)) = Some response /\
    status_code response = 200 /\
    content response = Some root /\
    read_source_sample (source_code s) root = Some s.

(** [s] has the taxon identifier and the scientific name of [first]. *)
Definition same_taxonomy (first s : SourceSample) : Prop :=
  source_taxon_id s = source_taxon_id first /\
  source_scientific_name s = source_scientific_name first.

(** The message of the error raised for [s] against the values of
    [first]: the taxon identifier is checked before the scientific name. *)
Definition mismatch_message (first s : SourceSample) : string :=
  if string_dec (source_taxon_id s) (source_taxon_id first)
  then "Scientific name mismatch for sample " ++ source_code s ++ ": "
       ++ source_scientific_name s ++ " vs " ++ source_scientific_name first
  else "Taxon ID mismatch for sample " ++ source_code s ++ ": "
       ++ source_taxon_id s ++ " vs " ++ source_taxon_id first.

(** The checklist value a sample carries under the reserved tag. *)
Definition sample_checklist (s : SourceSample) : pytext :=
  match attr_get (source_attributes s) (Some ENA_CHECKLIST) with
  | Some (value, _) => value
  | None => None
  end.

(** The set of observed checklists after one more sample: a value that is
    [None] or empty is not observed. *)
Definition observe (observed : list string) (s : SourceSample) : list string :=
  match sample_checklist s with
  | Some (String _ _ as c) => set_add c observed
  | _ => observed
  end.

(** The distinct checklist values observed among the samples. *)
Definition observed_checklists (samples : list SourceSample) : list string :=
  fold_left observe samples [].

(** The state of the loop after a sample that passed the checks. *)
Definition state_after (st : loop_state) (s : SourceSample) : loop_state :=
  {| all_attributes := (all_attributes st ++ [source_attributes s])%list;
     sample_aliases := (sample_aliases st ++ [source_alias s])%list;
     common_taxon_id := Some (source_taxon_id s);
     common_scientific_name := Some (source_scientific_name s);
     checklist_set := observe (checklist_set st) s |}.

(** An effect of looking samples up: a request, the directory, a stored
    response. *)
Definition is_fetch_event (e : event) : bool :=
  match e with
  | HttpGet _ | MakeDirs _ | WriteFile _ (ResponseText _) => true
  | _ => false
  end.

(** The SAMPLE elements of the SAMPLE_SET documents a run stored. *)
Definition composed_samples (trace : list event) : list Element :=
  flat_map (fun e =>
              match e with
              | WriteFile _ (XmlDoc doc) =>
                  if tag doc =? "SAMPLE_SET" then children doc else []
              | _ => []
              end) trace.

(** The taxon identifier and scientific name of a SAMPLE element. *)
Definition taxonomy_of (sample : Element) : pytext * pytext :=
  match find sample "SAMPLE_NAME" with
  | Some sample_name =>
      (child_text sample_name "TAXON_ID", child_text sample_name "SCIENTIFIC_NAME")
  | None => (None, None)
  end.

(** *** An archive with three samples *)

Definition attribute_doc (tag value : string) : Element :=
  mkElement "SAMPLE_ATTRIBUTE" [] None [leaf "TAG" (Some tag); leaf "VALUE" (Some value)].

Definition sample_doc (alias taxon_id scientific_name : string)
           (attrs : list Element) : Element :=
  mkElement "SAMPLE_SET" [] None
    [mkElement "SAMPLE" [("alias", alias)] None
       [mkElement "SAMPLE_NAME" [] None
          [leaf "TAXON_ID" (Some taxon_id);
           leaf "SCIENTIFIC_NAME" (Some scientific_name)];
        mkElement "SAMPLE_ATTRIBUTES" [] None attrs]].

(** Two human samples under different checklists and a mouse sample. *)
Definition doc_ERS1 : Element :=
  sample_doc "human-1" "9606" "Homo sapiens"
             [attribute_doc "sex" "female"; attribute_doc ENA_CHECKLIST "ERC000011"].
Definition doc_ERS2 : Element :=
  sample_doc "human-2" "9606" "Homo sapiens"
             [attribute_doc "sex" "female"; attribute_doc ENA_CHECKLIST "ERC000053"].
Definition doc_ERS3 : Element :=
  sample_doc "mouse-1" "10090" "Mus musculus" [attribute_doc "sex" "female"].

Definition sample_ERS1 : SourceSample :=
  {| source_code := "ERS1"; source_alias := "human-1";
     source_taxon_id := "9606"; source_scientific_name := "Homo sapiens";
     source_attributes := [(Some "sex", (Some "female", None));
                           (Some ENA_CHECKLIST, (Some "ERC000011", None))] |}.
Definition sample_ERS2 : SourceSample :=
  {| source_code := "ERS2"; source_alias := "human-2";
     source_taxon_id := "9606"; source_scientific_name := "Homo sapiens";
     source_attributes := [(Some "sex", (Some "female", None));
                           (Some ENA_CHECKLIST, (Some "ERC000053", None))] |}.
Definition sample_ERS3 : SourceSample :=
  {| source_code := "ERS3"; source_alias := "mouse-1";
     source_taxon_id := "10090"; source_scientific_name := "Mus musculus";
     source_attributes := [(Some "sex", (Some "female", None))] |}.

(** The archive: the three samples, and the checklist document for every
    other lookup; the output directory does not exist yet. *)
Definition archive_world : World :=
  {| credentials := Some ("account", "password");
     path_exists := fun _ => false;
     read_file := fun _ => None;
     http_get := fun url =>
       if url =? sample_url "ERS1"
       then Some {| status_code := 200; content := Some doc_ERS1 |}
       else if url =? sample_url "ERS2"
       then Some {| status_code := 200; content := Some doc_ERS2 |}
       else if url =? sample_url "ERS3"
       then Some {| status_code := 200; content := Some doc_ERS3 |}
       else Some {| status_code := 200; content := Some checklist_doc |};
     run_curl := fun _ => Some "<RECEIPT success=true/>" |}.

(** *** Reconciliation *)

(** [tag] has the value and unit [v] in the first sample and in all of
    them. *)
Definition shared_by (all : list attributes) (first : attributes)
           (tag : pytext) (v : pytext * pytext) : Prop :=
  attr_get first tag = Some v /\ forall a, In a all -> attr_get a tag = Some v.


(* ------------------------------------------------------------------ *)
(** ** Vocabulary of the further properties *)

(** The last triple with the tag [tag] in a list of attribute triples, as
    (value, units). *)
Definition last_tagged (tag : pytext) (triples : list (pytext * pytext * pytext))
  : option (pytext * pytext) :=
  match List.find (has_tag tag) (rev triples) with
  | Some (_, value, units) => Some (value, units)
  | None => None
  end.

(** The attribute triples of the SAMPLE_ATTRIBUTES element [sa]. *)
Definition attribute_triples (sa : Element) : list (pytext * pytext * pytext) :=
  map attribute_triple (children sa).

(** An attribute element the parser can read: it has a TAG and a VALUE. *)
Definition readable_attribute (attr : Element) : Prop :=
  find attr "TAG" <> None /\ find attr "VALUE" <> None.

(** A SAMPLE whose attribute TAG occurs twice, and a SAMPLE one of whose
    attributes has no VALUE. *)
Definition sample_with_repeated_tag : Element :=
  mkElement "SAMPLE" [("alias", "s")] None
    [mkElement "SAMPLE_ATTRIBUTES" [] None
       [attribute_doc "depth" "10"; attribute_doc "sex" "female";
        mkElement "SAMPLE_ATTRIBUTE" [] None
          [leaf "TAG" (Some "depth"); leaf "VALUE" (Some "12"); leaf "UNITS" (Some "m")]]].
Definition sample_with_broken_attribute : Element :=
  mkElement "SAMPLE" [("alias", "s")] None
    [mkElement "SAMPLE_ATTRIBUTES" [] None
       [attribute_doc "sex" "female";
        mkElement "SAMPLE_ATTRIBUTE" [] None [leaf "TAG" (Some "depth")]]].


(** The test of lines 295-296 for one tag of the first sample: every
    sample has the tag, with the first sample's value and units. *)
Definition agreed_by_all (all : list attributes) (first : attributes) (tag : pytext)
  : bool :=
  match attr_get first tag with
  | Some v =>
      forallb (fun attributes =>
                 match attr_get attributes tag with
                 | Some v' => value_eqb v v'
                 | None => false
                 end) all
  | None => false
  end.

(** Three attribute sets: the second lacks [sex], the third has another
    [depth]. *)
Definition attrs_full : attributes :=
  [(Some "depth", (Some "10", Some "m")); (Some "sex", (Some "female", None));
   (Some "organism part", (Some "leaf", None))].
Definition attrs_no_sex : attributes :=
  [(Some "organism part", (Some "leaf", None)); (Some "depth", (Some "10", Some "m"))].


(** *** Runs of [main] *)

(** The effects of looking one sample up: the request and, on status
    200, the stored response. *)
Definition lookup_events (w : World) (output_dir sample_code : string) : list event :=
  HttpGet (sample_url sample_code)
  :: match http_get w (sample_url sample_code) with
     | Some response =>
         if (status_code response =? 200)%nat
         then [WriteFile (path_join output_dir (sample_code ++ ".xml"))
                         (ResponseText response)]
         else []
     | None => []
     end.

(** The state of the loop after the samples [samples]. *)
Definition run_state (samples : list SourceSample) : loop_state :=
  fold_left state_after samples initial_state.

(** All samples have the taxonomy of the first. *)
Definition consistent (samples : list SourceSample) : Prop :=
  match samples with
  | [] => True
  | first :: rest => Forall (same_taxonomy first) rest
  end.

(** Line 312: the alias of the virtual sample. *)
Definition virtual_sample_alias (alias : pytext) (sample_codes : list string) : string :=
  if truthy alias then fmt alias else "virtual_sample_" ++ join "_" sample_codes.

(** Lines 315-318: the server a run with these warnings submits to. *)
Definition effective_submit (warnings : list string) (submit force : bool) : bool :=
  if (negb (Nat.eqb (List.length warnings) 0) && submit && negb force)%bool
  then false else submit.

(** The archive resolves the checklist [accession] to [spec]. *)
Definition resolves (w : World) (accession : string) (spec : ChecklistSpec) : Prop :=
  exists response root,
    http_get w (checklist_url accession) = Some response /\
    (status_code response < 400 \/ 600 <= status_code response) /\
    content response = Some root /\
    read_checklist root = Ok spec.

(** The lookup of the checklist [accession] fails: no answer, or an HTTP
    error status. *)
Definition lookup_fails (w : World) (accession : string) : Prop :=
  http_get w (checklist_url accession) = None \/
  exists response,
    http_get w (checklist_url accession) = Some response /\
    400 <= status_code response < 600.

(** The checklist a submission run selects, and the warnings of the
    selection. *)
Definition selected_checklist (checklist : pytext) (samples : list SourceSample)
  : string :=
  fst (select_checklist checklist (observed_checklists samples)).
Definition selection_warnings (checklist : pytext) (samples : list SourceSample)
  : list string :=
  snd (select_checklist checklist (observed_checklists samples)).

(** The virtual sample a submission run composes from the samples. *)
Definition composed_record (samples : list SourceSample) (checklist alias center : pytext)
           (spec : ChecklistSpec) : Element :=
  create_virtual_sample
    (find_common_attributes (map source_attributes samples)) (map source_code samples)
    (common_taxon_id (run_state samples)) (common_scientific_name (run_state samples))
    (virtual_sample_alias alias (map source_code samples)) center
    (Some (selected_checklist checklist samples))
    (mandatory_fields spec).

(** The curl command of a submission run. *)
Definition submission_command (account password output_dir : string)
           (samples : list SourceSample) (checklist : pytext) (submit force : bool)
  : string :=
  curl_command account password (path_join output_dir "submission.xml")
               (Some (path_join output_dir "virtual_sample.xml"))
               (effective_submit (selection_warnings checklist samples) submit force).

(** The effect of storing the response of a command, when it has one. *)
Definition receipt_events (w : World) (output_dir command : string) : list event :=
  match run_curl w command with
  | Some stdout => [WriteFile (path_join output_dir "submission_response.xml") (Text stdout)]
  | None => []
  end.

Definition is_request (e : event) : bool :=
  match e with
  | HttpGet _ => true
  | _ => false
  end.

Definition is_receipt (e : event) : bool :=
  match e with
  | WriteFile _ (Text _) => true
  | _ => false
  end.


(** The request of a sample document. *)
Definition sample_request (sample_code : string) : event :=
  HttpGet (sample_url sample_code).

(** The server a run that reaches the transport submits to: the requested
    one when an override is given or exactly one checklist was observed,
    production only under [force] otherwise. *)
Definition production_target (checklist : pytext) (observed : list string)
           (submit force : bool) : bool :=
  if (truthy checklist || Nat.eqb (List.length observed) 1)%bool
  then submit else (submit && force)%bool.


(** The archive of [archive_world] with another status for the checklist
    lookups and another outcome of the curl command. *)
Definition archive_variant (checklist_status : nat) (stdout : option string) : World :=
  {| credentials := Some ("account", "password");
     path_exists := fun _ => false;
     read_file := fun _ => None;
     http_get := fun url =>
       if url =? sample_url "ERS1"
       then Some {| status_code := 200; content := Some doc_ERS1 |}
       else if url =? sample_url "ERS2"
       then Some {| status_code := 200; content := Some doc_ERS2 |}
       else if url =? sample_url "ERS3"
       then Some {| status_code := 200; content := Some doc_ERS3 |}
       else Some {| status_code := checklist_status; content := Some checklist_doc |};
     run_curl := fun _ => stdout |}.

(** What the resolver reads from [checklist_doc]. *)
Definition checklist_doc_spec : ChecklistSpec :=
  {| name := Some "ENA default sample checklist";
     mandatory_fields := [Some "collection date"; Some "depth"];
     fields_with_units := [(Some "depth", Some "m")];
     recommended_fields := [Some "sex"] |}.


(** The curl command of a release run. *)
Definition release_command (account password output_dir : string) (submit : bool)
  : string :=
  curl_command account password (path_join output_dir "release.xml")
               (Some (path_join output_dir "virtual_sample.xml")) submit.

(** The directory a run creates, when it does not exist yet. *)
Definition directory_events (w : World) (output_dir : string) : list event :=
  if path_exists w output_dir then [] else [MakeDirs output_dir].

(** A world in which the output directory exists but holds no receipt. *)
Definition no_receipt_world : World :=
  {| credentials := Some ("account", "password");
     path_exists := fun _ => true;
     read_file := fun _ => None;
     http_get := fun _ => None;
     run_curl := fun _ => Some "<RECEIPT success=true/>" |}.

(** A world without a credentials file. *)
Definition no_credentials_world : World :=
  {| credentials := None;
     path_exists := fun _ => false;
     read_file := fun _ => None;
     http_get := fun _ => None;
     run_curl := fun _ => None |}.


(** *** The files a run leaves behind *)

(** The event creates or writes the path [path]. *)
Definition touches (path : string) (e : event) : bool :=
  match e with
  | MakeDirs dir => dir =? path
  | WriteFile file _ => file =? path
  | _ => false
  end.

(** The text of a stored payload; [render] stands for the serialisations
    that are not modelled ([prettify_xml], [response.text]). *)
Definition payload_text (render : payload -> string) (data : payload) : string :=
  match data with
  | Text s => s
  | _ => render data
  end.

(** The world a run leaves for the next one: the directory it created and
    the files it wrote exist, and a file holds what was written to it
    last.  Credentials, archive and curl are as before. *)
Definition after_run (render : payload -> string) (w : World) (trace : list event)
  : World :=
  {| credentials := credentials w;
     path_exists := fun path => (path_exists w path || existsb (touches path) trace)%bool;
     read_file := fun path =>
       match List.find (touches path) (rev trace) with
       | Some (WriteFile _ data) => Some (payload_text render data)
       | _ => read_file w path
       end;
     http_get := http_get w;
     run_curl := run_curl w |}.

(** A curl that answers every command with [receipt_both]. *)
Definition answering_world : World :=
  {| credentials := Some ("account", "password");
     path_exists := fun _ => false;
     read_file := fun _ => None;
     http_get := http_get archive_world;
     run_curl := fun _ => Some receipt_both |}.


(** *** Units and unreadable checklist documents *)

(** The unit a FIELD element declares: the text of the first UNIT of its
    UNITS child; [None] when there is no UNITS child or no UNIT in it. *)
Definition declared_unit (field : Element) : pytext :=
  match find field "UNITS" with
  | Some units_element => child_text units_element "UNIT"
  | None => None
  end.

(** The last of [fields] that is named [n] and declares units. *)
Definition last_declaring (fields : list Element) (n : pytext) : option Element :=
  List.find (fun field => pytext_eqb (field_name field) n)
            (rev (filter declares_units fields)).

(** A world in which every URL serves the document [root]. *)
Definition serving_world (root : Element) : World :=
  {| credentials := Some ("account", "password");
     path_exists := fun _ => false;
     read_file := fun _ => None;
     http_get := fun _ => Some {| status_code := 200; content := Some root |};
     run_curl := fun _ => None |}.

(** A checklist document that declares the units of [depth] twice, and
    gives [altitude] a UNITS element without a UNIT. *)
Definition checklist_doc_units : Element :=
  mkElement "CHECKLIST" [] None
    [mkElement "DESCRIPTOR" [] None
       [leaf "NAME" (Some "units");
        field_doc "depth" "mandatory"
                  [mkElement "UNITS" [] None [leaf "UNIT" (Some "m"); leaf "UNIT" (Some "km")]];
        field_doc "altitude" "optional" [mkElement "UNITS" [] None []];
        field_doc "depth" "optional"
                  [mkElement "UNITS" [] None [leaf "UNIT" (Some "cm")]];
        field_doc "depth" "optional" []]].

(** A checklist document with a FIELD that has no MANDATORY child. *)
Definition checklist_doc_unmarked : Element :=
  mkElement "CHECKLIST" [] None
    [mkElement "DESCRIPTOR" [] None
       [leaf "NAME" (Some "unmarked");
        field_doc "depth" "mandatory" [];
        mkElement "FIELD" [] None [leaf "NAME" (Some "sex")]]].


(** *** A sample document with an empty SCIENTIFIC_NAME element *)

(** [root] holds a sample with this alias, this taxon identifier and
    these attributes, whose SCIENTIFIC_NAME element has no text. *)
Definition holds_unnamed (root : Element) (alias taxon_id : string)
           (attrs : attributes) : Prop :=
  exists sample sample_name taxon_elem name_elem,
    find root "SAMPLE" = Some sample /\
    dict_get string_dec (attrib sample) "alias" = Some alias /\
    find sample "SAMPLE_NAME" = Some sample_name /\
    find sample_name "TAXON_ID" = Some taxon_elem /\
    text taxon_elem = Some taxon_id /\
    find sample_name "SCIENTIFIC_NAME" = Some name_elem /\
    text name_elem = None /\
    parse_sample_attributes sample = Ok attrs.

(** The archive answers the lookup of [sample_code] with status 200 and
    such a document. *)
Definition served_unnamed (w : World) (sample_code alias taxon_id : string)
           (attrs : attributes) : Prop :=
  exists response root,
    http_get w (sample_url sample_code) = Some response /\
    status_code response = 200 /\
    content response = Some root /\
    holds_unnamed root alias taxon_id attrs.

(** The checklist observed in one attribute set. *)
Definition observed_in (attrs : attributes) : list string :=
  match match attr_get attrs (Some ENA_CHECKLIST) with
        | Some (value, _) => value
        | None => None
        end with
  | Some (String _ _ as c) => set_add c []
  | _ => []
  end.

(** A mouse sample whose SCIENTIFIC_NAME element is empty, and an archive
    that serves it beside the mouse sample ERS3. *)
Definition doc_ERS4 : Element :=
  mkElement "SAMPLE_SET" [] None
    [mkElement "SAMPLE" [("alias", "mouse-2")] None
       [mkElement "SAMPLE_NAME" [] None
          [leaf "TAXON_ID" (Some "10090"); leaf "SCIENTIFIC_NAME" None];
        mkElement "SAMPLE_ATTRIBUTES" [] None [attribute_doc "sex" "female"]]].

Definition unnamed_world : World :=
  {| credentials := Some ("account", "password");
     path_exists := fun _ => false;
     read_file := fun _ => None;
     http_get := fun url =>
       if url =? sample_url "ERS4"
       then Some {| status_code := 200; content := Some doc_ERS4 |}
       else if url =? sample_url "ERS3"
       then Some {| status_code := 200; content := Some doc_ERS3 |}
       else Some {| status_code := 200; content := Some checklist_doc |};
     run_curl := fun _ => Some "<RECEIPT success=true/>" |}.

(* ================================================================== *)
(** * Facts *)

(** ** Strings *)

Lemma app_nil_r (s : string) : s ++ "" = s.
Proof. induction s; simpl; congruence. Qed.

Lemma app_assoc (a b c : string) : (a ++ b) ++ c = a ++ b ++ c.
Proof. induction a; simpl; congruence. Qed.

Lemma length_app (a b : string) :
  String.length (a ++ b) = String.length a + String.length b.
Proof. induction a; simpl; congruence. Qed.

(** ** Dictionaries *)

Section DictFacts.
Variables K V : Type.
Variable K_eq_dec : forall a b : K, {a = b} + {a <> b}.
Implicit Types d : dict K V.

Lemma dict_get_set_same (d : dict K V) k v : dict_get K_eq_dec (dict_set K_eq_dec d k v) k = Some v.
Proof.
  induction d as [|[k' v'] d IH]; simpl.
  - destruct (K_eq_dec k k); congruence.
  - destruct (K_eq_dec k k') as [E|N]; simpl.
    + destruct (K_eq_dec k k'); congruence.
    + destruct (K_eq_dec k k'); congruence.
Qed.

Lemma dict_get_set_other (d : dict K V) k k0 v :
  k0 <> k -> dict_get K_eq_dec (dict_set K_eq_dec d k v) k0 = dict_get K_eq_dec d k0.
Proof.
  intros N. induction d as [|[k' v'] d IH]; simpl.
  - destruct (K_eq_dec k0 k); congruence.
  - destruct (K_eq_dec k k') as [E|N']; simpl.
    + subst. destruct (K_eq_dec k0 k'); congruence.
    + destruct (K_eq_dec k0 k'); congruence.
Qed.

Lemma dict_get_In (d : dict K V) k v : dict_get K_eq_dec d k = Some v -> In (k, v) d.
Proof.
  induction d as [|[k' v'] d IH]; simpl; [discriminate|].
  destruct (K_eq_dec k k') as [E|N]; intros H.
  - inversion H; subst. now left.
  - right. now apply IH.
Qed.

Lemma dict_get_None (d : dict K V) k : dict_get K_eq_dec d k = None <-> ~ In k (dict_keys d).
Proof.
  induction d as [|[k' v'] d IH]; simpl.
  - tauto.
  - destruct (K_eq_dec k k') as [E|N].
    + split; [discriminate|]. intros H. exfalso. apply H. left. congruence.
    + rewrite IH. split.
      * intros H [E|I]; [congruence|tauto].
      * intros H I. apply H. now right.
Qed.

Lemma dict_mem_keys (d : dict K V) k : dict_mem K_eq_dec d k = true <-> In k (dict_keys d).
Proof.
  unfold dict_mem. destruct (dict_get K_eq_dec d k) eqn:E.
  - split; [intros _|reflexivity].
    apply dict_get_In in E. apply in_map with (f := fst) in E. exact E.
  - apply dict_get_None in E. split; [discriminate|tauto].
Qed.

Lemma dict_keys_set (d : dict K V) k v :
  dict_keys (dict_set K_eq_dec d k v) =
  if dict_mem K_eq_dec d k then dict_keys d else (dict_keys d ++ [k])%list.
Proof.
  unfold dict_mem. induction d as [|[k' v'] d IH]; simpl; [reflexivity|].
  destruct (K_eq_dec k k') as [E|N]; simpl; [reflexivity|].
  rewrite IH. now destruct (dict_get K_eq_dec d k).
Qed.

Lemma dict_set_wf (d : dict K V) k v : dict_wf d -> dict_wf (dict_set K_eq_dec d k v).
Proof.
  unfold dict_wf. intros W. rewrite dict_keys_set.
  destruct (dict_mem K_eq_dec d k) eqn:E; [exact W|].
  assert (~ In k (dict_keys d)) as NI.
  { intros I. apply dict_mem_keys in I. congruence. }
  clear E. induction (dict_keys d) as [|x l IH]; simpl.
  - constructor; [tauto|constructor].
  - inversion W; subst. constructor.
    + rewrite in_app_iff. simpl. intros [I|[E|[]]]; [tauto|].
      subst. apply NI. now left.
    + apply IH; [assumption|]. intros I. apply NI. now right.
Qed.

End DictFacts.

(** ** The matcher *)

Lemma strip_prefix_spec (p s r : string) :
  Re.strip_prefix p s = Some r <-> s = p ++ r.
Proof.
  revert s. induction p as [|a p IH]; intros s; simpl.
  - split; congruence.
  - destruct s as [|b s].
    + split; discriminate.
    + destruct (Ascii.eqb_spec a b) as [E|N].
      * subst. rewrite IH. split; intros H; [now subst|now inversion H].
      * split; [discriminate|]. intros H. inversion H. congruence.
Qed.

Lemma strip_prefix_app (p r : string) : Re.strip_prefix p (p ++ r) = Some r.
Proof. now apply strip_prefix_spec. Qed.

Lemma take_app (a b : string) : Re.take (String.length a) (a ++ b) = a.
Proof. induction a; simpl; [now destruct b|congruence]. Qed.

Lemma take_group (a b s : string) :
  s = a ++ b -> Re.take (String.length s - String.length b) s = a.
Proof.
  intros ->. rewrite length_app.
  replace (String.length a + String.length b - String.length b)
    with (String.length a) by lia.
  apply take_app.
Qed.

(** Whatever [\d+] hands to its continuation comes after a non-empty run
    of digits. *)
Lemma digits1_sound {A} (s : string) (k : string -> option A) (m : A) :
  Re.digits1 s k = Some m ->
  exists ds rest, s = ds ++ rest /\ ds <> "" /\ all_digits ds = true /\ k rest = Some m.
Proof.
  induction s as [|c s IH]; simpl; [discriminate|].
  destruct (Re.is_digit c) eqn:D; [|discriminate].
  destruct (Re.digits1 s k) as [m'|] eqn:E.
  - intros H. inversion H; subst m'.
    destruct (IH eq_refl) as (ds & rest & -> & N & AD & K).
    exists (String c ds), rest. simpl. rewrite D, AD. repeat split; congruence.
  - intros K. exists (String c ""), s. simpl. rewrite D. repeat split; congruence.
Qed.

(** When the continuation refuses every subject that begins with a digit,
    [\d+] takes the whole run of digits. *)
Lemma digits1_exact {A} (k : string -> option A) (ds rest : string) :
  (forall c s, Re.is_digit c = true -> k (String c s) = None) ->
  ds <> "" -> all_digits ds = true -> no_leading_digit rest ->
  Re.digits1 (ds ++ rest) k = k rest.
Proof.
  intros Kd. induction ds as [|c ds IH]; intros N AD NL; [congruence|].
  simpl in *. apply andb_prop in AD. destruct AD as [D AD]. rewrite D.
  destruct ds as [|c' ds].
  - simpl. destruct rest as [|r rest]; simpl in *; [reflexivity|].
    rewrite NL. reflexivity.
  - rewrite IH by (auto; discriminate).
    destruct (k rest) eqn:E; [reflexivity|].
    simpl in AD. apply andb_prop in AD. simpl. now apply Kd.
Qed.

Lemma dquote_not_digit (s : string) : no_leading_digit (dquote ++ s).
Proof. reflexivity. Qed.

(** The anchored match of an accession pattern, spelled out. *)
Lemma match_at_accession (shape s : string) (m : Re.Match) :
  Re.match_at (accession_pattern shape) s = Some m <->
  exists ds post,
    s = shape ++ ("ERS" ++ ds) ++ dquote ++ post /\
    ds <> "" /\ all_digits ds = true /\
    m = {| Re.group1 := Some ("ERS" ++ ds) |}.
Proof.
  unfold Re.match_at, accession_pattern. cbn [Re.rmatch].
  split.
  - destruct (Re.strip_prefix shape s) as [s1|] eqn:E1; [|discriminate].
    apply strip_prefix_spec in E1. subst s.
    destruct (Re.strip_prefix "ERS" s1) as [s2|] eqn:E2; [|discriminate].
    apply strip_prefix_spec in E2. subst s1.
    intros H. apply digits1_sound in H.
    destruct H as (ds & rest & -> & N & AD & K).
    destruct (Re.strip_prefix dquote rest) as [post|] eqn:E3; [|discriminate].
    apply strip_prefix_spec in E3. subst rest.
    exists ds, post. rewrite !app_assoc. repeat split; auto.
    rewrite (take_group ("ERS" ++ ds) (dquote ++ post)) in K
      by now rewrite !app_assoc.
    congruence.
  - intros (ds & post & -> & N & AD & ->).
    rewrite strip_prefix_app. rewrite !app_assoc. rewrite strip_prefix_app.
    rewrite digits1_exact; auto using dquote_not_digit.
    + rewrite strip_prefix_app. f_equal. f_equal. f_equal.
      apply take_group. now rewrite !app_assoc.
    + intros c s D. unfold dquote. cbn [Re.strip_prefix].
      destruct (Ascii.eqb (ascii_of_nat 34) c) eqn:E; [|reflexivity].
      apply Ascii.eqb_eq in E. subst c. discriminate.
Qed.

(** [search] returns the match at the leftmost position that has one. *)
Lemma search_Some (r : Re.regex) (s : string) (m : Re.Match) :
  Re.search r s = Some m ->
  exists pre suf,
    s = pre ++ suf /\ Re.match_at r suf = Some m /\
    forall pre' suf', s = pre' ++ suf' -> String.length pre' < String.length pre ->
                      Re.match_at r suf' = None.
Proof.
  induction s as [|c s IH]; simpl.
  - destruct (Re.match_at r "") eqn:E; [|discriminate].
    intros H. inversion H; subst. exists "", "". simpl. repeat split; auto.
    intros ? ? ? L. simpl in L. lia.
  - destruct (Re.match_at r (String c s)) eqn:E.
    + intros H. inversion H; subst. exists "", (String c s). repeat split; auto.
      intros ? ? ? L. simpl in L. lia.
    + intros H. destruct (IH H) as (pre & suf & -> & M & Min).
      exists (String c pre), suf. repeat split; auto.
      intros pre' suf' E' L. destruct pre' as [|c' pre'].
      * simpl in E'. subst suf'. exact E.
      * simpl in E', L. inversion E'; subst. apply Min with (pre' := pre'); auto. lia.
Qed.

Lemma search_None (r : Re.regex) (s : string) :
  Re.search r s = None <->
  forall pre suf, s = pre ++ suf -> Re.match_at r suf = None.
Proof.
  induction s as [|c s IH]; simpl.
  - destruct (Re.match_at r "") eqn:E.
    + split; [discriminate|]. intros H. rewrite (H "" "") in E; [discriminate|reflexivity].
    + split; [|reflexivity]. intros _ [|? ?] suf H.
      * simpl in H. now subst.
      * discriminate.
  - destruct (Re.match_at r (String c s)) eqn:E.
    + split; [discriminate|]. intros H.
      rewrite (H "" (String c s)) in E; [discriminate|reflexivity].
    + rewrite IH. split.
      * intros H [|c' pre] suf E'.
        -- simpl in E'. now subst.
        -- simpl in E'. inversion E'; subst. now apply H with (pre := pre).
      * intros H pre suf ->. apply H with (pre := String c pre). reflexivity.
Qed.

(** ** Accession extraction *)

Lemma announced_matches (shape response pre acc : string) :
  announced_at shape response pre acc ->
  exists suf, response = pre ++ suf /\
              Re.match_at (accession_pattern shape) suf
              = Some {| Re.group1 := Some acc |}.
Proof.
  intros [(ds & -> & N & AD) (post & ->)].
  exists (shape ++ ("ERS" ++ ds) ++ dquote ++ post). split; [reflexivity|].
  apply match_at_accession. exists ds, post. auto.
Qed.

Lemma search_accession_Some (shape response : string) (m : Re.Match) :
  Re.search (accession_pattern shape) response = Some m ->
  exists acc, Re.group1 m = Some acc /\ first_announced shape response acc.
Proof.
  intros H. apply search_Some in H. destruct H as (pre & suf & -> & M & Min).
  apply match_at_accession in M. destruct M as (ds & post & -> & N & AD & ->).
  exists ("ERS" ++ ds). split; [reflexivity|].
  exists pre. split.
  - split; [exists ds; auto|]. exists post. reflexivity.
  - intros pre' acc' A'.
    destruct (Nat.le_gt_cases (String.length pre) (String.length pre')) as [L|L];
      [exact L|].
    apply announced_matches in A'. destruct A' as (suf' & E' & M').
    rewrite (Min pre' suf' E' L) in M'. discriminate.
Qed.

Lemma search_accession_None (shape response : string) :
  Re.search (accession_pattern shape) response = None <->
  forall acc, ~ announces shape response acc.
Proof.
  rewrite search_None. split.
  - intros H acc [pre A]. apply announced_matches in A.
    destruct A as (suf & E & M). rewrite (H pre suf E) in M. discriminate.
  - intros H pre suf ->.
    destruct (Re.match_at (accession_pattern shape) suf) as [m|] eqn:M; [|reflexivity].
    exfalso. apply match_at_accession in M. destruct M as (ds & post & -> & N & AD & _).
    apply (H ("ERS" ++ ds)). exists pre. split; [exists ds; auto|].
    exists post. reflexivity.
Qed.

Lemma first_announced_announces (shape response acc : string) :
  first_announced shape response acc -> announces shape response acc.
Proof. intros (pre & A & _). now exists pre. Qed.

(** C5.  Accession extraction tries the success shape, then the error
    shape.  Whenever the response announces an accession in the success
    shape -- also when it announces one in the error shape as well -- the
    result is the accession of the leftmost success-shaped announcement;
    failing that, the accession of the leftmost error-shaped one; and when
    neither shape occurs the result is [None].  The function is total: it
    has no way of raising. *)
Theorem extract_success_shape_first (response : string) :
  (forall acc_s, announces SUCCESS_SHAPE response acc_s ->
     exists acc, extract_sample_code_from_response response = Some acc /\
                 first_announced SUCCESS_SHAPE response acc) /\
  ((forall acc_s, ~ announces SUCCESS_SHAPE response acc_s) ->
   forall acc_e, announces ERROR_SHAPE response acc_e ->
     exists acc, extract_sample_code_from_response response = Some acc /\
                 first_announced ERROR_SHAPE response acc) /\
  ((forall acc_s, ~ announces SUCCESS_SHAPE response acc_s) ->
   (forall acc_e, ~ announces ERROR_SHAPE response acc_e) ->
   extract_sample_code_from_response response = None).
Proof.
  unfold extract_sample_code_from_response. repeat split.
  - intros acc_s A.
    destruct (Re.search (accession_pattern SUCCESS_SHAPE) response) as [m|] eqn:S.
    + apply search_accession_Some in S. destruct S as (acc & G & F).
      exists acc. auto.
    + exfalso. rewrite search_accession_None in S. exact (S acc_s A).
  - intros NS acc_e A. apply search_accession_None in NS. rewrite NS.
    destruct (Re.search (accession_pattern ERROR_SHAPE) response) as [m|] eqn:S.
    + apply search_accession_Some in S. destruct S as (acc & G & F).
      exists acc. auto.
    + exfalso. rewrite search_accession_None in S. exact (S acc_e A).
  - intros NS NE. apply search_accession_None in NS, NE. now rewrite NS, NE.
Qed.

(** What is returned is an accession announced in one of the two shapes. *)
Lemma extract_sound (response acc : string) :
  extract_sample_code_from_response response = Some acc ->
  is_accession acc /\
  (announces SUCCESS_SHAPE response acc \/ announces ERROR_SHAPE response acc).
Proof.
  unfold extract_sample_code_from_response.
  destruct (Re.search (accession_pattern SUCCESS_SHAPE) response) as [m|] eqn:S.
  - intros G. apply search_accession_Some in S. destruct S as (acc' & G' & F).
    assert (acc' = acc) by congruence. subst acc'.
    apply first_announced_announces in F. split; [|now left].
    destruct F as (pre & I & _). exact I.
  - destruct (Re.search (accession_pattern ERROR_SHAPE) response) as [m|] eqn:S';
      [|discriminate].
    intros G. apply search_accession_Some in S'. destruct S' as (acc' & G' & F).
    assert (acc' = acc) by congruence. subst acc'.
    apply first_announced_announces in F. split; [|now right].
    destruct F as (pre & I & _). exact I.
Qed.

Lemma accession_not_empty (acc : string) : is_accession acc -> acc <> "".
Proof. intros (ds & -> & _). discriminate. Qed.

(** C10.  An accession is returned only when the response holds [ERS]
    followed by one or more digits inside the success shape or inside the
    error shape (closed by a quote); a response whose identifiers have
    another prefix or another shape gives [None]. *)
Theorem extract_only_ers_accessions (response : string) :
  (forall acc,
     extract_sample_code_from_response response = Some acc ->
     is_accession acc /\
     (announces SUCCESS_SHAPE response acc \/ announces ERROR_SHAPE response acc)) /\
  ((forall acc, is_accession acc ->
      ~ announces SUCCESS_SHAPE response acc /\ ~ announces ERROR_SHAPE response acc) ->
   extract_sample_code_from_response response = None).
Proof.
  split; [intros acc; apply extract_sound|].
  intros H. unfold extract_sample_code_from_response.
  assert (Re.search (accession_pattern SUCCESS_SHAPE) response = None) as ->.
  { apply search_accession_None. intros acc A.
    destruct A as [pre A]. destruct (H acc (proj1 A)) as [N _].
    apply N. now exists pre. }
  assert (Re.search (accession_pattern ERROR_SHAPE) response = None) as ->.
  { apply search_accession_None. intros acc A.
    destruct A as [pre A]. destruct (H acc (proj1 A)) as [_ N].
    apply N. now exists pre. }
  reflexivity.
Qed.

Lemma is_accession_ERS123 : is_accession "ERS123".
Proof. exists "123". repeat split. discriminate. Qed.

Lemma is_accession_ERS9 : is_accession "ERS9".
Proof. exists "9". repeat split. discriminate. Qed.

Lemma receipt_both_success : announces SUCCESS_SHAPE receipt_both "ERS123".
Proof.
  exists ("<RECEIPT success=true><MESSAGES><ERROR>already exists as accession: "
          ++ dquote ++ "ERS9" ++ dquote ++ "</ERROR></MESSAGES>").
  split; [exact is_accession_ERS123|]. exists " alias=vs/></RECEIPT>". reflexivity.
Qed.

Lemma receipt_both_error : announces ERROR_SHAPE receipt_both "ERS9".
Proof.
  exists "<RECEIPT success=true><MESSAGES><ERROR>already exists as ".
  split; [exact is_accession_ERS9|].
  exists ("</ERROR></MESSAGES><SAMPLE accession="
          ++ dquote ++ "ERS123" ++ dquote ++ " alias=vs/></RECEIPT>").
  reflexivity.
Qed.

Lemma receipt_error_error : announces ERROR_SHAPE receipt_error "ERS9".
Proof.
  exists "<RECEIPT success=false><ERROR>already exists as ".
  split; [exact is_accession_ERS9|]. exists "</ERROR></RECEIPT>". reflexivity.
Qed.

Lemma no_announcement (shape response : string) :
  Re.search (accession_pattern shape) response = None ->
  forall acc, ~ announces shape response acc.
Proof. apply search_accession_None. Qed.

(** The three cases of C5 on receipts: both shapes present (the error
    shape comes first in the text, the success shape wins), the error
    shape alone, and neither. *)
Lemma extract_success_shape_first_witness :
  (announces SUCCESS_SHAPE receipt_both "ERS123" /\
   announces ERROR_SHAPE receipt_both "ERS9" /\
   extract_sample_code_from_response receipt_both = Some "ERS123" /\
   exists acc, extract_sample_code_from_response receipt_both = Some acc /\
               first_announced SUCCESS_SHAPE receipt_both acc) /\
  (exists acc, extract_sample_code_from_response receipt_error = Some acc /\
               first_announced ERROR_SHAPE receipt_error acc) /\
  extract_sample_code_from_response receipt_other = None.
Proof.
  split; [|split].
  - split; [exact receipt_both_success|].
    split; [exact receipt_both_error|].
    split; [reflexivity|].
    exact (proj1 (extract_success_shape_first receipt_both) "ERS123"
                 receipt_both_success).
  - apply (proj1 (proj2 (extract_success_shape_first receipt_error)))
      with (acc_e := "ERS9").
    + apply no_announcement. reflexivity.
    + exact receipt_error_error.
  - apply (proj2 (proj2 (extract_success_shape_first receipt_other)));
      apply no_announcement; reflexivity.
Defined.

Lemma extract_only_ers_accessions_witness :
  (is_accession "ERS123" /\
   (announces SUCCESS_SHAPE receipt_both "ERS123"
    \/ announces ERROR_SHAPE receipt_both "ERS123")) /\
  extract_sample_code_from_response receipt_other = None.
Proof.
  split.
  - apply (proj1 (extract_only_ers_accessions receipt_both)). reflexivity.
  - apply (proj2 (extract_only_ers_accessions receipt_other)).
    intros acc _. split; apply no_announcement; reflexivity.
Defined.

(** ** Reconciliation of the attributes *)

Lemma pytext_eqb_eq (a b : pytext) : pytext_eqb a b = true <-> a = b.
Proof.
  unfold pytext_eqb. destruct (pytext_eq_dec a b); split; congruence.
Qed.

Lemma value_eqb_eq (a b : pytext * pytext) : value_eqb a b = true <-> a = b.
Proof.
  unfold value_eqb. destruct a, b. simpl.
  rewrite andb_true_iff, !pytext_eqb_eq. split.
  - intros [-> ->]. reflexivity.
  - intros H. inversion H. auto.
Qed.

(** The test of the inner [all(...)]: every sample has the tag with the
    value [v]. *)
Lemma all_agree_spec (all : list attributes) (tag : pytext) (v : pytext * pytext) :
  forallb (fun attributes =>
             match attr_get attributes tag with
             | Some v' => value_eqb v v'
             | None => false
             end) all = true
  <-> forall a, In a all -> attr_get a tag = Some v.
Proof.
  rewrite forallb_forall. split; intros H a I; specialize (H a I).
  - destruct (attr_get a tag) as [v'|]; [|discriminate].
    apply value_eqb_eq in H. congruence.
  - rewrite H. now apply value_eqb_eq.
Qed.

Lemma reconcile_step_get (all : list attributes) (first common : attributes)
      (k tag : pytext) (v : pytext * pytext) :
  (forall t u, attr_get common t = Some u -> shared_by all first t u) ->
  (attr_get (reconcile_step all first common k) tag = Some v
   <-> attr_get common tag = Some v \/ (tag = k /\ shared_by all first tag v)).
Proof.
  intros Inv. unfold reconcile_step, shared_by in *.
  destruct (attr_get first k) as [vk|] eqn:F.
  - destruct (forallb _ all) eqn:A.
    + pose proof (proj1 (all_agree_spec all k vk) A) as A'. clear A.
      unfold attr_get, attr_set in *.
      destruct (pytext_eq_dec tag k) as [->|N].
      * rewrite dict_get_set_same. split.
        -- intros H. inversion H; subst. right. split; [reflexivity|]. now split.
        -- intros [H|[_ [H _]]]; [apply Inv in H; destruct H as [H _]|]; congruence.
      * rewrite dict_get_set_other by exact N. split; [auto|].
        intros [H|[E _]]; [exact H|contradiction].
    + split; [auto|]. intros [H|[-> [S1 S]]]; [exact H|].
      assert (vk = v) as -> by congruence.
      pose proof (proj2 (all_agree_spec all k v) S) as S'. congruence.
  - split; [auto|]. intros [H|[-> [S _]]]; [exact H|congruence].
Qed.

Lemma reconcile_fold_get (all : list attributes) (first : attributes)
      (ks : list pytext) (common : attributes) (tag : pytext) (v : pytext * pytext) :
  (forall t u, attr_get common t = Some u -> shared_by all first t u) ->
  (attr_get (fold_left (reconcile_step all first) ks common) tag = Some v
   <-> attr_get common tag = Some v \/ (In tag ks /\ shared_by all first tag v)).
Proof.
  revert common. induction ks as [|k ks IH]; intros common Inv; simpl.
  - tauto.
  - rewrite IH.
    + rewrite reconcile_step_get by exact Inv. intuition (subst; auto).
    + intros t u H. apply reconcile_step_get in H; [|exact Inv].
      destruct H as [H|[_ H]]; [now apply Inv|exact H].
Qed.

Lemma find_common_attributes_get (first : attributes) (rest : list attributes)
      (tag : pytext) (v : pytext * pytext) :
  attr_get (find_common_attributes (first :: rest)) tag = Some v
  <-> forall a, In a (first :: rest) -> attr_get a tag = Some v.
Proof.
  unfold find_common_attributes.
  rewrite (reconcile_fold_get (first :: rest) first (dict_keys first) [] tag v)
    by (intros ? ? H; discriminate H).
  split.
  - intros [H|[_ [_ H]]]; [discriminate H|exact H].
  - intros H. right. assert (attr_get first tag = Some v) as F by (apply H; now left).
    split; [|now split].
    unfold attr_get in F. apply dict_get_In in F.
    apply in_map with (f := fst) in F. exact F.
Qed.

(** The reconciled set is a dictionary: no tag twice. *)
Lemma find_common_attributes_wf (all : list attributes) :
  dict_wf (find_common_attributes all).
Proof.
  destruct all as [|first rest]; [constructor|]. unfold find_common_attributes.
  generalize (dict_keys first).
  assert (dict_wf (@nil (pytext * (pytext * pytext)))) as W by constructor.
  revert W. generalize (@nil (pytext * (pytext * pytext))).
  intros common W ks. revert common W.
  induction ks as [|k ks IH]; intros common W; [exact W|].
  cbn [fold_left]. apply IH. unfold reconcile_step.
  destruct (attr_get first k); [|exact W].
  destruct (forallb _ _); [|exact W].
  now apply dict_set_wf.
Qed.

(** C2.  Reconciliation is intersective: for a non-empty list of attribute
    sets, a tag has the value and unit [v] in the reconciled set exactly
    when it has that same value and unit in every input set; so a tag is
    in the reconciled set exactly when all inputs hold it with one common
    (value, unit) pair. *)
Theorem reconciliation_is_intersective (all : list attributes) (tag : pytext) :
  all <> [] ->
  (forall v, attr_get (find_common_attributes all) tag = Some v
             <-> forall a, In a all -> attr_get a tag = Some v) /\
  (attr_mem (find_common_attributes all) tag = true
   <-> exists v, forall a, In a all -> attr_get a tag = Some v).
Proof.
  destruct all as [|first rest]; [congruence|]. intros _.
  split; [intros v; apply find_common_attributes_get|].
  unfold attr_mem, dict_mem.
  change (dict_get pytext_eq_dec (find_common_attributes (first :: rest)) tag)
    with (attr_get (find_common_attributes (first :: rest)) tag).
  destruct (attr_get (find_common_attributes (first :: rest)) tag) as [v|] eqn:G.
  - split; [intros _|reflexivity]. exists v. now apply find_common_attributes_get.
  - split; [discriminate|]. intros [v H].
    apply find_common_attributes_get in H. congruence.
Qed.

(** The example of the specification: A is kept, B is dropped. *)
Lemma reconcile_example :
  find_common_attributes [attrs_AB_x; attrs_AB_y] = [(Some "A", (Some "1", None))].
Proof. reflexivity. Qed.

Lemma reconciliation_is_intersective_witness :
  [attrs_AB_x; attrs_AB_y] <> [] /\
  (attr_get (find_common_attributes [attrs_AB_x; attrs_AB_y]) (Some "A")
   = Some (Some "1", None)
   <-> forall a, In a [attrs_AB_x; attrs_AB_y] ->
                 attr_get a (Some "A") = Some (Some "1", None)).
Proof.
  split; [discriminate|].
  exact (proj1 (reconciliation_is_intersective
                  [attrs_AB_x; attrs_AB_y] (Some "A") ltac:(discriminate))
               (Some "1", None)).
Defined.

(** ** The composed record *)

Lemma common_attribute_elements_triples (items : attributes) :
  map attribute_triple (common_attribute_elements items)
  = map ordinary_triple (filter (fun item => negb (is_reserved (fst item))) items).
Proof.
  induction items as [|[tag [value units]] items IH]; [reflexivity|].
  cbn [common_attribute_elements filter fst]. unfold is_reserved, pytext_eqb.
  destruct (pytext_eq_dec tag (Some ENA_CHECKLIST)) as [E|N]; cbn [negb].
  - exact IH.
  - cbn [map]. rewrite IH. f_equal.
    unfold ordinary_triple, kept_units. cbn [fst snd].
    destruct (truthy units); reflexivity.
Qed.

Lemma mandatory_attribute_elements_triples (common : attributes) (fields : list pytext) :
  map attribute_triple (mandatory_attribute_elements common fields)
  = map placeholder_triple (filter (fun field => negb (attr_mem common field)) fields).
Proof.
  induction fields as [|field fields IH]; [reflexivity|].
  cbn [mandatory_attribute_elements filter].
  destruct (attr_mem common field); cbn [negb]; [exact IH|].
  cbn [map]. rewrite IH. reflexivity.
Qed.

(** Every attribute of the composed record, in order: the checklist
    attribute when a checklist is set, the common attributes but the
    reserved tag, the placeholders. *)
Lemma emitted_attributes_composed
      (common : attributes) (sample_codes : list string)
      (taxon_id scientific_name : pytext) (alias : string)
      (center checklist : pytext) (mandatory : list pytext) :
  emitted_attributes
    (create_virtual_sample common sample_codes taxon_id scientific_name
                           alias center checklist mandatory)
  = ((if truthy checklist then [(Some ENA_CHECKLIST, checklist, None)] else [])
       ++ map ordinary_triple (filter (fun item => negb (is_reserved (fst item))) common)
       ++ map placeholder_triple
            (filter (fun field => negb (attr_mem common field)) mandatory))%list.
Proof.
  unfold emitted_attributes.
  change (find (create_virtual_sample common sample_codes taxon_id scientific_name
                                      alias center checklist mandatory)
               "SAMPLE_ATTRIBUTES")
    with (Some (mkElement "SAMPLE_ATTRIBUTES" [] None
                  ((if truthy checklist then
                      [mkElement "SAMPLE_ATTRIBUTE" [] None
                         [leaf "TAG" (Some ENA_CHECKLIST); leaf "VALUE" checklist]]
                    else [])
                     ++ common_attribute_elements common
                     ++ mandatory_attribute_elements common mandatory)%list)).
  cbn [children].
  rewrite !map_app, common_attribute_elements_triples,
    mandatory_attribute_elements_triples.
  destruct (truthy checklist); reflexivity.
Qed.

(** C7.  With a non-empty checklist identifier the first attribute of the
    composed record is the reserved tag ENA-CHECKLIST with that identifier
    as its value; then come the reconciled attributes in their iteration
    order, the reserved tag left out, each with its value and with its
    unit when it has one; the placeholders come last.  No attribute that
    comes from the reconciled set carries the reserved tag. *)
Theorem checklist_attribute_first
      (common : attributes) (sample_codes : list string)
      (taxon_id scientific_name : pytext) (alias : string)
      (center checklist : pytext) (mandatory : list pytext) :
  truthy checklist = true ->
  let ordinary := filter (fun item => negb (is_reserved (fst item))) common in
  emitted_attributes
    (create_virtual_sample common sample_codes taxon_id scientific_name
                           alias center checklist mandatory)
  = ((Some ENA_CHECKLIST, checklist, None)
       :: map ordinary_triple ordinary
       ++ map placeholder_triple
            (filter (fun field => negb (attr_mem common field)) mandatory))%list
  /\ (forall item, In item ordinary ->
        In item common /\ fst item <> Some ENA_CHECKLIST)
  /\ (forall item, In item common -> fst item <> Some ENA_CHECKLIST ->
        In item ordinary).
Proof.
  intros T ordinary. rewrite emitted_attributes_composed, T.
  split; [reflexivity|]. subst ordinary. split.
  - intros item I. apply filter_In in I. destruct I as [I R]. split; [exact I|].
    intros E. unfold is_reserved in R. rewrite (proj2 (pytext_eqb_eq _ _) E) in R.
    discriminate.
  - intros item I N. apply filter_In. split; [exact I|].
    unfold is_reserved. destruct (pytext_eqb (fst item) (Some ENA_CHECKLIST)) eqn:E;
      [|reflexivity].
    apply pytext_eqb_eq in E. contradiction.
Qed.

Lemma checklist_attribute_first_witness :
  emitted_attributes depth_record
  = [(Some ENA_CHECKLIST, Some "ERC000011", None);
     (Some "depth", Some "10", Some "m");
     (Some "sex", Some "female", None);
     (Some "collection date", Some SENTINEL, None)].
Proof.
  exact (proj1 (checklist_attribute_first
                  depth_common ["ERS1"; "ERS2"] (Some "9606") (Some "Homo sapiens")
                  "vs" None (Some "ERC000011") [Some "depth"; Some "collection date"]
                  eq_refl)).
Defined.

Lemma filter_map_comm {A B} (p : B -> bool) (f : A -> B) (l : list A) :
  filter p (map f l) = map f (filter (fun x => p (f x)) l).
Proof.
  induction l as [|x l IH]; simpl; [reflexivity|].
  destruct (p (f x)); simpl; congruence.
Qed.

Lemma filter_none {A} (p : A -> bool) (l : list A) :
  (forall x, In x l -> p x = false) -> filter p l = [].
Proof.
  induction l as [|x l IH]; simpl; intros H; [reflexivity|].
  rewrite (H x) by now left. apply IH. intros y I. apply H. now right.
Qed.

Lemma filter_key_wf (d : attributes) (k : pytext) (v : pytext * pytext) :
  dict_wf d -> attr_get d k = Some v ->
  filter (fun item => pytext_eqb (fst item) k) d = [(k, v)].
Proof.
  unfold dict_wf, dict_keys, attr_get, pytext_eqb.
  induction d as [|[k' v'] d IH]; simpl; [discriminate|].
  intros W G. inversion W as [|? ? NI W']; subst.
  destruct (pytext_eq_dec k k') as [E|N].
  - subst k'. inversion G; subst v'.
    destruct (pytext_eq_dec k k) as [_|N]; [|congruence].
    f_equal. apply filter_none. intros [k2 v2] I. simpl.
    destruct (pytext_eq_dec k2 k) as [E|_]; [|reflexivity].
    subst k2. exfalso. apply NI. apply in_map with (f := fst) in I. exact I.
  - destruct (pytext_eq_dec k' k) as [E|_]; [congruence|]. now apply IH.
Qed.

Lemma filter_key_not_reserved (d : attributes) (m : pytext) :
  m <> Some ENA_CHECKLIST ->
  filter (fun item => pytext_eqb (fst item) m)
         (filter (fun item => negb (is_reserved (fst item))) d)
  = filter (fun item => pytext_eqb (fst item) m) d.
Proof.
  intros N. induction d as [|[k v] d IH]; [reflexivity|]. cbn [filter fst].
  unfold is_reserved at 1.
  destruct (pytext_eqb k (Some ENA_CHECKLIST)) eqn:R; cbn [negb filter fst].
  - apply pytext_eqb_eq in R. subst k.
    destruct (pytext_eqb (Some ENA_CHECKLIST) m) eqn:E; [|exact IH].
    apply pytext_eqb_eq in E. congruence.
  - rewrite IH. reflexivity.
Qed.

Lemma filter_key_reserved (d : attributes) :
  filter (fun item => pytext_eqb (fst item) (Some ENA_CHECKLIST))
         (filter (fun item => negb (is_reserved (fst item))) d) = [].
Proof.
  apply filter_none. intros item I. apply filter_In in I. destruct I as [_ R].
  unfold is_reserved in R. destruct (pytext_eqb (fst item) (Some ENA_CHECKLIST));
    [discriminate|reflexivity].
Qed.

(** C4, amended.  In the composed record every mandatory field that is
    not a tag of the reconciled attributes has an attribute with the
    sentinel value.  A mandatory field that is a reconciled tag gets no
    placeholder: if it is not the reserved tag, the record's only
    attribute with that tag carries the reconciled value and the
    reconciled unit (an empty unit being left out); if it is the reserved
    tag, the only attribute with that tag is the checklist attribute. *)
Theorem mandatory_fields_completed
      (common : attributes) (sample_codes : list string)
      (taxon_id scientific_name : pytext) (alias : string)
      (center checklist : pytext) (mandatory : list pytext) (m : pytext) :
  In m mandatory ->
  let record := create_virtual_sample common sample_codes taxon_id scientific_name
                                      alias center checklist mandatory in
  (attr_mem common m = false ->
   In (placeholder_triple m) (emitted_attributes record)) /\
  (forall value units,
     dict_wf common -> attr_get common m = Some (value, units) ->
     m <> Some ENA_CHECKLIST ->
     filter (has_tag m) (emitted_attributes record) = [(m, value, kept_units units)]) /\
  (attr_mem common m = true -> m = Some ENA_CHECKLIST ->
   filter (has_tag m) (emitted_attributes record)
   = if truthy checklist then [(Some ENA_CHECKLIST, checklist, None)] else []).
Proof.
  intros I record. subst record. rewrite emitted_attributes_composed.
  assert (forall l,
             filter (has_tag m) (map placeholder_triple l)
             = map placeholder_triple (filter (fun f => pytext_eqb f m) l)) as FP
      by (intros l; apply filter_map_comm).
  assert (forall l,
             filter (has_tag m) (map ordinary_triple l)
             = map ordinary_triple (filter (fun item => pytext_eqb (fst item) m) l)) as FO
      by (intros l; apply filter_map_comm).
  assert (attr_mem common m = true ->
          filter (fun f => pytext_eqb f m)
                 (filter (fun field => negb (attr_mem common field)) mandatory) = [])
    as NoPlaceholder.
  { intros M. apply filter_none. intros f F. apply filter_In in F.
    destruct F as [_ F]. destruct (pytext_eqb f m) eqn:E; [|reflexivity].
    apply pytext_eqb_eq in E. subst f. rewrite M in F. discriminate. }
  split; [|split].
  - intros M. rewrite !in_app_iff. right. right.
    apply in_map. apply filter_In. split; [exact I|]. now rewrite M.
  - intros value units W G N.
    assert (attr_mem common m = true) as M.
    { unfold attr_mem, dict_mem. unfold attr_get in G. now rewrite G. }
    rewrite !filter_app, FP, FO, (NoPlaceholder M), filter_key_not_reserved by exact N.
    rewrite (filter_key_wf common m (value, units) W G).
    assert (filter (has_tag m)
                   (if truthy checklist then [(Some ENA_CHECKLIST, checklist, None)]
                    else []) = []) as ->.
    { apply filter_none. intros t T. destruct (truthy checklist); [|destruct T].
      destruct T as [<-|[]]. unfold has_tag. cbn [fst].
      destruct (pytext_eqb (Some ENA_CHECKLIST) m) eqn:E; [|reflexivity].
      apply pytext_eqb_eq in E. congruence. }
    reflexivity.
  - intros M ->.
    rewrite !filter_app, FP, FO, (NoPlaceholder M), filter_key_reserved.
    cbn [map]. rewrite !List.app_nil_r.
    destruct (truthy checklist); reflexivity.
Qed.

Lemma mandatory_fields_completed_witness :
  In (placeholder_triple (Some "collection date")) (emitted_attributes depth_record) /\
  filter (has_tag (Some "depth")) (emitted_attributes depth_record)
  = [(Some "depth", Some "10", Some "m")].
Proof.
  split.
  - apply (proj1 (mandatory_fields_completed
                    depth_common ["ERS1"; "ERS2"] (Some "9606") (Some "Homo sapiens")
                    "vs" None (Some "ERC000011") [Some "depth"; Some "collection date"]
                    (Some "collection date") ltac:(simpl; tauto))).
    reflexivity.
  - apply (proj1 (proj2 (mandatory_fields_completed
                    depth_common ["ERS1"; "ERS2"] (Some "9606") (Some "Homo sapiens")
                    "vs" None (Some "ERC000011") [Some "depth"; Some "collection date"]
                    (Some "depth") ltac:(simpl; tauto))) (Some "10") (Some "m")).
    + unfold dict_wf, depth_common. simpl.
      repeat constructor; simpl; intuition discriminate.
    + reflexivity.
    + discriminate.
Defined.

(** C4 as worded fails for the reserved tag: when ENA-CHECKLIST is a
    reconciled tag and a mandatory field, and the checklist is overridden,
    the record carries the override, not the reconciled value. *)
Lemma mandatory_completion_counterexample :
  attr_get reserved_common (Some ENA_CHECKLIST) = Some (Some "ERC000011", None) /\
  emitted_attributes reserved_record = [(Some ENA_CHECKLIST, Some "ERC000050", None)] /\
  ~ completion_as_worded reserved_common reserved_record (Some ENA_CHECKLIST).
Proof.
  split; [reflexivity|]. split; [reflexivity|].
  intros [_ H]. specialize (H (Some "ERC000011") None eq_refl).
  change (emitted_attributes reserved_record)
    with [(Some ENA_CHECKLIST, Some "ERC000050", @None string)] in H.
  destruct H as [H|[]]. discriminate H.
Qed.

(** ** The description *)

Lemma drop_final_dot_app (s : string) : drop_final_dot (s ++ ".") = Some s.
Proof.
  induction s as [|c s IH]; [reflexivity|].
  change (String c s ++ ".") with (String c (s ++ ".")).
  cbn [drop_final_dot]. rewrite IH.
  destruct s; reflexivity.
Qed.

Lemma no_comma_cons (c : ascii) (s : string) :
  no_comma (String c s) = true -> c <> ","%char /\ no_comma s = true.
Proof.
  unfold no_comma. simpl. intros H. apply andb_prop in H. destruct H as [C H].
  split; [|exact H]. intros ->. discriminate.
Qed.

(** An identifier without a comma, followed by the separator, is the
    first part of the split. *)
Lemma split_after_id (id rest : string) :
  no_comma id = true ->
  split_comma_space (id ++ ", " ++ rest) = id :: split_comma_space rest.
Proof.
  induction id as [|c id IH]; intros NC; [reflexivity|].
  apply no_comma_cons in NC. destruct NC as [C NC].
  change (String c id ++ ", " ++ rest) with (String c (id ++ ", " ++ rest)).
  cbn [split_comma_space].
  assert (Ascii.eqb c ","%char = false) as -> by now apply Ascii.eqb_neq.
  cbn [andb]. rewrite (IH NC). cbn [cons_to_head].
  destruct (id ++ ", " ++ rest) eqn:E; [|reflexivity].
  destruct id; discriminate.
Qed.

Lemma split_single_id (id : string) :
  no_comma id = true -> split_comma_space id = [id].
Proof.
  induction id as [|c id IH]; intros NC; [reflexivity|].
  apply no_comma_cons in NC. destruct NC as [C NC].
  cbn [split_comma_space].
  assert (Ascii.eqb c ","%char = false) as -> by now apply Ascii.eqb_neq.
  cbn [andb]. rewrite (IH NC). cbn [cons_to_head]. destruct id; reflexivity.
Qed.

Lemma split_join (ids : list string) :
  ids <> [] -> forallb no_comma ids = true ->
  split_comma_space (join ", " ids) = ids.
Proof.
  induction ids as [|id ids IH]; [congruence|]. intros _ NC.
  cbn [forallb] in NC. apply andb_prop in NC. destruct NC as [NC NCs].
  destruct ids as [|id' ids].
  - now apply split_single_id.
  - change (join ", " (id :: id' :: ids)) with (id ++ ", " ++ join ", " (id' :: ids)).
    rewrite split_after_id by exact NC. f_equal. apply IH; [discriminate|exact NCs].
Qed.

(** C6.  The description of the composed record is the fixed sentence
    followed by the source sample identifiers, in their input order,
    separated by comma-space and closed by a full stop -- nothing else.
    So, for a non-empty list of identifiers none of which contains a
    comma, reading the description back gives exactly that list. *)
Theorem description_lists_sources
      (common : attributes) (sample_codes : list string)
      (taxon_id scientific_name : pytext) (alias : string)
      (center checklist : pytext) (mandatory : list pytext) :
  let record := create_virtual_sample common sample_codes taxon_id scientific_name
                                      alias center checklist mandatory in
  child_text record "TITLE" = Some (TITLE_PREFIX ++ join ", " sample_codes ++ ".") /\
  (sample_codes <> [] -> forallb no_comma sample_codes = true ->
   exists description,
     child_text record "TITLE" = Some description /\
     described_samples description = Some sample_codes).
Proof.
  intros record. split; [reflexivity|]. intros NE NC.
  exists (TITLE_PREFIX ++ join ", " sample_codes ++ "."). split; [reflexivity|].
  unfold described_samples. rewrite strip_prefix_app, drop_final_dot_app.
  cbn [option_map]. now rewrite split_join.
Qed.

Lemma description_lists_sources_witness :
  child_text depth_record "TITLE" = Some (TITLE_PREFIX ++ "ERS1, ERS2.") /\
  exists description,
    child_text depth_record "TITLE" = Some description /\
    described_samples description = Some ["ERS1"; "ERS2"].
Proof.
  split.
  - exact (proj1 (description_lists_sources
                    depth_common ["ERS1"; "ERS2"] (Some "9606") (Some "Homo sapiens")
                    "vs" None (Some "ERC000011") [Some "depth"; Some "collection date"])).
  - apply (proj2 (description_lists_sources
                    depth_common ["ERS1"; "ERS2"] (Some "9606") (Some "Homo sapiens")
                    "vs" None (Some "ERC000011") [Some "depth"; Some "collection date"])).
    + discriminate.
    + reflexivity.
Defined.

(** ** The checklist resolver *)

(** One field, when it has a NAME and a MANDATORY child. *)
Lemma classify_field_ok (mandatory : list pytext) (units : dict pytext pytext)
      (recommended : list pytext) (field : Element) :
  find field "NAME" <> None -> find field "MANDATORY" <> None ->
  classify_field (mandatory, units, recommended) field
  = Ok ((mandatory ++ if has_obligation "mandatory" field then [field_name field] else [])%list,
        match find field "UNITS" with
        | Some units_element =>
            dict_set pytext_eq_dec units (field_name field)
                     (child_text units_element "UNIT")
        | None => units
        end,
        (recommended ++ if has_obligation "recommended" field then [field_name field] else [])%list).
Proof.
  intros N M. unfold classify_field, has_obligation, obligation, field_name, child_text.
  destruct (find field "NAME") as [n|]; [|congruence].
  destruct (find field "MANDATORY") as [m|]; [|congruence].
  cbn [text_of rbind].
  destruct (pytext_eqb (text m) (Some "mandatory"));
    destruct (pytext_eqb (text m) (Some "recommended"));
    rewrite ?List.app_nil_r; reflexivity.
Qed.

Lemma classify_fields_ok (fields : list Element) :
  Forall (fun field => find field "NAME" <> None /\ find field "MANDATORY" <> None)
         fields ->
  forall mandatory units recommended,
    for_each classify_field fields (mandatory, units, recommended)
    = Ok ((mandatory ++ map field_name (filter (has_obligation "mandatory") fields))%list,
          units_after fields units,
          (recommended ++ map field_name (filter (has_obligation "recommended") fields))%list).
Proof.
  induction 1 as [|field fields [N M] _ IH]; intros mandatory units recommended.
  - cbn. now rewrite !List.app_nil_r.
  - cbn [for_each]. rewrite classify_field_ok by assumption. cbn [rbind].
    rewrite IH. cbn [filter units_after fold_left].
    destruct (has_obligation "mandatory" field);
      destruct (has_obligation "recommended" field);
      cbn [map]; rewrite <- ?List.app_assoc, ?List.app_nil_r; reflexivity.
Qed.

Lemma units_after_mem (fields : list Element) (units : dict pytext pytext) (n : pytext) :
  dict_mem pytext_eq_dec (units_after fields units) n = true
  <-> dict_mem pytext_eq_dec units n = true
      \/ exists field, In field fields /\ field_name field = n
                       /\ declares_units field = true.
Proof.
  revert units. induction fields as [|field fields IH]; intros units.
  - cbn. split; [auto|]. intros [H|(f & [] & _)]. exact H.
  - cbn [units_after fold_left]. fold (units_after fields). rewrite IH.
    unfold declares_units at 2.
    destruct (find field "UNITS") as [us|] eqn:U.
    + rewrite !dict_mem_keys, dict_keys_set.
      destruct (dict_mem pytext_eq_dec units (field_name field)) eqn:M.
      * split.
        -- intros [H|(f & I & E & D)]; [now left|].
           right. exists f. split; [now right|auto].
        -- intros [H|(f & [<-|I] & E & D)].
           ++ now left.
           ++ left. rewrite <- E. now apply dict_mem_keys in M.
           ++ right. exists f. auto.
      * rewrite in_app_iff. split.
        -- intros [[H|[<-|[]]]|(f & I & E & D)].
           ++ now left.
           ++ right. exists field. split; [now left|]. split; [reflexivity|].
              unfold declares_units. now rewrite U.
           ++ right. exists f. split; [now right|auto].
        -- intros [H|(f & [<-|I] & E & D)].
           ++ left. now left.
           ++ left. right. left. exact E.
           ++ right. exists f. auto.
    + split.
      * intros [H|(f & I & E & D)]; [now left|].
        right. exists f. split; [now right|auto].
      * intros [H|(f & [<-|I] & E & D)].
        -- now left.
        -- unfold declares_units in D. rewrite U in D. discriminate.
        -- right. exists f. auto.
Qed.

Lemma read_checklist_ok (root : Element) :
  readable_checklist root ->
  exists spec,
    read_checklist root = Ok spec /\
    mandatory_fields spec
    = map field_name (filter (has_obligation "mandatory") (findall_desc root "FIELD")) /\
    recommended_fields spec
    = map field_name (filter (has_obligation "recommended") (findall_desc root "FIELD")) /\
    fields_with_units spec = units_after (findall_desc root "FIELD") [].
Proof.
  intros [(desc & n & D & N) F]. unfold read_checklist.
  rewrite D. cbn [find_in rbind]. rewrite N. cbn [text_of rbind].
  pose proof (classify_fields_ok (findall_desc root "FIELD") F [] [] []) as E.
  cbn [app] in E.
  change (for_each classify_field (findall_desc root "FIELD") ([], [], []))
    with (for_each classify_field (findall_desc root "FIELD")
                   (@nil pytext, @nil (pytext * pytext), @nil pytext)) in E.
  unfold rbind. rewrite E.
  eexists. split; [reflexivity|]. cbn. auto.
Qed.

(** The resolver on a checklist document that arrives. *)
Lemma mandatory_fields_and_units_ok
      (w : World) (accession : string) (response : Response) (root : Element) :
  http_get w (checklist_url accession) = Some response ->
  status_code response < 400 \/ 600 <= status_code response ->
  content response = Some root ->
  mandatory_fields_and_units w accession
  = ([HttpGet (checklist_url accession)], read_checklist root).
Proof.
  intros G S C. unfold mandatory_fields_and_units. rewrite G, C.
  assert (((400 <=? status_code response)%nat && (status_code response <? 600)%nat)%bool
          = false) as ->.
  { destruct S as [S|S].
    - apply andb_false_intro1. apply Nat.leb_gt. exact S.
    - apply andb_false_intro2. apply Nat.ltb_ge. exact S. }
  unfold lift. now destruct (read_checklist root).
Qed.

(** C8.  When the checklist document arrives and is readable, the resolver
    returns: as mandatory fields the names of exactly the fields whose
    obligation marker is [mandatory], as recommended fields the names of
    exactly those whose marker is [recommended], both in document order
    (a field with another marker is in neither list); and a units mapping
    whose keys are exactly the names of the fields that carry a UNITS
    declaration. *)
Theorem resolver_classifies_fields
        (w : World) (accession : string) (response : Response) (root : Element) :
  http_get w (checklist_url accession) = Some response ->
  status_code response < 400 \/ 600 <= status_code response ->
  content response = Some root ->
  readable_checklist root ->
  let fields := findall_desc root "FIELD" in
  exists spec,
    mandatory_fields_and_units w accession
    = ([HttpGet (checklist_url accession)], Ok spec) /\
    mandatory_fields spec = map field_name (filter (has_obligation "mandatory") fields) /\
    recommended_fields spec = map field_name (filter (has_obligation "recommended") fields) /\
    (forall n, In n (mandatory_fields spec)
               <-> exists field, In field fields /\ field_name field = n
                                 /\ obligation field = Some "mandatory") /\
    (forall n, In n (recommended_fields spec)
               <-> exists field, In field fields /\ field_name field = n
                                 /\ obligation field = Some "recommended") /\
    (forall n, dict_mem pytext_eq_dec (fields_with_units spec) n = true
               <-> exists field, In field fields /\ field_name field = n
                                 /\ declares_units field = true).
Proof.
  intros G S C R fields.
  destruct (read_checklist_ok root R) as (spec & E & M & Rc & U).
  exists spec.
  assert (forall marker n,
             In n (map field_name (filter (has_obligation marker) fields))
             <-> exists field, In field fields /\ field_name field = n
                               /\ obligation field = Some marker) as Cl.
  { intros marker n. rewrite in_map_iff. split.
    - intros (f & <- & I). apply filter_In in I. destruct I as [I O].
      exists f. repeat split; auto. now apply pytext_eqb_eq in O.
    - intros (f & I & <- & O). exists f. split; [reflexivity|].
      apply filter_In. split; [exact I|]. now apply pytext_eqb_eq. }
  split; [|split; [exact M|split; [exact Rc|split; [|split]]]].
  - rewrite (mandatory_fields_and_units_ok w accession response root G S C), E.
    reflexivity.
  - intros n. rewrite M. apply Cl.
  - intros n. rewrite Rc. apply Cl.
  - intros n. rewrite U, units_after_mem. split.
    + intros [H|H]; [discriminate H|exact H].
    + auto.
Qed.

Lemma checklist_doc_readable : readable_checklist checklist_doc.
Proof.
  split.
  - eexists. eexists. split; reflexivity.
  - repeat constructor; discriminate.
Qed.

Lemma resolver_classifies_fields_witness :
  exists spec,
    mandatory_fields_and_units checklist_world "ERC000011"
    = ([HttpGet (checklist_url "ERC000011")], Ok spec) /\
    mandatory_fields spec = [Some "collection date"; Some "depth"] /\
    recommended_fields spec = [Some "sex"].
Proof.
  destruct (resolver_classifies_fields
              checklist_world "ERC000011"
              {| status_code := 200; content := Some checklist_doc |} checklist_doc
              eq_refl ltac:(left; apply Nat.ltb_lt; reflexivity) eq_refl
              checklist_doc_readable)
    as (spec & E & M & R & _).
  exists spec. auto.
Defined.

(** ** The release phase *)

Lemma out_not_empty : "out" <> "".
Proof. discriminate. Qed.

Lemma release_targets_release_xml (sample_code : string) :
  release_targets (create_release_xml sample_code) = [Some sample_code].
Proof. reflexivity. Qed.

(** C9.  In a release run that finds its credentials and the persisted
    receipt, in an output directory with a name (not the empty path): when extraction finds no accession in the receipt, the run
    ends with the error [No sample code found in submission response.]
    and its trace has no curl call; when extraction finds an accession,
    the release document that is written has exactly that accession as
    its release target, and the one curl call of the run sends that
    document. *)
Theorem release_requires_accession
        (w : World) (sample_codes : list string) (output_dir : string)
        (submit : bool) (checklist alias center : pytext) (force : bool)
        (account password receipt : string) :
  credentials w = Some (account, password) ->
  output_dir <> "" ->
  read_file w (path_join output_dir "submission_response.xml") = Some receipt ->
  let run := main w sample_codes output_dir submit true checklist alias center force in
  let release_path := path_join output_dir "release.xml" in
  (extract_sample_code_from_response receipt = None ->
   snd run = Raise (ValueError "No sample code found in submission response.") /\
   filter is_transport (fst run) = [] /\
   filter is_composed_document (fst run) = []) /\
  (forall acc,
     extract_sample_code_from_response receipt = Some acc ->
     snd run = Ok tt /\
     filter is_composed_document (fst run)
     = [WriteFile release_path (XmlDoc (create_release_xml acc))] /\
     release_targets (create_release_xml acc) = [Some acc] /\
     filter is_transport (fst run)
     = [Subprocess (curl_command account password release_path
                                 (Some (path_join output_dir "virtual_sample.xml"))
                                 submit)]).
Proof.
  intros C N R run release_path. subst run release_path.
  unfold main, read_credentials, release_run, makedirs.
  rewrite C, R, (proj2 (String.eqb_neq output_dir "") N). cbn [negb andb mbind mret].
  split.
  - intros ->. destruct (path_exists w output_dir); cbn; auto.
  - intros acc E. rewrite E.
    destruct acc as [|c acc].
    + apply extract_sound in E. destruct E as [A _].
      now apply accession_not_empty in A.
    + unfold submit_to_ebi.
      destruct (run_curl w _); destruct (path_exists w output_dir); cbn; auto.
Qed.

Lemma release_requires_accession_witness :
  (snd (main (release_world receipt_other) [] "out" false true None None None false)
   = Raise (ValueError "No sample code found in submission response.") /\
   filter is_transport
          (fst (main (release_world receipt_other) [] "out" false true None None None false))
   = []) /\
  (snd (main (release_world receipt_both) [] "out" false true None None None false)
   = Ok tt /\
   filter is_composed_document
          (fst (main (release_world receipt_both) [] "out" false true None None None false))
   = [WriteFile "out/release.xml" (XmlDoc (create_release_xml "ERS123"))]).
Proof.
  split.
  - destruct (proj1 (release_requires_accession
                       (release_world receipt_other) [] "out" false None None None false
                       "account" "password" receipt_other eq_refl out_not_empty eq_refl)
                    eq_refl)
      as (E & T & _).
    split; [exact E|exact T].
  - destruct (proj2 (release_requires_accession
                       (release_world receipt_both) [] "out" false None None None false
                       "account" "password" receipt_both eq_refl out_not_empty eq_refl)
                    "ERS123" eq_refl)
      as (E & D & _).
    split; [exact E|exact D].
Defined.

(** ** The checklist policy *)

(** The set of observed checklists has no duplicates. *)
Lemma set_add_NoDup (x : string) (s : list string) : NoDup s -> NoDup (set_add x s).
Proof.
  unfold set_add. intros N. destruct (in_dec string_dec x s) as [I|NI]; [exact N|].
  induction s as [|y s IH]; cbn.
  - constructor; [tauto|constructor].
  - inversion N; subst. constructor.
    + rewrite in_app_iff. cbn. intros [I|[E|[]]]; [tauto|].
      subst. apply NI. now left.
    + apply IH; [assumption|]. intros I. apply NI. now right.
Qed.

(** What lines 287-306 do, case by case: an override wins; a single
    observed checklist is used; with none observed the default is used
    with a warning; with two or more observed and no override the check
    of line 288 raises. *)
Lemma checklist_policy_cases (checklist : pytext) (observed : list string) :
  (truthy checklist = true ->
   check_checklists observed checklist = Ok tt /\
   exists c, checklist = Some c /\ select_checklist checklist observed = (c, [])) /\
  (truthy checklist = false ->
   forall c, observed = [c] ->
   check_checklists observed checklist = Ok tt /\
   select_checklist checklist observed = (c, [])) /\
  (truthy checklist = false -> observed = [] ->
   check_checklists observed checklist = Ok tt /\
   select_checklist checklist observed = (DEFAULT_CHECKLIST, [DEFAULT_WARNING])) /\
  (truthy checklist = false -> 2 <= List.length observed ->
   check_checklists observed checklist
   = Raise (ValueError
              "Inconsistent checklists found in input samples and no checklist provided.")).
Proof.
  unfold check_checklists, select_checklist.
  split; [|split; [|split]].
  - intros T. rewrite T. split; [now rewrite !andb_false_r|].
    destruct checklist as [[|a s]|]; try discriminate T. eauto.
  - intros T c ->. split; [reflexivity|].
    destruct checklist as [[|a s]|]; try discriminate T; reflexivity.
  - intros T ->. split; [reflexivity|].
    destruct checklist as [[|a s]|]; try discriminate T; reflexivity.
  - intros T L. rewrite T.
    destruct observed as [|x [|y l]]; cbn in L; try lia. reflexivity.
Qed.

Lemma observed_checklists_NoDup (samples : list SourceSample) :
  NoDup (observed_checklists samples).
Proof.
  unfold observed_checklists.
  assert (NoDup (@nil string)) as N by constructor.
  revert N. generalize (@nil string).
  induction samples as [|s samples IH]; intros observed N; [exact N|].
  cbn [fold_left]. apply IH. unfold observe.
  destruct (sample_checklist s) as [[|a c]|]; auto using set_add_NoDup.
Qed.

Lemma check_checklists_ok (checklist : pytext) (observed : list string) :
  truthy checklist = true \/ List.length observed <= 1 ->
  check_checklists observed checklist = Ok tt.
Proof.
  unfold check_checklists. intros [T|L].
  - rewrite T. now rewrite !andb_false_r.
  - destruct observed as [|x [|y l]]; cbn in L; try lia; reflexivity.
Qed.

(** ** The loop over the source samples *)

Lemma mfor_each_app {A S} (step : S -> A -> M S) (xs ys : list A) (s : S) :
  mfor_each step (xs ++ ys)%list s
  = mbind (mfor_each step xs s) (mfor_each step ys).
Proof.
  revert s. induction xs as [|x xs IH]; intros s; cbn [mfor_each app].
  - unfold mret, mbind. now destruct (mfor_each step ys s).
  - destruct (step s x) as [t [s'|e]]; cbn [mbind]; [|reflexivity].
    rewrite IH. destruct (mfor_each step xs s') as [t1 [s1|e1]]; cbn [mbind].
    + destruct (mfor_each step ys s1). now rewrite List.app_assoc.
    + reflexivity.
Qed.

(** What one iteration does with a document that holds the sample [s]:
    the two checks, then the new state. *)
Lemma process_sample_read (st : loop_state) (root : Element) (s : SourceSample) :
  read_source_sample (source_code s) root = Some s ->
  process_sample st (source_code s) root
  = (t <- check_common "Taxon ID" (source_code s) (common_taxon_id st)
                       (Some (source_taxon_id s)) ;;
     n <- check_common "Scientific name" (source_code s) (common_scientific_name st)
                       (Some (source_scientific_name s)) ;;
     Ok {| all_attributes := (all_attributes st ++ [source_attributes s])%list;
           sample_aliases := (sample_aliases st ++ [source_alias s])%list;
           common_taxon_id := t;
           common_scientific_name := n;
           checklist_set := checklist_set (state_after st s) |}).
Proof.
  unfold read_source_sample, process_sample.
  destruct (find root "SAMPLE") as [sample|]; [|discriminate].
  cbn [attrib_of find_in].
  destruct (dict_get string_dec (attrib sample) "alias") as [alias|]; [|discriminate].
  destruct (find sample "SAMPLE_NAME") as [sample_name|]; [|discriminate].
  cbn [rbind find_in].
  destruct (find sample_name "TAXON_ID") as [taxon_elem|]; [|discriminate].
  destruct (find sample_name "SCIENTIFIC_NAME") as [name_elem|]; [|discriminate].
  cbn [rbind text_of].
  destruct (text taxon_elem) as [taxon_id|]; [|discriminate].
  destruct (text name_elem) as [scientific_name|]; [|discriminate].
  destruct (parse_sample_attributes sample) as [attrs|]; [|discriminate].
  intros E. injection E as <-. cbn [source_code source_alias source_taxon_id
    source_scientific_name source_attributes state_after checklist_set].
  destruct (check_common "Taxon ID" _ _ _); [|reflexivity].
  destruct (check_common "Scientific name" _ _ _); reflexivity.
Qed.

Lemma process_first_sample (root : Element) (s : SourceSample) :
  read_source_sample (source_code s) root = Some s ->
  process_sample initial_state (source_code s) root = Ok (state_after initial_state s).
Proof. intros R. now rewrite (process_sample_read initial_state root s R). Qed.

Lemma process_agreeing_sample (st : loop_state) (root : Element) (first s : SourceSample) :
  common_taxon_id st = Some (source_taxon_id first) ->
  common_scientific_name st = Some (source_scientific_name first) ->
  read_source_sample (source_code s) root = Some s ->
  same_taxonomy first s ->
  process_sample st (source_code s) root = Ok (state_after st s).
Proof.
  intros T N R [ET EN]. rewrite (process_sample_read st root s R), T, N.
  unfold check_common, state_after. rewrite ET, EN.
  destruct (pytext_eq_dec _ _) as [_|X]; [|congruence].
  destruct (pytext_eq_dec _ _) as [_|X]; [|congruence].
  reflexivity.
Qed.

Lemma process_offending_sample (st : loop_state) (root : Element) (first s : SourceSample) :
  common_taxon_id st = Some (source_taxon_id first) ->
  common_scientific_name st = Some (source_scientific_name first) ->
  read_source_sample (source_code s) root = Some s ->
  ~ same_taxonomy first s ->
  process_sample st (source_code s) root = Raise (ValueError (mismatch_message first s)).
Proof.
  intros T N R D. rewrite (process_sample_read st root s R), T, N.
  unfold check_common, mismatch_message. cbn [fmt].
  destruct (string_dec (source_taxon_id s) (source_taxon_id first)) as [ET|NT].
  - rewrite ET. destruct (pytext_eq_dec _ _) as [_|X]; [|congruence]. cbn [rbind].
    destruct (pytext_eq_dec _ _) as [EN|_]; [|reflexivity].
    exfalso. apply D. split; congruence.
  - destruct (pytext_eq_dec _ _) as [E|_]; [congruence|reflexivity].
Qed.

(** The download of a served sample. *)
Lemma loop_body_served (w : World) (output_dir : string) (st : loop_state)
      (s : SourceSample) :
  served w s ->
  exists response root,
    read_source_sample (source_code s) root = Some s /\
    loop_body w output_dir st (source_code s)
    = ([HttpGet (sample_url (source_code s));
        WriteFile (path_join output_dir (source_code s ++ ".xml"))
                  (ResponseText response)],
       process_sample st (source_code s) root).
Proof.
  intros (response & root & G & S & C & R). exists response, root.
  split; [exact R|]. unfold loop_body, download_sample_xml.
  rewrite G, S, C. cbn.
  now destruct (process_sample st (source_code s) root).
Qed.

Lemma state_after_taxonomy (st : loop_state) (first s : SourceSample) :
  same_taxonomy first s ->
  common_taxon_id (state_after st s) = Some (source_taxon_id first) /\
  common_scientific_name (state_after st s) = Some (source_scientific_name first).
Proof. intros [ET EN]. cbn. rewrite ET, EN. split; reflexivity. Qed.

(** Samples that agree with the first one pass: only lookups happen and
    the common values stay those of the first sample. *)
Lemma loop_agreeing (w : World) (output_dir : string) (first : SourceSample)
      (samples : list SourceSample) :
  Forall (served w) samples -> Forall (same_taxonomy first) samples ->
  forall st,
    common_taxon_id st = Some (source_taxon_id first) ->
    common_scientific_name st = Some (source_scientific_name first) ->
    exists trace st',
      mfor_each (loop_body w output_dir) (map source_code samples) st = (trace, Ok st') /\
      forallb is_fetch_event trace = true /\
      common_taxon_id st' = Some (source_taxon_id first) /\
      common_scientific_name st' = Some (source_scientific_name first) /\
      checklist_set st' = fold_left observe samples (checklist_set st).
Proof.
  induction samples as [|s samples IH]; intros Sv Ag st T N.
  - exists [], st. cbn. auto.
  - inversion Sv as [|? ? Ss Sv']; inversion Ag as [|? ? As Ag']; subst.
    destruct (loop_body_served w output_dir st s Ss) as (response & root & R & L).
    destruct (state_after_taxonomy st first s As) as [T' N'].
    destruct (IH Sv' Ag' (state_after st s) T' N')
      as (trace & st' & E & F & T'' & N'' & O).
    cbn [map mfor_each]. rewrite L.
    rewrite (process_agreeing_sample st root first s T N R As).
    cbn [mbind]. rewrite E. eexists. exists st'. split; [reflexivity|].
    cbn. auto.
Qed.

Lemma fetch_only_trace (trace : list event) :
  forallb is_fetch_event trace = true ->
  filter is_composed_document trace = [] /\
  filter is_transport trace = [] /\
  composed_samples trace = [].
Proof.
  induction trace as [|e trace IH]; [auto|]. cbn [forallb].
  intros H. apply andb_prop in H. destruct H as [E H].
  destruct (IH H) as (D & T & C). unfold composed_samples in *. cbn [filter flat_map].
  rewrite D, T, C. destruct e as [| |path [doc|r|s]|]; try discriminate E; auto.
Qed.

(** The first sample sets the common values; the samples that agree with
    it pass; the first one that does not stops the loop. *)
Lemma loop_offending (w : World) (output_dir : string) (first : SourceSample)
      (before : list SourceSample) (offender : SourceSample) (later : list string) :
  served w first -> Forall (served w) before -> served w offender ->
  Forall (same_taxonomy first) before -> ~ same_taxonomy first offender ->
  exists trace,
    mfor_each (loop_body w output_dir)
              (map source_code (first :: before ++ [offender]) ++ later)%list
              initial_state
    = (trace, Raise (ValueError (mismatch_message first offender))) /\
    forallb is_fetch_event trace = true.
Proof.
  intros Sf Sb So Ab No.
  destruct (loop_body_served w output_dir initial_state first Sf)
    as (response & root & R & L).
  rewrite (process_first_sample root first R) in L.
  destruct (loop_agreeing w output_dir first before Sb Ab (state_after initial_state first)
                          eq_refl eq_refl) as (trace & st & E & F & T & N & _).
  destruct (loop_body_served w output_dir st offender So) as (response' & root' & R' & L').
  rewrite (process_offending_sample st root' first offender T N R' No) in L'.
  cbn [map app mfor_each]. rewrite L. cbn [mbind].
  rewrite map_app, <- List.app_assoc, mfor_each_app, E. cbn [map app mfor_each mbind].
  rewrite L'. cbn [mbind]. eexists. split; [reflexivity|].
  cbn [forallb is_fetch_event andb]. rewrite forallb_app, F. reflexivity.
Qed.

Lemma loop_all_agree (w : World) (output_dir : string) (first : SourceSample)
      (rest : list SourceSample) :
  served w first -> Forall (served w) rest -> Forall (same_taxonomy first) rest ->
  exists trace st,
    mfor_each (loop_body w output_dir) (map source_code (first :: rest)) initial_state
    = (trace, Ok st) /\
    forallb is_fetch_event trace = true /\
    common_taxon_id st = Some (source_taxon_id first) /\
    common_scientific_name st = Some (source_scientific_name first) /\
    checklist_set st = observed_checklists (first :: rest).
Proof.
  intros Sf Sr Ar.
  destruct (loop_body_served w output_dir initial_state first Sf)
    as (response & root & R & L).
  rewrite (process_first_sample root first R) in L.
  destruct (loop_agreeing w output_dir first rest Sr Ar (state_after initial_state first)
                          eq_refl eq_refl) as (trace & st & E & F & T & N & O).
  cbn [map mfor_each]. rewrite L. cbn [mbind]. rewrite E.
  eexists. exists st. split; [reflexivity|]. cbn. auto.
Qed.

Lemma main_submission (w : World) (sample_codes : list string) (output_dir : string)
      (submit : bool) (checklist alias center : pytext) (force : bool)
      (account password : string) :
  credentials w = Some (account, password) -> path_exists w output_dir = false ->
  output_dir <> "" ->
  main w sample_codes output_dir submit false checklist alias center force
  = mbind (emit (MakeDirs output_dir))
          (fun _ => submission_run w account password sample_codes output_dir submit
                                   checklist alias center force).
Proof.
  intros C P N. unfold main, read_credentials, makedirs.
  rewrite C, P, (proj2 (String.eqb_neq output_dir "") N). cbn [negb andb mbind mret].
  destruct (mbind (emit (MakeDirs output_dir)) _) as [t r]. reflexivity.
Qed.

Lemma mandatory_fields_and_units_trace (w : World) (accession : string) :
  fst (mandatory_fields_and_units w accession) = [HttpGet (checklist_url accession)].
Proof.
  unfold mandatory_fields_and_units.
  destruct (http_get w (checklist_url accession)) as [response|]; [|reflexivity].
  destruct (_ && _)%bool; [reflexivity|].
  destruct (content response) as [root|]; [|reflexivity].
  cbn. destruct (read_checklist root); reflexivity.
Qed.

(** What a submission run composes carries the common values of the loop
    state. *)
Lemma submission_run_composed (w : World) (account password : string)
      (sample_codes : list string) (output_dir : string) (submit : bool)
      (checklist alias center : pytext) (force : bool)
      (trace : list event) (st : loop_state) :
  mfor_each (loop_body w output_dir) sample_codes initial_state = (trace, Ok st) ->
  forallb is_fetch_event trace = true ->
  Forall (fun sample =>
            taxonomy_of sample = (common_taxon_id st, common_scientific_name st))
         (composed_samples
            (fst (submission_run w account password sample_codes output_dir submit
                                 checklist alias center force))).
Proof.
  intros L F. unfold submission_run. rewrite L. cbn [mbind].
  destruct (fetch_only_trace trace F) as (_ & _ & C).
  match goal with
  | |- context [let (t2, r) := ?k in _] => destruct k as [t2 r] eqn:K
  end.
  cbn [fst]. unfold composed_samples in *. rewrite flat_map_app, C. cbn [app].
  revert K. destruct (check_checklists (checklist_set st) checklist) as [[]|e];
    cbn [lift mbind].
  2: { intros K. injection K as <- <-. constructor. }
  destruct (select_checklist checklist (checklist_set st)) as [final_checklist warnings].
  pose proof (mandatory_fields_and_units_trace w final_checklist) as MT.
  destruct (mandatory_fields_and_units w final_checklist) as [tm [spec|e]];
    cbn [fst] in MT; subst tm; cbn [mbind app].
  2: { intros K. injection K as <- <-. cbn. constructor. }
  unfold submit_to_ebi.
  destruct (run_curl w _) as [stdout|]; cbn; intros K; injection K as <- <-; cbn;
    repeat constructor.
Qed.

(** A submission run whose loop and checks pass and whose checklist is
    resolved composes exactly one virtual sample and ends normally. *)
Lemma submission_run_completes (w : World) (account password : string)
      (sample_codes : list string) (output_dir : string) (submit : bool)
      (checklist alias center : pytext) (force : bool)
      (trace : list event) (st : loop_state) (spec : ChecklistSpec) :
  mfor_each (loop_body w output_dir) sample_codes initial_state = (trace, Ok st) ->
  forallb is_fetch_event trace = true ->
  check_checklists (checklist_set st) checklist = Ok tt ->
  snd (mandatory_fields_and_units
         w (fst (select_checklist checklist (checklist_set st)))) = Ok spec ->
  let run := submission_run w account password sample_codes output_dir submit
                            checklist alias center force in
  snd run = Ok tt /\
  exists sample,
    composed_samples (fst run) = [sample] /\
    taxonomy_of sample = (common_taxon_id st, common_scientific_name st).
Proof.
  intros L F K R run. subst run. unfold submission_run. rewrite L.
  cbn [mbind]. rewrite K. cbn [mbind lift app].
  destruct (fetch_only_trace trace F) as (_ & _ & C).
  destruct (select_checklist checklist (checklist_set st)) as [final_checklist warnings].
  cbn [fst] in R.
  pose proof (mandatory_fields_and_units_trace w final_checklist) as MT.
  destruct (mandatory_fields_and_units w final_checklist) as [tm r].
  cbn [fst snd] in MT, R. subst tm r. cbn [mbind app].
  unfold submit_to_ebi.
  destruct (run_curl w _) as [stdout|]; cbn [emit mbind mret app fst snd];
    (split; [reflexivity|]); eexists;
    unfold composed_samples in *; rewrite flat_map_app, C;
    (split; [reflexivity|reflexivity]).
Qed.


Lemma served_ERS1 : served archive_world sample_ERS1.
Proof. eexists. eexists. repeat split; reflexivity. Qed.

Lemma served_ERS2 : served archive_world sample_ERS2.
Proof. eexists. eexists. repeat split; reflexivity. Qed.

Lemma served_ERS3 : served archive_world sample_ERS3.
Proof. eexists. eexists. repeat split; reflexivity. Qed.

Lemma mouse_is_not_human : ~ same_taxonomy sample_ERS1 sample_ERS3.
Proof. intros [H _]. discriminate H. Qed.


(** ** An empty taxonomy element escapes the check *)

(** One iteration on a document whose SCIENTIFIC_NAME element is empty:
    the value compared and kept is [None]. *)
Lemma process_unnamed_sample (st : loop_state) (sample_code : string) (root : Element)
      (alias taxon_id : string) (attrs : attributes) :
  holds_unnamed root alias taxon_id attrs ->
  process_sample st sample_code root
  = (t <- check_common "Taxon ID" sample_code (common_taxon_id st) (Some taxon_id) ;;
     n <- check_common "Scientific name" sample_code (common_scientific_name st) None ;;
     Ok {| all_attributes := (all_attributes st ++ [attrs])%list;
           sample_aliases := (sample_aliases st ++ [alias])%list;
           common_taxon_id := t;
           common_scientific_name := n;
           checklist_set :=
             match match attr_get attrs (Some ENA_CHECKLIST) with
                   | Some (value, _) => value
                   | None => None
                   end with
             | Some (String _ _ as c) => set_add c (checklist_set st)
             | _ => checklist_set st
             end |}).
Proof.
  intros (sample & sample_name & taxon_elem & name_elem
          & Fs & Fa & Fn & Ft & Tt & Fc & Tc & Pa).
  unfold process_sample. rewrite Fs. cbn [attrib_of find_in]. rewrite Fa, Fn.
  cbn [rbind find_in]. rewrite Ft, Fc. cbn [rbind text_of]. rewrite Tt, Tc, Pa.
  destruct (check_common "Taxon ID" _ _ _); [|reflexivity].
  destruct (check_common "Scientific name" _ _ _); reflexivity.
Qed.

Lemma loop_body_unnamed (w : World) (output_dir : string) (st : loop_state)
      (sample_code alias taxon_id : string) (attrs : attributes) :
  served_unnamed w sample_code alias taxon_id attrs ->
  exists response root,
    holds_unnamed root alias taxon_id attrs /\
    loop_body w output_dir st sample_code
    = ([HttpGet (sample_url sample_code);
        WriteFile (path_join output_dir (sample_code ++ ".xml")) (ResponseText response)],
       process_sample st sample_code root).
Proof.
  intros (response & root & G & S & C & H). exists response, root.
  split; [exact H|]. unfold loop_body, download_sample_xml.
  rewrite G, S, C. cbn.
  now destruct (process_sample st sample_code root).
Qed.

(** The loop over an unnamed sample followed by a named one of the same
    taxon identifier passes, and keeps the name of the second. *)
Lemma loop_unnamed_first (w : World) (output_dir : string)
      (sample_code alias : string) (attrs : attributes) (s : SourceSample) :
  served_unnamed w sample_code alias (source_taxon_id s) attrs ->
  served w s ->
  exists trace st,
    mfor_each (loop_body w output_dir) [sample_code; source_code s] initial_state
    = (trace, Ok st) /\
    forallb is_fetch_event trace = true /\
    common_taxon_id st = Some (source_taxon_id s) /\
    common_scientific_name st = Some (source_scientific_name s) /\
    checklist_set st = observe (observed_in attrs) s.
Proof.
  intros Su Ss.
  destruct (loop_body_unnamed w output_dir initial_state _ _ _ _ Su)
    as (response & root & H & L).
  rewrite (process_unnamed_sample initial_state _ root _ _ _ H) in L.
  cbn [initial_state common_taxon_id common_scientific_name check_common rbind
       all_attributes sample_aliases checklist_set app] in L.
  cbn [mfor_each]. rewrite L. cbn [mbind].
  match goal with
  | |- context [loop_body w output_dir ?st1 (source_code s)] =>
      destruct (loop_body_served w output_dir st1 s Ss) as (response' & root' & R & L');
      rewrite (process_sample_read st1 root' s R) in L'
  end.
  cbn [common_taxon_id common_scientific_name check_common rbind] in L'.
  destruct (pytext_eq_dec (Some (source_taxon_id s)) (Some (source_taxon_id s)))
    as [_|X]; [|congruence].
  cbn [rbind] in L'. rewrite L'. cbn [mbind mret app].
  eexists. eexists. split; [reflexivity|].
  cbn [forallb is_fetch_event andb common_taxon_id common_scientific_name
       checklist_set state_after].
  repeat split; reflexivity.
Qed.


Lemma served_unnamed_ERS4 :
  served_unnamed unnamed_world "ERS4" "mouse-2" "10090" [(Some "sex", (Some "female", None))].
Proof.
  eexists. eexists. repeat split; try reflexivity.
  do 4 eexists. repeat split; reflexivity.
Qed.

Lemma served_mouse : served unnamed_world sample_ERS3.
Proof. eexists. eexists. repeat split; reflexivity. Qed.


(** ** The checklist policy in a run *)


(** The run over two human samples registered under ERC000011 and
    ERC000053, without an override. *)
Lemma inconsistent_checklists_run :
  main archive_world ["ERS1"; "ERS2"] "out" false false None None None false
  = ([MakeDirs "out";
      HttpGet (sample_url "ERS1");
      WriteFile "out/ERS1.xml"
                (ResponseText {| status_code := 200; content := Some doc_ERS1 |});
      HttpGet (sample_url "ERS2");
      WriteFile "out/ERS2.xml"
                (ResponseText {| status_code := 200; content := Some doc_ERS2 |})],
     Raise (ValueError
              "Inconsistent checklists found in input samples and no checklist provided.")).
Proof. reflexivity. Qed.


(* ================================================================== *)
(** * Further properties of the script *)

(** ** Dictionaries built by a loop of assignments *)

Section DictLoop.
Variables K V X : Type.
Variable K_eq_dec : forall a b : K, {a = b} + {a <> b}.
Variable key : X -> K.
Variable val : X -> V.

(** After [for x in xs: d[key(x)] = val(x)], the value of a key is the one
    of the last [x] with that key, or what the dictionary held before. *)
Lemma dict_loop_get (xs : list X) (d : dict K V) (k : K) :
  dict_get K_eq_dec (fold_left (fun d x => dict_set K_eq_dec d (key x) (val x)) xs d) k
  = match List.find (fun x => if K_eq_dec (key x) k then true else false) (rev xs) with
    | Some x => Some (val x)
    | None => dict_get K_eq_dec d k
    end.
Proof.
  revert d. induction xs as [|x xs IH] using rev_ind; intros d; [reflexivity|].
  rewrite fold_left_app, rev_app_distr. cbn [fold_left rev app List.find].
  destruct (K_eq_dec (key x) k) as [E|N].
  - subst k. apply dict_get_set_same.
  - rewrite dict_get_set_other by congruence. apply IH.
Qed.

Lemma dict_loop_wf (xs : list X) (d : dict K V) :
  dict_wf d ->
  dict_wf (fold_left (fun d x => dict_set K_eq_dec d (key x) (val x)) xs d).
Proof.
  revert d. induction xs as [|x xs IH]; intros d W; [exact W|].
  cbn [fold_left]. apply IH. now apply dict_set_wf.
Qed.

End DictLoop.

(** ** Parsing the attributes of a sample *)

Lemma parse_attribute_readable (acc : attributes) (attr : Element) :
  readable_attribute attr ->
  parse_attribute acc attr
  = Ok (attr_set acc (child_text attr "TAG")
                 (child_text attr "VALUE", child_text attr "UNITS")).
Proof.
  intros [T Vl]. unfold parse_attribute, child_text.
  destruct (find attr "TAG"); [|congruence].
  destruct (find attr "VALUE"); [|congruence].
  reflexivity.
Qed.

Lemma parse_attribute_broken (acc : attributes) (attr : Element) :
  find attr "TAG" = None \/ find attr "VALUE" = None ->
  parse_attribute acc attr = Raise AttributeError.
Proof.
  unfold parse_attribute. intros [T|Vl].
  - now rewrite T.
  - rewrite Vl. now destruct (find attr "TAG").
Qed.

Lemma parse_attributes_readable (attrs : list Element) (acc : attributes) :
  Forall readable_attribute attrs ->
  for_each parse_attribute attrs acc
  = Ok (fold_left (fun d t => attr_set d (fst (fst t)) (snd (fst t), snd t))
                  (map attribute_triple attrs) acc).
Proof.
  intros F. revert acc. induction F as [|attr attrs R _ IH]; intros acc; [reflexivity|].
  cbn [for_each map fold_left]. rewrite (parse_attribute_readable acc attr R).
  cbn [rbind]. apply IH.
Qed.

Lemma parse_attributes_broken (attrs : list Element) (acc : attributes) :
  Exists (fun attr => find attr "TAG" = None \/ find attr "VALUE" = None) attrs ->
  for_each parse_attribute attrs acc = Raise AttributeError.
Proof.
  intros E. revert acc. induction E as [attr attrs B|attr attrs _ IH]; intros acc.
  - cbn [for_each]. now rewrite (parse_attribute_broken acc attr B).
  - cbn [for_each].
    destruct (parse_attribute acc attr) as [acc'|e] eqn:P; cbn [rbind]; [apply IH|].
    unfold parse_attribute in P.
    destruct (find attr "TAG"); [|cbn in P; congruence].
    destruct (find attr "VALUE"); cbn in P; congruence.
Qed.

(** What [parse_sample_attributes] returns on readable attributes. *)
Lemma parse_sample_attributes_ok (sample sa : Element) :
  find sample "SAMPLE_ATTRIBUTES" = Some sa ->
  Forall readable_attribute (children sa) ->
  exists d,
    parse_sample_attributes sample = Ok d /\
    dict_wf d /\
    forall tag, attr_get d tag = last_tagged tag (attribute_triples sa).
Proof.
  intros F R. unfold parse_sample_attributes. rewrite F.
  rewrite (parse_attributes_readable (children sa) [] R).
  eexists. split; [reflexivity|]. split.
  - apply (dict_loop_wf _ _ _ pytext_eq_dec
             (fun t : pytext * pytext * pytext => fst (fst t))
             (fun t => (snd (fst t), snd t))). constructor.
  - intros tag. unfold attr_get, last_tagged, attribute_triples.
    rewrite (dict_loop_get _ _ _ pytext_eq_dec
               (fun t : pytext * pytext * pytext => fst (fst t))
               (fun t => (snd (fst t), snd t))).
    unfold has_tag, pytext_eqb.
    destruct (List.find _ _) as [[[t v] u]|]; reflexivity.
Qed.

(** X1.  On a SAMPLE whose attribute elements all have a TAG and a VALUE,
    [parse_sample_attributes] returns a dictionary: no tag occurs twice,
    and a tag maps to the value and units of the last attribute element
    that carries it (a later element overwrites an earlier one); a tag no
    element carries is absent. *)
Theorem parse_sample_attributes_last_wins (sample sa : Element) :
  find sample "SAMPLE_ATTRIBUTES" = Some sa ->
  Forall readable_attribute (children sa) ->
  exists d,
    parse_sample_attributes sample = Ok d /\
    dict_wf d /\
    (forall tag, attr_get d tag = last_tagged tag (attribute_triples sa)) /\
    (forall tag, attr_mem d tag = true
                 <-> In tag (map (fun t => fst (fst t)) (attribute_triples sa))).
Proof.
  intros F R. destruct (parse_sample_attributes_ok sample sa F R) as (d & P & W & G).
  exists d. split; [exact P|]. split; [exact W|]. split; [exact G|].
  intros t. unfold attr_mem, dict_mem. fold (attr_get d t). rewrite G.
  unfold last_tagged. split.
  - destruct (List.find (has_tag t) (rev (attribute_triples sa))) as [[[t' v] u]|] eqn:E;
      [intros _|discriminate].
    apply find_some in E. destruct E as [I H]. apply in_rev in I.
    unfold has_tag in H. apply pytext_eqb_eq in H. cbn [fst] in H. subst.
    apply in_map with (f := fun x => fst (fst x)) in I. exact I.
  - intros I. apply in_map_iff in I. destruct I as (x & E & I).
    destruct (List.find (has_tag t) (rev (attribute_triples sa))) as [[[t' v] u]|] eqn:Fd;
      [reflexivity|].
    exfalso. apply in_rev in I.
    pose proof (find_none _ _ Fd x I) as H.
    unfold has_tag in H. rewrite (proj2 (pytext_eqb_eq _ _) E) in H. discriminate.
Qed.

Lemma parse_sample_attributes_last_wins_witness :
  exists d,
    parse_sample_attributes sample_with_repeated_tag = Ok d /\
    attr_get d (Some "depth") = Some (Some "12", Some "m") /\
    dict_keys d = [Some "depth"; Some "sex"].
Proof.
  destruct (parse_sample_attributes_last_wins
              sample_with_repeated_tag
              (mkElement "SAMPLE_ATTRIBUTES" [] None
                 [attribute_doc "depth" "10"; attribute_doc "sex" "female";
                  mkElement "SAMPLE_ATTRIBUTE" [] None
                    [leaf "TAG" (Some "depth"); leaf "VALUE" (Some "12");
                     leaf "UNITS" (Some "m")]])
              eq_refl
              ltac:(repeat constructor; discriminate))
    as (d & P & _ & G & _).
  exists d. split; [exact P|]. split; [exact (G (Some "depth"))|].
  injection P as <-. reflexivity.
Defined.

(** X2.  [parse_sample_attributes] fails as a whole on a sample it cannot
    read: with a TypeError when the SAMPLE has no SAMPLE_ATTRIBUTES child,
    with an AttributeError as soon as one attribute element lacks its TAG
    or its VALUE, whatever the other attributes are. *)
Theorem parse_sample_attributes_errors (sample : Element) :
  (find sample "SAMPLE_ATTRIBUTES" = None ->
   parse_sample_attributes sample = Raise TypeError) /\
  (forall sa,
     find sample "SAMPLE_ATTRIBUTES" = Some sa ->
     Exists (fun attr => find attr "TAG" = None \/ find attr "VALUE" = None)
            (children sa) ->
     parse_sample_attributes sample = Raise AttributeError).
Proof.
  unfold parse_sample_attributes. split.
  - now intros ->.
  - intros sa -> E. now apply parse_attributes_broken.
Qed.

Lemma parse_sample_attributes_errors_witness :
  parse_sample_attributes (leaf "SAMPLE" None) = Raise TypeError /\
  parse_sample_attributes sample_with_broken_attribute = Raise AttributeError.
Proof.
  split.
  - exact (proj1 (parse_sample_attributes_errors (leaf "SAMPLE" None)) eq_refl).
  - apply (proj2 (parse_sample_attributes_errors sample_with_broken_attribute)
                 (mkElement "SAMPLE_ATTRIBUTES" [] None
                    [attribute_doc "sex" "female";
                     mkElement "SAMPLE_ATTRIBUTE" [] None [leaf "TAG" (Some "depth")]])
                 eq_refl).
    apply Exists_cons_tl. apply Exists_cons_hd. right. reflexivity.
Defined.

(** ** Reading a composed record back with the parser *)

Lemma find_hd_filter {A} (p : A -> bool) (l : list A) :
  List.find p l = hd_error (filter p l).
Proof.
  induction l as [|x l IH]; [reflexivity|]. cbn. now destruct (p x).
Qed.

Lemma filter_rev_comm {A} (p : A -> bool) (l : list A) :
  filter p (rev l) = rev (filter p l).
Proof.
  induction l as [|x l IH]; [reflexivity|]. cbn [rev filter].
  rewrite filter_app, IH. cbn [filter]. destruct (p x); [reflexivity|].
  now rewrite List.app_nil_r.
Qed.

(** The last triple with a tag is the last of the triples with that tag. *)
Lemma last_tagged_filter (t : pytext) (triples : list (pytext * pytext * pytext)) :
  last_tagged t triples
  = match hd_error (rev (filter (has_tag t) triples)) with
    | Some (_, value, units) => Some (value, units)
    | None => None
    end.
Proof. unfold last_tagged. now rewrite find_hd_filter, filter_rev_comm. Qed.

Lemma hd_rev_app {A} (l1 l2 : list A) :
  l2 <> [] -> hd_error (rev (l1 ++ l2)) = hd_error (rev l2).
Proof.
  intros N. rewrite rev_app_distr.
  destruct (rev l2) as [|y r] eqn:E; [|reflexivity].
  apply (f_equal (@rev A)) in E. rewrite rev_involutive in E. contradiction.
Qed.

Lemma hd_rev_In {A} (l : list A) :
  l <> [] -> exists y, hd_error (rev l) = Some y /\ In y l.
Proof.
  intros N. destruct (rev l) as [|y r] eqn:E.
  - apply (f_equal (@rev A)) in E. rewrite rev_involutive in E. contradiction.
  - exists y. split; [reflexivity|]. apply in_rev. rewrite E. now left.
Qed.

Lemma common_attribute_elements_readable (items : attributes) :
  Forall readable_attribute (common_attribute_elements items).
Proof.
  induction items as [|[t [v u]] items IH]; [constructor|].
  cbn [common_attribute_elements].
  destruct (pytext_eq_dec t (Some ENA_CHECKLIST)); [exact IH|].
  constructor; [|exact IH]. split; discriminate.
Qed.

Lemma mandatory_attribute_elements_readable (common : attributes) (fields : list pytext) :
  Forall readable_attribute (mandatory_attribute_elements common fields).
Proof.
  induction fields as [|f fields IH]; [constructor|].
  cbn [mandatory_attribute_elements].
  destruct (attr_mem common f); [exact IH|].
  constructor; [|exact IH]. split; discriminate.
Qed.

(** The triples with the tag [t] among those of a composed record. *)
Lemma tagged_attributes_composed
      (common : attributes) (sample_codes : list string)
      (taxon_id scientific_name : pytext) (alias : string)
      (center checklist : pytext) (mandatory : list pytext) (t : pytext) :
  filter (has_tag t)
         (emitted_attributes
            (create_virtual_sample common sample_codes taxon_id scientific_name
                                   alias center checklist mandatory))
  = ((if (truthy checklist && is_reserved t)%bool
      then [(Some ENA_CHECKLIST, checklist, None)] else [])
       ++ map ordinary_triple
            (filter (fun item => pytext_eqb (fst item) t)
                    (filter (fun item => negb (is_reserved (fst item))) common))
       ++ map placeholder_triple
            (filter (fun f => pytext_eqb f t)
                    (filter (fun f => negb (attr_mem common f)) mandatory)))%list.
Proof.
  rewrite emitted_attributes_composed, !filter_app.
  rewrite (filter_map_comm (has_tag t) ordinary_triple),
    (filter_map_comm (has_tag t) placeholder_triple).
  f_equal. unfold is_reserved.
  destruct (truthy checklist); [|reflexivity]. cbn [filter andb]. unfold has_tag.
  cbn [fst].
  destruct (pytext_eqb (Some ENA_CHECKLIST) t) eqn:E.
  - apply pytext_eqb_eq in E. subst t. now rewrite (proj2 (pytext_eqb_eq _ _) eq_refl).
  - destruct (pytext_eqb t (Some ENA_CHECKLIST)) eqn:E'; [|reflexivity].
    apply pytext_eqb_eq in E'. subst t.
    rewrite (proj2 (pytext_eqb_eq _ _) eq_refl) in E. discriminate.
Qed.

Lemma absent_key_filter (common : attributes) (t : pytext) :
  attr_mem common t = false ->
  filter (fun item : pytext * (pytext * pytext) => pytext_eqb (fst item) t) common = [].
Proof.
  intros M. apply filter_none. intros [k v] I. cbn [fst].
  destruct (pytext_eqb k t) eqn:E; [|reflexivity].
  apply pytext_eqb_eq in E. subst k. exfalso.
  apply in_map with (f := fst) in I. cbn [fst] in I.
  pose proof (proj2 (dict_mem_keys _ _ pytext_eq_dec common t) I) as H.
  unfold attr_mem in M. congruence.
Qed.

Lemma composed_record_readable
      (common : attributes) (sample_codes : list string)
      (taxon_id scientific_name : pytext) (alias : string)
      (center checklist : pytext) (mandatory : list pytext) :
  let record := create_virtual_sample common sample_codes taxon_id scientific_name
                                      alias center checklist mandatory in
  exists d,
    parse_sample_attributes record = Ok d /\
    dict_wf d /\
    forall t, attr_get d t = last_tagged t (emitted_attributes record).
Proof.
  intros record.
  set (sa := mkElement "SAMPLE_ATTRIBUTES" [] None
               ((if truthy checklist then
                   [mkElement "SAMPLE_ATTRIBUTE" [] None
                      [leaf "TAG" (Some ENA_CHECKLIST); leaf "VALUE" checklist]]
                 else [])
                  ++ common_attribute_elements common
                  ++ mandatory_attribute_elements common mandatory)%list).
  assert (find record "SAMPLE_ATTRIBUTES" = Some sa) as F by reflexivity.
  assert (Forall readable_attribute (children sa)) as R.
  { cbn [children sa]. apply Forall_app. split.
    - destruct (truthy checklist); repeat constructor; discriminate.
    - apply Forall_app. split;
        [apply common_attribute_elements_readable
        |apply mandatory_attribute_elements_readable]. }
  destruct (parse_sample_attributes_ok record sa F R) as (d & P & W & G).
  exists d. split; [exact P|]. split; [exact W|]. intros t. rewrite G.
  unfold emitted_attributes. rewrite F. reflexivity.
Qed.

(** X3.  A composed record can be read back by the script's own parser:
    [parse_sample_attributes] succeeds on it, and in the result
    - every reconciled attribute other than the reserved tag has its
      reconciled value and its unit (an empty unit being left out);
    - every mandatory field that was not a reconciled tag has the
      sentinel value and no unit;
    - the reserved tag has the checklist identifier, provided a checklist
      is set and the reserved tag is not itself a mandatory field missing
      from the reconciled attributes. *)
Theorem composed_record_parses_back
        (common : attributes) (sample_codes : list string)
        (taxon_id scientific_name : pytext) (alias : string)
        (center checklist : pytext) (mandatory : list pytext) :
  dict_wf common ->
  exists d,
    parse_sample_attributes
      (create_virtual_sample common sample_codes taxon_id scientific_name
                             alias center checklist mandatory) = Ok d /\
    (forall t value units,
       attr_get common t = Some (value, units) -> t <> Some ENA_CHECKLIST ->
       attr_get d t = Some (value, kept_units units)) /\
    (forall m,
       In m mandatory -> attr_mem common m = false ->
       attr_get d m = Some (Some SENTINEL, None)) /\
    (truthy checklist = true ->
     attr_mem common (Some ENA_CHECKLIST) = true \/ ~ In (Some ENA_CHECKLIST) mandatory ->
     attr_get d (Some ENA_CHECKLIST) = Some (checklist, None)).
Proof.
  intros W.
  destruct (composed_record_readable common sample_codes taxon_id scientific_name
                                     alias center checklist mandatory)
    as (d & P & _ & G).
  exists d. split; [exact P|].
  assert (forall t, attr_mem common t = true ->
                    filter (fun f => pytext_eqb f t)
                           (filter (fun f => negb (attr_mem common f)) mandatory) = [])
    as NoPlaceholder.
  { intros t M. apply filter_none. intros f F. apply filter_In in F.
    destruct F as [_ F]. destruct (pytext_eqb f t) eqn:E; [|reflexivity].
    apply pytext_eqb_eq in E. subst f. rewrite M in F. discriminate. }
  split; [|split].
  - intros t value units Gt N. rewrite G, last_tagged_filter, tagged_attributes_composed.
    assert (attr_mem common t = true) as M.
    { unfold attr_mem, dict_mem. unfold attr_get in Gt. now rewrite Gt. }
    assert (is_reserved t = false) as R.
    { unfold is_reserved. destruct (pytext_eqb t (Some ENA_CHECKLIST)) eqn:E;
        [apply pytext_eqb_eq in E; contradiction|reflexivity]. }
    rewrite R, andb_false_r, (NoPlaceholder t M), filter_key_not_reserved by exact N.
    rewrite (filter_key_wf common t (value, units) W Gt). reflexivity.
  - intros m I M. rewrite G, last_tagged_filter, tagged_attributes_composed.
    rewrite List.app_assoc.
    set (absent := filter (fun f => pytext_eqb f m)
                          (filter (fun f => negb (attr_mem common f)) mandatory)).
    assert (In m absent) as Ia.
    { apply filter_In. split; [|now apply pytext_eqb_eq].
      apply filter_In. split; [exact I|]. now rewrite M. }
    assert (map placeholder_triple absent <> []) as NE.
    { destruct absent; [destruct Ia|discriminate]. }
    rewrite (hd_rev_app _ _ NE).
    destruct (hd_rev_In _ NE) as (y & -> & Iy).
    apply in_map_iff in Iy. destruct Iy as (f & <- & If).
    apply filter_In in If. destruct If as [_ E]. apply pytext_eqb_eq in E. subst f.
    reflexivity.
  - intros T C. rewrite G, last_tagged_filter, tagged_attributes_composed.
    rewrite T. unfold is_reserved at 1.
    rewrite (proj2 (pytext_eqb_eq _ _) eq_refl). cbn [andb].
    rewrite filter_key_reserved.
    assert (filter (fun f => pytext_eqb f (Some ENA_CHECKLIST))
                   (filter (fun f => negb (attr_mem common f)) mandatory) = []) as ->.
    { destruct C as [M|NI]; [now apply NoPlaceholder|].
      apply filter_none. intros f F. apply filter_In in F. destruct F as [F _].
      destruct (pytext_eqb f (Some ENA_CHECKLIST)) eqn:E; [|reflexivity].
      apply pytext_eqb_eq in E. subst f. contradiction. }
    reflexivity.
Qed.

Lemma depth_common_wf : dict_wf depth_common.
Proof.
  unfold dict_wf, depth_common. cbn.
  repeat constructor; cbn; intuition discriminate.
Qed.

Lemma composed_record_parses_back_witness :
  exists d,
    parse_sample_attributes depth_record = Ok d /\
    attr_get d (Some "depth") = Some (Some "10", Some "m") /\
    attr_get d (Some "collection date") = Some (Some SENTINEL, None) /\
    attr_get d (Some ENA_CHECKLIST) = Some (Some "ERC000011", None).
Proof.
  destruct (composed_record_parses_back
              depth_common ["ERS1"; "ERS2"] (Some "9606") (Some "Homo sapiens")
              "vs" None (Some "ERC000011") [Some "depth"; Some "collection date"]
              depth_common_wf) as (d & P & A & B & C).
  exists d. split; [exact P|]. split; [|split].
  - exact (A (Some "depth") (Some "10") (Some "m") eq_refl ltac:(discriminate)).
  - apply B; [cbn; tauto|reflexivity].
  - apply C; [reflexivity|]. left. reflexivity.
Defined.

(** ** The order and the fixed points of the reconciliation *)

Lemma dict_set_fresh {K V : Type} (K_eq_dec : forall a b : K, {a = b} + {a <> b})
      (d : dict K V) (k : K) (v : V) :
  ~ In k (dict_keys d) -> dict_set K_eq_dec d k v = (d ++ [(k, v)])%list.
Proof.
  induction d as [|[k' v'] d IH]; cbn; intros N; [reflexivity|].
  destruct (K_eq_dec k k') as [E|_]; [exfalso; apply N; left; congruence|].
  rewrite IH; [reflexivity|]. intros I. apply N. now right.
Qed.

Lemma dict_get_first {K V : Type} (K_eq_dec : forall a b : K, {a = b} + {a <> b})
      (pre suf : dict K V) (k : K) (v : V) :
  ~ In k (dict_keys pre) ->
  dict_get K_eq_dec (pre ++ (k, v) :: suf)%list k = Some v.
Proof.
  induction pre as [|[k' v'] pre IH]; cbn; intros N.
  - destruct (K_eq_dec k k); congruence.
  - destruct (K_eq_dec k k') as [E|_]; [exfalso; apply N; left; congruence|].
    apply IH. intros I. apply N. now right.
Qed.

Lemma reconcile_step_agreed (all : list attributes) (first common : attributes)
      (k : pytext) :
  reconcile_step all first common k
  = if agreed_by_all all first k
    then match attr_get first k with
         | Some v => attr_set common k v
         | None => common
         end
    else common.
Proof.
  unfold reconcile_step, agreed_by_all.
  destruct (attr_get first k); [|reflexivity]. now destruct (forallb _ all).
Qed.

Lemma reconcile_fold_keys (all : list attributes) (first : attributes)
      (ks : list pytext) (common : attributes) :
  NoDup ks -> (forall k, In k ks -> ~ In k (dict_keys common)) ->
  dict_keys (fold_left (reconcile_step all first) ks common)
  = (dict_keys common ++ filter (agreed_by_all all first) ks)%list.
Proof.
  revert common. induction ks as [|k ks IH]; intros common N D.
  - cbn. now rewrite List.app_nil_r.
  - inversion N as [|? ? NI N']; subst. cbn [fold_left filter].
    rewrite reconcile_step_agreed.
    destruct (agreed_by_all all first k) eqn:A.
    + unfold agreed_by_all in A. destruct (attr_get first k) as [v|]; [|discriminate].
      rewrite IH; [|exact N'|].
      * unfold attr_set. rewrite (dict_set_fresh pytext_eq_dec common k v)
          by (apply D; now left).
        unfold dict_keys. rewrite map_app, <- List.app_assoc. reflexivity.
      * intros k' I. unfold attr_set.
        rewrite (dict_set_fresh pytext_eq_dec common k v) by (apply D; now left).
        unfold dict_keys. rewrite map_app, in_app_iff. cbn.
        intros [H|[E|[]]]; [apply (D k'); [now right|exact H]|].
        subst k'. contradiction.
    + apply IH; [exact N'|]. intros k' I. apply D. now right.
Qed.

(** X4.  The reconciled attribute set lists its tags in the order of the
    first sample: its tags are those of the first sample on which all
    samples agree, in the first sample's order. *)
Theorem reconciled_in_first_sample_order (first : attributes) (rest : list attributes) :
  dict_wf first ->
  dict_keys (find_common_attributes (first :: rest))
  = filter (agreed_by_all (first :: rest) first) (dict_keys first).
Proof.
  intros W. unfold find_common_attributes.
  rewrite reconcile_fold_keys; [reflexivity|exact W|]. intros k _ [].
Qed.

Lemma reconciled_in_first_sample_order_witness :
  dict_keys (find_common_attributes [attrs_full; attrs_no_sex])
  = [Some "depth"; Some "organism part"].
Proof.
  rewrite (reconciled_in_first_sample_order attrs_full [attrs_no_sex]).
  - reflexivity.
  - unfold dict_wf. cbn. repeat constructor; cbn; intuition discriminate.
Defined.

Lemma reconcile_fold_identical (first : attributes) (rest : list attributes)
      (suf pre : attributes) :
  dict_wf first -> Forall (eq first) rest -> first = (pre ++ suf)%list ->
  fold_left (reconcile_step (first :: rest) first) (dict_keys suf) pre = first.
Proof.
  intros W Same. revert pre. induction suf as [|[k v] suf IH]; intros pre E.
  - cbn. now rewrite List.app_nil_r in E.
  - cbn [dict_keys map fold_left fst].
    assert (~ In k (dict_keys pre)) as NI.
    { unfold dict_wf, dict_keys in W. rewrite E, map_app in W. cbn in W.
      apply NoDup_remove_2 in W. intros I. apply W. apply in_app_iff. now left. }
    assert (attr_get first k = Some v) as G.
    { unfold attr_get. rewrite E. now apply dict_get_first. }
    assert (reconcile_step (first :: rest) first pre k = (pre ++ [(k, v)])%list) as ->.
    { unfold reconcile_step. rewrite G.
      assert (forallb (fun attributes =>
                         match attr_get attributes k with
                         | Some v' => value_eqb v v'
                         | None => false
                         end) (first :: rest) = true) as ->.
      { apply forallb_forall. intros a [<-|I].
        - rewrite G. now apply value_eqb_eq.
        - rewrite Forall_forall in Same. rewrite <- (Same a I), G.
          now apply value_eqb_eq. }
      unfold attr_set. now apply dict_set_fresh. }
    apply (IH (pre ++ [(k, v)])%list). rewrite E, <- List.app_assoc. reflexivity.
Qed.

(** X5.  Reconciling a sample with itself changes nothing: when all the
    attribute sets are the same dictionary -- in particular when there is
    a single source sample -- the reconciled set is that dictionary, in the
    same order. *)
Theorem reconcile_identical_samples (first : attributes) (rest : list attributes) :
  dict_wf first -> Forall (eq first) rest ->
  find_common_attributes (first :: rest) = first.
Proof.
  intros W Same. unfold find_common_attributes.
  now apply (reconcile_fold_identical first rest first []).
Qed.

Lemma reconcile_identical_samples_witness :
  find_common_attributes [depth_common] = depth_common /\
  find_common_attributes [depth_common; depth_common] = depth_common.
Proof.
  split.
  - exact (reconcile_identical_samples depth_common [] depth_common_wf (Forall_nil _)).
  - exact (reconcile_identical_samples depth_common [depth_common] depth_common_wf
                                       (Forall_cons _ eq_refl (Forall_nil _))).
Defined.

(** ** Whole runs of a submission *)

Lemma loop_body_lookup (w : World) (output_dir : string) (st : loop_state)
      (s : SourceSample) :
  served w s ->
  exists root,
    read_source_sample (source_code s) root = Some s /\
    loop_body w output_dir st (source_code s)
    = (lookup_events w output_dir (source_code s),
       process_sample st (source_code s) root).
Proof.
  intros (response & root & G & S & C & R). exists root.
  split; [exact R|]. unfold loop_body, download_sample_xml, lookup_events.
  rewrite G, S, C. cbn.
  now destruct (process_sample st (source_code s) root).
Qed.

Lemma loop_exact_from (w : World) (output_dir : string) (first : SourceSample)
      (samples : list SourceSample) :
  Forall (served w) samples -> Forall (same_taxonomy first) samples ->
  forall st,
    common_taxon_id st = Some (source_taxon_id first) ->
    common_scientific_name st = Some (source_scientific_name first) ->
    mfor_each (loop_body w output_dir) (map source_code samples) st
    = (flat_map (lookup_events w output_dir) (map source_code samples),
       Ok (fold_left state_after samples st)).
Proof.
  induction samples as [|s samples IH]; intros Sv Ag st T N; [reflexivity|].
  inversion Sv as [|? ? Ss Sv']; inversion Ag as [|? ? As Ag']; subst.
  destruct (loop_body_lookup w output_dir st s Ss) as (root & R & L).
  destruct (state_after_taxonomy st first s As) as [T' N'].
  cbn [map mfor_each flat_map fold_left]. rewrite L.
  rewrite (process_agreeing_sample st root first s T N R As). cbn [mbind].
  now rewrite (IH Sv' Ag' (state_after st s) T' N').
Qed.

(** The loop over served samples of one taxonomy: the lookups, in order,
    and the state they leave. *)
Lemma loop_exact (w : World) (output_dir : string) (samples : list SourceSample) :
  Forall (served w) samples -> consistent samples ->
  mfor_each (loop_body w output_dir) (map source_code samples) initial_state
  = (flat_map (lookup_events w output_dir) (map source_code samples),
     Ok (run_state samples)).
Proof.
  destruct samples as [|first rest]; [reflexivity|]. intros Sv Cs.
  inversion Sv as [|? ? Sf Sr]; subst.
  destruct (loop_body_lookup w output_dir initial_state first Sf) as (root & R & L).
  rewrite (process_first_sample root first R) in L.
  unfold run_state. cbn [map mfor_each flat_map fold_left]. rewrite L. cbn [mbind].
  now rewrite (loop_exact_from w output_dir first rest Sr Cs
                               (state_after initial_state first) eq_refl eq_refl).
Qed.

Lemma lookup_events_fetch (w : World) (output_dir : string) (codes : list string) :
  forallb is_fetch_event (flat_map (lookup_events w output_dir) codes) = true.
Proof.
  induction codes as [|c codes IH]; [reflexivity|].
  cbn [flat_map]. rewrite forallb_app, IH, andb_true_r. unfold lookup_events.
  destruct (http_get w (sample_url c)) as [r|]; [|reflexivity].
  now destruct (status_code r =? 200)%nat.
Qed.

Lemma run_state_attributes (samples : list SourceSample) (st : loop_state) :
  all_attributes (fold_left state_after samples st)
  = (all_attributes st ++ map source_attributes samples)%list /\
  checklist_set (fold_left state_after samples st)
  = fold_left observe samples (checklist_set st).
Proof.
  revert st. induction samples as [|s samples IH]; intros st.
  - cbn. now rewrite List.app_nil_r.
  - cbn [fold_left map]. destruct (IH (state_after st s)) as [A C].
    rewrite A, C. cbn [state_after all_attributes checklist_set].
    now rewrite <- List.app_assoc.
Qed.

Lemma run_state_taxonomy (first : SourceSample) (rest : list SourceSample) :
  Forall (same_taxonomy first) rest ->
  common_taxon_id (run_state (first :: rest)) = Some (source_taxon_id first) /\
  common_scientific_name (run_state (first :: rest))
  = Some (source_scientific_name first).
Proof.
  unfold run_state. cbn [fold_left].
  assert (common_taxon_id (state_after initial_state first)
          = Some (source_taxon_id first) /\
          common_scientific_name (state_after initial_state first)
          = Some (source_scientific_name first)) as H by (split; reflexivity).
  revert H. generalize (state_after initial_state first).
  induction rest as [|s rest IH]; intros st H Ag; [exact H|].
  inversion Ag as [|? ? As Ag']; subst. cbn [fold_left].
  apply IH; [|exact Ag']. now apply state_after_taxonomy.
Qed.

Lemma resolves_run (w : World) (accession : string) (spec : ChecklistSpec) :
  resolves w accession spec ->
  mandatory_fields_and_units w accession = ([HttpGet (checklist_url accession)], Ok spec).
Proof.
  intros (response & root & G & S & C & R).
  now rewrite (mandatory_fields_and_units_ok w accession response root G S C), R.
Qed.

Lemma lookup_fails_run (w : World) (accession : string) :
  lookup_fails w accession ->
  mandatory_fields_and_units w accession
  = ([HttpGet (checklist_url accession)], Raise (SystemExit 1)).
Proof.
  unfold mandatory_fields_and_units. intros [G|(response & G & L & U)]; rewrite G.
  - reflexivity.
  - assert (((400 <=? status_code response)%nat && (status_code response <? 600)%nat)%bool
            = true) as ->; [|reflexivity].
    apply andb_true_intro. split; [now apply Nat.leb_le|now apply Nat.ltb_lt].
Qed.

Lemma run_state_observed (samples : list SourceSample) :
  all_attributes (run_state samples) = map source_attributes samples /\
  checklist_set (run_state samples) = observed_checklists samples.
Proof. exact (run_state_attributes samples initial_state). Qed.

(** The runs of this section: submission runs that find the credentials
    and a fresh output directory that is not the empty path, over samples
    the archive serves, all of the taxonomy of the first. *)
Section SubmissionRuns.
Variable w : World.
Variables output_dir account password : string.
Variables submit force : bool.
Variables checklist alias center : pytext.
Variable samples : list SourceSample.
Hypothesis credentials_found : credentials w = Some (account, password).
Hypothesis fresh_directory : path_exists w output_dir = false.
Hypothesis named_directory : output_dir <> "".
Hypothesis all_served : Forall (served w) samples.
Hypothesis one_taxonomy : consistent samples.

Local Abbreviation run :=
  (main w (map source_code samples) output_dir submit false checklist alias center force).
Local Abbreviation lookups :=
  (flat_map (lookup_events w output_dir) (map source_code samples)).

(** The run up to the end of the loop. *)
Lemma run_after_loop :
  run = (let (t, r) :=
           (lift (check_checklists (observed_checklists samples) checklist) ;;;
            let (final_checklist, warnings) :=
              select_checklist checklist (observed_checklists samples) in
            spec <-- mandatory_fields_and_units w final_checklist ;;
            emit (WriteFile (path_join output_dir "virtual_sample.xml")
                            (XmlDoc (mkElement "SAMPLE_SET" [] None
                                       [create_virtual_sample
                                          (find_common_attributes
                                             (map source_attributes samples))
                                          (map source_code samples)
                                          (common_taxon_id (run_state samples))
                                          (common_scientific_name (run_state samples))
                                          (virtual_sample_alias
                                             alias (map source_code samples))
                                          center (Some final_checklist)
                                          (mandatory_fields spec)]))) ;;;
            emit (WriteFile (path_join output_dir "submission.xml")
                            (XmlDoc create_submission_xml)) ;;;
            submit_to_ebi w account password (path_join output_dir "submission.xml")
                          (Some (path_join output_dir "virtual_sample.xml"))
                          (effective_submit warnings submit force) output_dir ;;;
            mret tt)
         in (MakeDirs output_dir :: lookups ++ t, r))%list.
Proof.
  rewrite (main_submission w _ output_dir submit checklist alias center force
                           account password credentials_found fresh_directory
                           named_directory).
  unfold submission_run.
  rewrite (loop_exact w output_dir samples all_served one_taxonomy). cbn [mbind].
  destruct (run_state_observed samples) as [-> ->].
  unfold virtual_sample_alias, effective_submit.
  match goal with
  | |- context [let (t2, r) := ?k in _] => destruct k as [t2 r]
  end.
  reflexivity.
Qed.

(** A run whose check passes and whose checklist is resolved: every
    effect, in order. *)
Lemma run_complete (spec : ChecklistSpec) :
  truthy checklist = true \/ List.length (observed_checklists samples) <= 1 ->
  resolves w (selected_checklist checklist samples) spec ->
  run = ((MakeDirs output_dir :: lookups)
           ++ [HttpGet (checklist_url (selected_checklist checklist samples));
               WriteFile (path_join output_dir "virtual_sample.xml")
                         (XmlDoc (mkElement "SAMPLE_SET" [] None
                                    [composed_record samples checklist alias center spec]));
               WriteFile (path_join output_dir "submission.xml")
                         (XmlDoc create_submission_xml);
               Subprocess (submission_command account password output_dir samples
                                              checklist submit force)]
           ++ receipt_events w output_dir
                (submission_command account password output_dir samples
                                    checklist submit force),
         Ok tt)%list.
Proof.
  intros K R. rewrite run_after_loop.
  rewrite (check_checklists_ok checklist _ K). cbn [lift mbind app].
  unfold composed_record, submission_command, selected_checklist, selection_warnings,
    receipt_events in *.
  destruct (select_checklist checklist (observed_checklists samples))
    as [final_checklist warnings].
  cbn [fst snd] in *. rewrite (resolves_run w final_checklist spec R).
  unfold submit_to_ebi. cbn [emit mbind app].
  destruct (run_curl w _) as [stdout|]; cbn [emit mbind mret app];
    rewrite <- ?List.app_assoc; reflexivity.
Qed.

(** A run whose check passes and whose checklist lookup fails. *)
Lemma run_lookup_failure :
  truthy checklist = true \/ List.length (observed_checklists samples) <= 1 ->
  lookup_fails w (selected_checklist checklist samples) ->
  run = ((MakeDirs output_dir :: lookups)
           ++ [HttpGet (checklist_url (selected_checklist checklist samples))],
         Raise (SystemExit 1))%list.
Proof.
  intros K F. rewrite run_after_loop.
  rewrite (check_checklists_ok checklist _ K). cbn [lift mbind app].
  unfold selected_checklist in *.
  destruct (select_checklist checklist (observed_checklists samples))
    as [final_checklist warnings].
  cbn [fst] in *. rewrite (lookup_fails_run w final_checklist F). reflexivity.
Qed.

(** What the lookups of the loop contain. *)
Lemma lookups_filtered :
  filter is_composed_document lookups = [] /\
  filter is_transport lookups = [] /\
  filter is_receipt lookups = [] /\
  filter is_request lookups = map sample_request (map source_code samples).
Proof.
  induction (map source_code samples) as [|c codes IH]; [cbn; auto|].
  destruct IH as (D & T & R & Q). cbn [flat_map map]. rewrite !filter_app, D, T, R, Q.
  unfold lookup_events.
  destruct (http_get w (sample_url c)) as [r|]; [|cbn; auto].
  destruct (status_code r =? 200)%nat; cbn; auto.
Qed.


(** The warnings of the selection, by cases. *)
Lemma effective_submit_target :
  truthy checklist = true \/ List.length (observed_checklists samples) <= 1 ->
  effective_submit (selection_warnings checklist samples) submit force
  = production_target checklist (observed_checklists samples) submit force.
Proof.
  intros K. unfold selection_warnings, production_target, effective_submit,
              select_checklist.
  destruct checklist as [[|a c]|]; cbn [truthy orb] in *.
  - destruct K as [K|K]; [discriminate|].
    destruct (observed_checklists samples) as [|x [|y l]]; cbn in K |- *;
      try lia; destruct submit, force; reflexivity.
  - destruct submit; reflexivity.
  - destruct K as [K|K]; [discriminate|].
    destruct (observed_checklists samples) as [|x [|y l]]; cbn in K |- *;
      try lia; destruct submit, force; reflexivity.
Qed.




End SubmissionRuns.

Lemma archive_resolves (status : nat) (stdout : option string) :
  status < 400 ->
  resolves (archive_variant status stdout) "ERC000011" checklist_doc_spec.
Proof.
  intros S. exists {| status_code := status; content := Some checklist_doc |}, checklist_doc.
  repeat split; auto.
Qed.

Lemma archive_serves (status : nat) (stdout : option string) :
  served (archive_variant status stdout) sample_ERS1 /\
  served (archive_variant status stdout) sample_ERS3.
Proof. split; eexists; eexists; repeat split; reflexivity. Qed.

Lemma status_200 : 200 < 400.
Proof. apply Nat.ltb_lt. reflexivity. Qed.



Lemma archive_lookup_fails (stdout : option string) :
  lookup_fails (archive_variant 404 stdout) "ERC000011".
Proof.
  right. exists {| status_code := 404; content := Some checklist_doc |}.
  split; [reflexivity|]. cbn. split; [apply Nat.leb_le|apply Nat.ltb_lt]; reflexivity.
Qed.



(** ** The checklist a run uses *)

Lemma observed_checklists_not_empty (samples : list SourceSample) :
  Forall (fun c => c <> "") (observed_checklists samples).
Proof.
  unfold observed_checklists.
  assert (Forall (fun c : string => c <> "") []) as F by constructor.
  revert F. generalize (@nil string).
  induction samples as [|s samples IH]; intros observed F; [exact F|].
  cbn [fold_left]. apply IH. unfold observe.
  destruct (sample_checklist s) as [[|a c]|]; try exact F.
  unfold set_add. destruct (in_dec string_dec (String a c) observed); [exact F|].
  apply Forall_app. split; [exact F|]. constructor; [discriminate|constructor].
Qed.

Lemma selected_checklist_not_empty (checklist : pytext) (samples : list SourceSample) :
  truthy (Some (selected_checklist checklist samples)) = true.
Proof.
  unfold selected_checklist, select_checklist.
  pose proof (observed_checklists_not_empty samples) as F.
  destruct checklist as [[|a c]|]; try reflexivity;
    destruct (observed_checklists samples) as [|x [|y l]]; try reflexivity;
    inversion F as [|? ? N _]; subst; destruct x; try reflexivity; congruence.
Qed.

(** X10.  Every record a submission run composes names its checklist: the
    selected checklist is never empty, so the record's first attribute is
    ENA-CHECKLIST with the selected checklist as value.  The selected
    checklist is the override when one is given (also when the samples
    carry other checklists); without an override it is the single
    observed value, and the default ERC000011 when none was observed. *)
Theorem composed_record_names_checklist
        (samples : list SourceSample) (checklist alias center : pytext)
        (spec : ChecklistSpec) :
  hd_error (emitted_attributes (composed_record samples checklist alias center spec))
  = Some (Some ENA_CHECKLIST, Some (selected_checklist checklist samples), None) /\
  (truthy checklist = true -> checklist = Some (selected_checklist checklist samples)) /\
  (truthy checklist = false ->
   forall c, observed_checklists samples = [c] ->
             selected_checklist checklist samples = c) /\
  (truthy checklist = false -> observed_checklists samples = [] ->
   selected_checklist checklist samples = DEFAULT_CHECKLIST).
Proof.
  split; [|split; [|split]].
  - unfold composed_record. rewrite emitted_attributes_composed.
    now rewrite selected_checklist_not_empty.
  - intros T. destruct (proj1 (checklist_policy_cases checklist
                                 (observed_checklists samples)) T) as (_ & c & -> & E).
    unfold selected_checklist. now rewrite E.
  - intros T c O. unfold selected_checklist.
    now rewrite (proj2 (proj1 (proj2 (checklist_policy_cases checklist _)) T c O)).
  - intros T O. unfold selected_checklist.
    now rewrite (proj2 (proj1 (proj2 (proj2 (checklist_policy_cases checklist _))) T O)).
Qed.

Lemma composed_record_names_checklist_witness :
  hd_error (emitted_attributes
              (composed_record [sample_ERS1; sample_ERS2] (Some "ERC000050") None None
                               checklist_doc_spec))
  = Some (Some ENA_CHECKLIST, Some "ERC000050", None) /\
  selected_checklist None [sample_ERS1; sample_ERS1] = "ERC000011" /\
  selected_checklist None [sample_ERS3] = DEFAULT_CHECKLIST.
Proof.
  split; [|split].
  - exact (proj1 (composed_record_names_checklist
                    [sample_ERS1; sample_ERS2] (Some "ERC000050") None None
                    checklist_doc_spec)).
  - exact (proj1 (proj2 (proj2 (composed_record_names_checklist
                    [sample_ERS1; sample_ERS1] None None None checklist_doc_spec)))
                 eq_refl "ERC000011" eq_refl).
  - exact (proj2 (proj2 (proj2 (composed_record_names_checklist
                    [sample_ERS3] None None None checklist_doc_spec)))
                 eq_refl eq_refl).
Defined.

(** ** Runs that stop early *)

Lemma download_refused (w : World) (output_dir sample_code : string)
      (response : Response) :
  http_get w (sample_url sample_code) = Some response ->
  status_code response <> 200 ->
  download_sample_xml w output_dir sample_code
  = ([HttpGet (sample_url sample_code)],
     Raise (Exception_ ("Failed to download XML for sample code " ++ sample_code))).
Proof.
  intros G S. unfold download_sample_xml. rewrite G.
  apply Nat.eqb_neq in S. rewrite S. reflexivity.
Qed.



(** X12.  The run stops before any effect when there is no credentials
    file, and a submission run stops before any effect when the output
    directory already exists: the script exits with status 1 and has
    requested, created, written and sent nothing. *)
Theorem main_stops_before_any_effect
        (w : World) (sample_codes : list string) (output_dir : string)
        (submit release : bool) (checklist alias center : pytext) (force : bool) :
  credentials w = None \/ (release = false /\ path_exists w output_dir = true) ->
  main w sample_codes output_dir submit release checklist alias center force
  = ([], Raise (SystemExit 1)).
Proof.
  unfold main, read_credentials. intros [C|[R P]].
  - now rewrite C.
  - subst release. rewrite P. destruct (credentials w) as [[account password]|];
      reflexivity.
Qed.

Lemma main_stops_before_any_effect_witness :
  main no_credentials_world ["ERS1"] "out" true false None None None false
  = ([], Raise (SystemExit 1)) /\
  main no_receipt_world ["ERS1"] "out" true false None None None false
  = ([], Raise (SystemExit 1)).
Proof.
  split.
  - exact (main_stops_before_any_effect
             no_credentials_world ["ERS1"] "out" true false None None None false
             (or_introl eq_refl)).
  - exact (main_stops_before_any_effect
             no_receipt_world ["ERS1"] "out" true false None None None false
             (or_intror (conj eq_refl eq_refl))).
Defined.

(** ** The release phase, effect by effect *)

(** A release run that finds an accession in the receipt. *)
Lemma release_exact
      (w : World) (sample_codes : list string) (output_dir : string)
      (submit : bool) (checklist alias center : pytext) (force : bool)
      (account password receipt acc : string) :
  credentials w = Some (account, password) ->
  output_dir <> "" ->
  read_file w (path_join output_dir "submission_response.xml") = Some receipt ->
  extract_sample_code_from_response receipt = Some acc ->
  main w sample_codes output_dir submit true checklist alias center force
  = (directory_events w output_dir
       ++ [WriteFile (path_join output_dir "release.xml")
                     (XmlDoc (create_release_xml acc));
           Subprocess (release_command account password output_dir submit)]
       ++ receipt_events w output_dir (release_command account password output_dir submit),
     Ok tt)%list.
Proof.
  intros C N R E. unfold main, read_credentials, release_run, directory_events,
                    receipt_events, release_command, makedirs.
  rewrite C, R, E, (proj2 (String.eqb_neq output_dir "") N). cbn [negb andb mbind mret].
  destruct acc as [|c acc].
  - apply extract_sound in E. destruct E as [A _]. now apply accession_not_empty in A.
  - unfold submit_to_ebi.
    destruct (run_curl w _); destruct (path_exists w output_dir); reflexivity.
Qed.

(** X13.  The effects of a release run that finds an accession, the output
    directory not being the empty path, in order: the output directory is
    created if it is missing, release.xml is
    written with the accession as release target, curl is run once with
    release.xml as submission, and when curl answers, its response
    replaces the stored receipt in submission_response.xml.  The run ends
    normally whether or not curl succeeded. *)
Theorem release_run_effects
        (w : World) (sample_codes : list string) (output_dir : string)
        (submit : bool) (checklist alias center : pytext) (force : bool)
        (account password receipt acc : string) :
  credentials w = Some (account, password) ->
  output_dir <> "" ->
  read_file w (path_join output_dir "submission_response.xml") = Some receipt ->
  extract_sample_code_from_response receipt = Some acc ->
  let run := main w sample_codes output_dir submit true checklist alias center force in
  let command := release_command account password output_dir submit in
  snd run = Ok tt /\
  fst run
  = (directory_events w output_dir
       ++ [WriteFile (path_join output_dir "release.xml")
                     (XmlDoc (create_release_xml acc));
           Subprocess command]
       ++ match run_curl w command with
          | Some stdout =>
              [WriteFile (path_join output_dir "submission_response.xml") (Text stdout)]
          | None => []
          end)%list.
Proof.
  intros C N R E run command. subst run command.
  rewrite (release_exact w sample_codes output_dir submit checklist alias center force
                         account password receipt acc C N R E).
  split; reflexivity.
Qed.

Lemma release_run_effects_witness :
  main (release_world receipt_both) [] "out" true true None None None false
  = ([WriteFile "out/release.xml" (XmlDoc (create_release_xml "ERS123"));
      Subprocess (curl_command "account" "password" "out/release.xml"
                               (Some "out/virtual_sample.xml") true);
      WriteFile "out/submission_response.xml" (Text "<RECEIPT success=true/>")],
     Ok tt).
Proof.
  destruct (release_run_effects
              (release_world receipt_both) [] "out" true None None None false
              "account" "password" receipt_both "ERS123" eq_refl out_not_empty
              eq_refl eq_refl)
    as [E T].
  reflexivity.
Defined.



(** ** From one run to the next *)

Lemma touches_same (path : string) (data : payload) :
  touches path (WriteFile path data) = true.
Proof. cbn. apply String.eqb_refl. Qed.



Section TwoPhases.
Variable render : payload -> string.
Variable w : World.
Variables output_dir account password : string.
Variables submit force : bool.
Variables checklist alias center : pytext.
Variable samples : list SourceSample.
Variable spec : ChecklistSpec.
Hypothesis credentials_found : credentials w = Some (account, password).
Hypothesis fresh_directory : path_exists w output_dir = false.
Hypothesis named_directory : output_dir <> "".
Hypothesis all_served : Forall (served w) samples.
Hypothesis one_taxonomy : consistent samples.
Hypothesis check_passes :
  truthy checklist = true \/ List.length (observed_checklists samples) <= 1.
Hypothesis checklist_resolved : resolves w (selected_checklist checklist samples) spec.

Local Abbreviation submission :=
  (main w (map source_code samples) output_dir submit false checklist alias center force).

(** The receipt the next run finds is the response of this run's curl. *)
Lemma receipt_after_submission (receipt : string) :
  run_curl w (submission_command account password output_dir samples
                                 checklist submit force) = Some receipt ->
  read_file (after_run render w (fst submission))
            (path_join output_dir "submission_response.xml") = Some receipt.
Proof.
  intros R.
  rewrite (run_complete w output_dir account password submit force checklist alias center
                        samples credentials_found fresh_directory named_directory
                        all_served one_taxonomy spec check_passes checklist_resolved).
  cbn [fst after_run read_file]. unfold receipt_events. rewrite R.
  rewrite !rev_app_distr. cbn [rev app List.find].
  now rewrite touches_same.
Qed.


End TwoPhases.

Lemma answering_world_serves : served answering_world sample_ERS1.
Proof. eexists. eexists. repeat split; reflexivity. Qed.

Lemma answering_world_resolves :
  resolves answering_world "ERC000011" checklist_doc_spec.
Proof.
  exists {| status_code := 200; content := Some checklist_doc |}, checklist_doc.
  repeat split; auto. left. exact status_200.
Qed.


(** ** The checklist resolver: units and unreadable documents *)

Lemma units_after_declaring (fields : list Element) (units : dict pytext pytext) :
  units_after fields units
  = fold_left (fun d field => dict_set pytext_eq_dec d (field_name field)
                                       (declared_unit field))
              (filter declares_units fields) units.
Proof.
  revert units. induction fields as [|field fields IH]; intros units; [reflexivity|].
  cbn [units_after fold_left filter]. fold (units_after fields).
  destruct (find field "UNITS") as [us|] eqn:U.
  - replace (declares_units field) with true
      by (unfold declares_units; now rewrite U).
    cbn [fold_left].
    replace (declared_unit field) with (child_text us "UNIT")
      by (unfold declared_unit; now rewrite U).
    apply IH.
  - replace (declares_units field) with false
      by (unfold declares_units; now rewrite U).
    apply IH.
Qed.

Lemma units_after_get (fields : list Element) (n : pytext) :
  dict_get pytext_eq_dec (units_after fields []) n
  = option_map declared_unit (last_declaring fields n).
Proof.
  rewrite units_after_declaring.
  rewrite (dict_loop_get _ _ _ pytext_eq_dec field_name declared_unit).
  unfold last_declaring.
  assert (forall l : list Element,
             List.find (fun x => if pytext_eq_dec (field_name x) n then true else false) l
             = List.find (fun field => pytext_eqb (field_name field) n) l) as ->.
  { induction l as [|x l IH]; [reflexivity|]. cbn [List.find]. rewrite IH.
    destruct (pytext_eq_dec (field_name x) n) as [E|N].
    - now rewrite (proj2 (pytext_eqb_eq _ _) E).
    - destruct (pytext_eqb (field_name x) n) eqn:B; [|reflexivity].
      apply pytext_eqb_eq in B. contradiction. }
  now destruct (List.find _ _).
Qed.

Lemma units_after_wf (fields : list Element) : dict_wf (units_after fields []).
Proof.
  rewrite units_after_declaring.
  apply (dict_loop_wf _ _ _ pytext_eq_dec field_name declared_unit). constructor.
Qed.

(** X17.  The units mapping of the resolver.  When the checklist
    document arrives and is readable, the mapping has one entry per field
    name, and the unit of a name is the one declared by the last FIELD of
    that name that has a UNITS child (an earlier declaration is
    overwritten, a later FIELD of that name without UNITS changes
    nothing): the text of the first UNIT of that UNITS child, or [None]
    when the UNITS child holds no UNIT.  A name no FIELD declares units
    for has no entry. *)
Theorem resolver_units_last_declaration
        (w : World) (accession : string) (response : Response) (root : Element) :
  http_get w (checklist_url accession) = Some response ->
  status_code response < 400 \/ 600 <= status_code response ->
  content response = Some root ->
  readable_checklist root ->
  exists spec,
    mandatory_fields_and_units w accession
    = ([HttpGet (checklist_url accession)], Ok spec) /\
    dict_wf (fields_with_units spec) /\
    forall n, dict_get pytext_eq_dec (fields_with_units spec) n
              = option_map declared_unit (last_declaring (findall_desc root "FIELD") n).
Proof.
  intros G S C R.
  destruct (read_checklist_ok root R) as (spec & E & _ & _ & U).
  exists spec. split; [|split].
  - now rewrite (mandatory_fields_and_units_ok w accession response root G S C), E.
  - rewrite U. apply units_after_wf.
  - intros n. rewrite U. apply units_after_get.
Qed.

Lemma checklist_doc_units_readable : readable_checklist checklist_doc_units.
Proof.
  split.
  - eexists. eexists. split; reflexivity.
  - repeat constructor; discriminate.
Qed.

Lemma resolver_units_last_declaration_witness :
  exists spec,
    mandatory_fields_and_units (serving_world checklist_doc_units) "ERC000011"
    = ([HttpGet (checklist_url "ERC000011")], Ok spec) /\
    dict_get pytext_eq_dec (fields_with_units spec) (Some "depth") = Some (Some "cm") /\
    dict_get pytext_eq_dec (fields_with_units spec) (Some "altitude") = Some None /\
    dict_get pytext_eq_dec (fields_with_units spec) (Some "sex") = None.
Proof.
  destruct (resolver_units_last_declaration
              (serving_world checklist_doc_units) "ERC000011"
              {| status_code := 200; content := Some checklist_doc_units |}
              checklist_doc_units eq_refl (or_introl status_200) eq_refl
              checklist_doc_units_readable)
    as (spec & E & _ & U).
  exists spec. split; [exact E|]. rewrite !U. repeat split; reflexivity.
Defined.

(** The loop over the fields either meets only fields with a NAME and a
    MANDATORY child, or raises [AttributeError]. *)
Lemma classify_fields_cases (fields : list Element)
      (st : list pytext * dict pytext pytext * list pytext) :
  Forall (fun field => find field "NAME" <> None /\ find field "MANDATORY" <> None)
         fields
  \/ for_each classify_field fields st = Raise AttributeError.
Proof.
  revert st. induction fields as [|field fields IH]; intros [[m u] r]; [left; constructor|].
  destruct (find field "NAME") as [n|] eqn:N.
  - destruct (find field "MANDATORY") as [o|] eqn:O.
    + cbn [for_each].
      rewrite classify_field_ok by (rewrite ?N, ?O; discriminate). cbn [rbind].
      match goal with
      | |- _ \/ for_each _ _ ?st' = _ => destruct (IH st') as [F|F]
      end.
      * left. constructor; [|exact F]. rewrite N, O. split; discriminate.
      * right. exact F.
    + right. cbn [for_each]. unfold classify_field. rewrite N, O. reflexivity.
  - right. cbn [for_each]. unfold classify_field. rewrite N. reflexivity.
Qed.

Lemma read_checklist_unreadable (root : Element) :
  ~ readable_checklist root -> read_checklist root = Raise AttributeError.
Proof.
  intros NR. unfold read_checklist.
  destruct (find_desc root "DESCRIPTOR") as [desc|] eqn:D; [|reflexivity].
  cbn [find_in rbind].
  destruct (find desc "NAME") as [n|] eqn:N; [|reflexivity].
  cbn [text_of rbind].
  destruct (classify_fields_cases (findall_desc root "FIELD") ([], [], [])) as [F|F].
  - exfalso. apply NR. split; [|exact F]. exists desc, n. auto.
  - unfold rbind. now rewrite F.
Qed.

(** X18.  A checklist document the resolver cannot read.  When the
    document arrives, the resolver raises [AttributeError] -- not the exit
    status 1 of a failed download -- exactly when the document has no
    DESCRIPTOR element, or its first DESCRIPTOR has no NAME child, or one
    of its FIELD elements lacks a NAME or a MANDATORY child; the request
    is its only effect. *)
Theorem unreadable_checklist_raises
        (w : World) (accession : string) (response : Response) (root : Element) :
  http_get w (checklist_url accession) = Some response ->
  status_code response < 400 \/ 600 <= status_code response ->
  content response = Some root ->
  (mandatory_fields_and_units w accession
   = ([HttpGet (checklist_url accession)], Raise AttributeError)
   <-> ~ readable_checklist root).
Proof.
  intros G S C.
  rewrite (mandatory_fields_and_units_ok w accession response root G S C). split.
  - intros E R. destruct (read_checklist_ok root R) as (spec & E' & _).
    rewrite E' in E. discriminate.
  - intros NR. now rewrite (read_checklist_unreadable root NR).
Qed.

Lemma unreadable_checklist_raises_witness :
  mandatory_fields_and_units (serving_world checklist_doc_unmarked) "ERC000011"
  = ([HttpGet (checklist_url "ERC000011")], Raise AttributeError).
Proof.
  apply (proj2 (unreadable_checklist_raises
                  (serving_world checklist_doc_unmarked) "ERC000011"
                  {| status_code := 200; content := Some checklist_doc_unmarked |}
                  checklist_doc_unmarked eq_refl (or_introl status_200) eq_refl)).
  intros [_ F]. cbn in F.
  inversion F as [|? ? _ F']. inversion F' as [|? ? [_ M] _]. now apply M.
Defined.

(** ** The empty path as output directory *)

(** X20.  The empty path cannot be an output directory.  It never exists
    and [os.makedirs] refuses it: with credentials, a run whose output
    directory is the empty path ends with a FileNotFoundError for that
    path before any effect, in submission mode and in release mode alike
    -- in release mode also when a receipt could be read from the current
    directory. *)
Theorem empty_output_directory_raises
        (w : World) (sample_codes : list string) (submit release : bool)
        (checklist alias center : pytext) (force : bool) (account password : string) :
  credentials w = Some (account, password) ->
  path_exists w "" = false ->
  main w sample_codes "" submit release checklist alias center force
  = ([], Raise (FileNotFoundError "")).
Proof.
  intros C P. unfold main, read_credentials, makedirs. rewrite C, P.
  cbn [mbind mret negb andb]. rewrite andb_false_r.
  cbn [String.eqb throw mbind]. reflexivity.
Qed.

Lemma empty_output_directory_raises_witness :
  main archive_world ["ERS1"; "ERS3"] "" false false None None None false
  = ([], Raise (FileNotFoundError "")) /\
  main archive_world [] "" false true None None None false
  = ([], Raise (FileNotFoundError "")).
Proof.
  split.
  - exact (empty_output_directory_raises
             archive_world ["ERS1"; "ERS3"] false false None None None false
             "account" "password" eq_refl eq_refl).
  - exact (empty_output_directory_raises
             archive_world [] false true None None None false
             "account" "password" eq_refl eq_refl).
Defined.
